(** * Lightdash ProjectModel: a shallow embedding and its verified properties

    The development follows
    [packages/backend/src/models/ProjectModel/ProjectModel.ts]:
    the credential secret-merge helpers, the explore cache, the advisory
    lock coordinator, project access control and the preview content
    cloner ([duplicateContent]); then the redacted read of a project
    ([get]), the member listing and its updates, and the tables
    configuration. *)

From Stdlib Require Import ZArith Lia Eqdep_dec Ascii.
From stdpp Require Import base gmap strings list pretty.

Local Open Scope Z_scope.
Local Open Scope string_scope.

(** ** JavaScript values

    Connection configurations are plain JavaScript objects whose fields the
    merge helpers read through [(config as any)[secretKey]]: a field holds
    any value, and an absent field reads as [undefined]. *)

#[local] Set Warnings "-register-all".

Inductive JsValue : Type :=
| JsUndefined
| JsNull
| JsBoolean (b : bool)
| JsNumber (n : Z)
| JsString (s : string)
| JsObject (fields : list (string * JsValue)).

(** The truthiness test behind [!x] and [x && y]. *)
Definition truthy (v : JsValue) : bool :=
  match v with
  | JsUndefined | JsNull => false
  | JsBoolean b => b
  | JsNumber n => negb (Z.eqb n 0)
  | JsString s => negb (String.eqb s "")
  | JsObject _ => true
  end.

(** [a === b]. Two object values are equal only when they are the same
    reference; the two configurations compared here are distinct objects
    (one from the request, one decrypted from storage), so an object-valued
    field of one is never identical to a field of the other. *)
Definition strict_equal (a b : JsValue) : bool :=
  match a, b with
  | JsUndefined, JsUndefined => true
  | JsNull, JsNull => true
  | JsBoolean x, JsBoolean y => Bool.eqb x y
  | JsNumber x, JsNumber y => Z.eqb x y
  | JsString x, JsString y => String.eqb x y
  | _, _ => false
  end.

(** [obj[key]] *)
Definition prop (obj : gmap string JsValue) (key : string) : JsValue :=
  default JsUndefined (obj !! key).

(** ** Credential secret merge *)

Section SecretMerge.

(** [sensitiveDbtCredentialsFieldNames] and [sensitiveCredentialsFieldNames]
    are imported from [@lightdash/common]; the helpers are parametric in
    them. *)
Variable sensitiveDbtCredentialsFieldNames : list string.
Variable sensitiveCredentialsFieldNames : list string.

Definition mergeMissingDbtConfigSecrets
    (incompleteConfig completeConfig : gmap string JsValue)
  : gmap string JsValue :=
  if negb (strict_equal (prop incompleteConfig "type")
                        (prop completeConfig "type"))
  then incompleteConfig
  else
    fold_left
      (fun (sum : gmap string JsValue) (secretKey : string) =>
         if negb (truthy (prop incompleteConfig secretKey))
            && truthy (prop completeConfig secretKey)
         then <[secretKey := prop completeConfig secretKey]> sum
         else sum)
      sensitiveDbtCredentialsFieldNames ∅
    ∪ incompleteConfig.

Definition mergeMissingWarehouseSecrets
    (incompleteConfig completeConfig : gmap string JsValue)
  : gmap string JsValue :=
  if negb (strict_equal (prop incompleteConfig "type")
                        (prop completeConfig "type"))
  then incompleteConfig
  else
    fold_left
      (fun (sum : gmap string JsValue) (secretKey : string) =>
         if negb (truthy (prop incompleteConfig secretKey))
            && truthy (prop completeConfig secretKey)
         then <[secretKey := prop completeConfig secretKey]> sum
         else sum)
      sensitiveCredentialsFieldNames ∅
    ∪ incompleteConfig.

End SecretMerge.

(** ** Errors and the state-and-error monad

    Every [async] method of the model either resolves with a value or
    rejects with an error, and acts on the storage it is connected to. *)

(** [DatabaseError] of the [pg] driver; [constraint] is the name of the
    violated constraint when the error is a constraint violation. *)
Record DatabaseError : Type := { constraint : option string }.

Inductive Error : Type :=
| TypeError (message : string)
| PgDatabaseError (e : DatabaseError)
| NotExistsError (message : string)
| AlreadyExistsError (message : string).

Inductive Result (A : Type) : Type :=
| Ok (a : A)
| Err (e : Error).
Arguments Ok {A} a.
Arguments Err {A} e.

Definition M (S A : Type) : Type := S -> Result A * S.

Definition ret {S A} (a : A) : M S A := fun s => (Ok a, s).

Definition throw {S A} (e : Error) : M S A := fun s => (Err e, s).

Definition bind {S A B} (m : M S A) (k : A -> M S B) : M S B :=
  fun s =>
    match m s with
    | (Ok a, s') => k a s'
    | (Err e, s') => (Err e, s')
    end.

Notation "'let*' x ':=' m 'in' k" := (bind m (fun x => k))
  (at level 10, x name, m at level 100, k at level 200).
Notation "'run' m 'then' k" := (bind m (fun _ => k))
  (at level 10, m at level 100, k at level 200).

Definition lift_result {S A} (r : Result A) : M S A := fun s => (r, s).

(** [[x] = rows]: the first element of an array, [undefined] when empty. *)
Definition first {A} (rows : list A) : option A := head rows.

(** [x.field] where [x] may be [undefined]: reading a property of
    [undefined] throws a [TypeError]. *)
Definition deref {S A B} (x : option A) (field : A -> B) : M S B :=
  match x with
  | Some a => ret (field a)
  | None => throw (TypeError "Cannot read properties of undefined")
  end.

(** ** Tables and rows *)

Definition Uuid : Type := string.

(** A value held by a column of the database or by a [jsonb] document:
    JSON data, with no [undefined]. *)
Inductive Json : Type :=
| JNull
| JBoolean (b : bool)
| JNumber (n : Z)
| JString (s : string)
| JArray (items : list Json)
| JObject (fields : list (string * Json)).

(** The columns of a row that the model neither reads nor rewrites; object
    spread [{...d}] carries them over unchanged. *)
Definition Columns : Type := list (string * Json).

(** The four tables that hang off a chart version, and the three that hang
    off a dashboard tile. *)
Inductive ChartVersionContentTable : Type :=
| table_calculations
| sorts
| fields
| additional_metrics.

Inductive TileContentTable : Type :=
| tile_charts
| tile_looms
| tile_markdowns.

Inductive Table : Type :=
| projects
| spaces
| space_share
| saved_queries
| saved_queries_versions
| saved_queries_version_content (c : ChartVersionContentTable)
| dashboards
| dashboard_versions
| dashboard_tiles
| dashboard_tile_content (c : TileContentTable)
| preview_content
| cached_explores
| users
| emails
| project_memberships.

Definition saved_queries_version_table_calculations : Table :=
  saved_queries_version_content table_calculations.
Definition saved_queries_version_sorts : Table :=
  saved_queries_version_content sorts.
Definition saved_queries_version_fields : Table :=
  saved_queries_version_content fields.
Definition saved_queries_version_additional_metrics : Table :=
  saved_queries_version_content additional_metrics.
Definition dashboard_tile_charts : Table := dashboard_tile_content tile_charts.
Definition dashboard_tile_looms : Table := dashboard_tile_content tile_looms.
Definition dashboard_tile_markdowns : Table :=
  dashboard_tile_content tile_markdowns.

Definition Table_eq_dec (t t' : Table) : {t = t'} + {t <> t'}.
Proof. repeat decide equality. Defined.

(** An entry [{ id, newId }] of a content mapping. *)
Record IdMapping (K : Type) : Type := { oldId : K; newId : K }.
Arguments oldId {K} _.
Arguments newId {K} _.

(** [PreviewContentMapping] *)
Record PreviewContentMapping : Type := {
  mapping_charts : list (IdMapping Z);
  mapping_chartVersions : list (IdMapping Z);
  mapping_spaces : list (IdMapping Z);
  mapping_dashboards : list (IdMapping Z);
  mapping_dashboardVersions : list (IdMapping Z)
}.

(** The columns a caller supplies when inserting. A foreign key that the
    cloner rewrites through a [find(...)?.newId] lookup is an [option]:
    [None] is the [undefined] of an unresolved lookup, stored as [NULL]. *)

Record ProjectData : Type := { project_columns : Columns }.

Record SpaceData : Type := {
  space_project_id : Z;
  space_columns : Columns
}.

Record SpaceShareData : Type := {
  space_share_space_id : option Z;
  space_share_columns : Columns
}.

Record SavedChartData : Type := {
  saved_query_space_id : option Z;
  saved_query_columns : Columns
}.

Record ChartVersionData : Type := {
  version_saved_query_id : option Z;
  version_columns : Columns
}.

Record VersionContentData : Type := {
  content_saved_queries_version_id : option Z;
  content_columns : Columns
}.

Record DashboardData : Type := {
  dashboard_space_id : option Z;
  dashboard_columns : Columns
}.

Record DashboardVersionData : Type := {
  dashboard_version_dashboard_id : option Z;
  dashboard_version_columns : Columns
}.

Record DashboardTileData : Type := {
  tile_dashboard_version_id : option Z;
  dashboard_tile_uuid : Uuid;
  tile_columns : Columns
}.

(** Rows of [dashboard_tile_charts], [dashboard_tile_looms] and
    [dashboard_tile_markdowns]; only the first has a [saved_chart_id]
    column, which is nullable. *)
Record TileContentData : Type := {
  tile_content_dashboard_version_id : option Z;
  tile_content_dashboard_tile_uuid : option Uuid;
  saved_chart_id : option Z;
  tile_content_columns : Columns
}.

Record PreviewContentData : Type := {
  preview_content_project_uuid : Uuid;
  preview_project_uuid : Uuid;
  content_mapping : PreviewContentMapping
}.

Record CachedExploresData : Type := {
  cached_explores_project_uuid : Uuid;
  explores : list Json
}.

Record UserData : Type := { user_columns : Columns }.

Record EmailData : Type := {
  email_user_id : Z;
  email : string;
  email_columns : Columns
}.

Record ProjectMembershipData : Type := {
  membership_project_id : Z;
  membership_role : string;
  membership_user_id : Z
}.

Definition Data (t : Table) : Type :=
  match t with
  | projects => ProjectData
  | spaces => SpaceData
  | space_share => SpaceShareData
  | saved_queries => SavedChartData
  | saved_queries_versions => ChartVersionData
  | saved_queries_version_content _ => VersionContentData
  | dashboards => DashboardData
  | dashboard_versions => DashboardVersionData
  | dashboard_tiles => DashboardTileData
  | dashboard_tile_content _ => TileContentData
  | preview_content => PreviewContentData
  | cached_explores => CachedExploresData
  | users => UserData
  | emails => EmailData
  | project_memberships => ProjectMembershipData
  end.

(** The autogenerated columns of a table, the ones [duplicateContent]
    removes from a row before inserting its copy: a serial id and a uuid,
    a serial id alone, or none. *)
Definition Auto (t : Table) : Type :=
  match t with
  | projects | spaces | saved_queries | saved_queries_versions
  | dashboards | users => (Z * Uuid)%type
  | saved_queries_version_content _ | dashboard_versions => Z
  | _ => unit
  end.

Definition Row (t : Table) : Type := (Auto t * Data t)%type.

Definition data {t : Table} (r : Row t) : Data t := snd r.

Definition project_id (p : Row projects) : Z := fst (fst p).
Definition project_uuid (p : Row projects) : Uuid := snd (fst p).
Definition space_id (s : Row spaces) : Z := fst (fst s).
Definition space_uuid (s : Row spaces) : Uuid := snd (fst s).
Definition saved_query_id (c : Row saved_queries) : Z := fst (fst c).
Definition saved_query_uuid (c : Row saved_queries) : Uuid := snd (fst c).
Definition saved_queries_version_id (v : Row saved_queries_versions) : Z :=
  fst (fst v).
Definition saved_queries_version_uuid (v : Row saved_queries_versions)
  : Uuid := snd (fst v).
Definition dashboard_id (d : Row dashboards) : Z := fst (fst d).
Definition dashboard_uuid (d : Row dashboards) : Uuid := snd (fst d).
Definition dashboard_version_id (v : Row dashboard_versions) : Z := fst v.
Definition user_id (u : Row users) : Z := fst (fst u).

Definition Database : Type := forall t : Table, list (Row t).

(** Replace the rows of one table. *)
Definition upd (t : Table) (rows : list (Row t)) (db : Database)
  : Database :=
  fun t' =>
    match Table_eq_dec t t' with
    | left e => eq_rect t (fun x => list (Row x)) rows t' e
    | right _ => db t'
    end.

(** ** The storage engine

    What the relational store decides on its own: whether an [insert] is
    rejected (any constraint of the schema), and the values of the
    autogenerated columns of the [i]-th row of an inserted batch. The model
    is parametric in both. *)
Record StorageEngine : Type := {
  violates : forall t : Table, list (Data t) -> Database ->
             option DatabaseError;
  generated : forall t : Table, Database -> nat -> Auto t
}.

(** SQL comparisons: [NULL] is equal to nothing. *)
Definition sql_eq (column : option Z) (value : Z) : bool :=
  match column with
  | Some x => Z.eqb x value
  | None => false
  end.

(** [column IN (values)] *)
Definition sql_in (column : option Z) (values : list (option Z)) : bool :=
  match column with
  | Some x => existsb (fun v => sql_eq v x) values
  | None => false
  end.

Definition sql_in_uuid (column : Uuid) (values : list Uuid) : bool :=
  existsb (String.eqb column) values.

(** [MAX(column)] over a group: [NULL] for no rows. *)
Definition sql_max (values : list Z) : option Z :=
  match values with
  | [] => None
  | x :: rest => Some (fold_left Z.max rest x)
  end.

(** [rows.groupBy(key).max(value)]: one [{ max }] per distinct key. *)
Definition groupBy_max {R} (rows : list R) (key : R -> option Z)
    (value : R -> Z) : list (option Z) :=
  map (fun g => sql_max (map value
                  (List.filter (fun r => bool_decide (key r = g)) rows)))
      (remove_dups (map key rows)).

(** [from.leftJoin(spaces, from.space_id = spaces.space_id)
        .where(spaces.project_id = projectId)], selecting the columns of
    [from]:
    a row of [from] once for every space of the project it joins with; the
    rows without a matching space have a [NULL] project and are filtered
    out. *)
Definition leftJoin_spaces_where_project {R} (from : list R)
    (joined : list (Row spaces)) (space_of : R -> option Z) (projectId : Z)
  : list R :=
  flat_map
    (fun r =>
       map (fun _ => r)
           (List.filter
              (fun s => sql_eq (space_of r) (space_id s)
                        && Z.eqb (space_project_id (data s)) projectId)
              joined))
    from.

(** [mapping.find((m) => m.id === key)?.newId] *)
Definition find_newId (mapping : list (IdMapping Z)) (key : option Z)
  : option Z :=
  newId <$> List.find (fun m => sql_eq key (oldId m)) mapping.

Definition find_newUuid (mapping : list (IdMapping Uuid))
    (key : option Uuid) : option Uuid :=
  newId <$> List.find
              (fun m => match key with
                        | Some k => String.eqb (oldId m) k
                        | None => false
                        end) mapping.

(** [rows.map(f)] *)
Definition js_map {A B} (rows : list A) (f : A -> B) : list B := map f rows.

(** [olds.map((c, i) => ({ id: c.key, newId: news[i].key }))]: reading the
    key of a missing [news[i]] throws. *)
Fixpoint zip_mapping {A B K} (olds : list A) (news : list B)
    (key_old : A -> K) (key_new : B -> K) : Result (list (IdMapping K)) :=
  match olds with
  | [] => Ok []
  | c :: olds' =>
      match news with
      | [] => Err (TypeError "Cannot read properties of undefined")
      | n :: news' =>
          match zip_mapping olds' news' key_old key_new with
          | Ok rest =>
              Ok ({| oldId := key_old c; newId := key_new n |} :: rest)
          | Err e => Err e
          end
      end
  end.

(** [try { body } catch (error) { handler }] *)
Definition try_catch {S A} (body : M S A) (handler : Error -> M S A)
  : M S A :=
  fun s =>
    match body s with
    | (Ok a, s') => (Ok a, s')
    | (Err e, s') => handler e s'
    end.

(** [database.transaction(async (trx) => body)]: commit when the body
    resolves; when it rejects, roll back the statements the body issued on
    [trx] and reject with the same error. [rollback_to snapshot s] is the
    state [s] with the storage as it was at [snapshot]. *)
Class Transactional (S : Type) : Type := rollback_to : S -> S -> S.

Definition transaction {S} `{Transactional S} {A} (body : M S A) : M S A :=
  fun s =>
    match body s with
    | (Ok a, s') => (Ok a, s')
    | (Err e, s') => (Err e, rollback_to s s')
    end.

#[global] Instance Database_Transactional : Transactional Database :=
  fun snapshot _ => snapshot.

(** Statements issued on a connection or on a transaction. *)
Section Statements.

Variable engine : StorageEngine.

(** [trx(t)] / [trx(t).select('*')] *)
Definition select (t : Table) : M Database (list (Row t)) :=
  fun db => (Ok (db t), db).

(** [trx(t).where(...)] *)
Definition where_ (t : Table) (condition : Row t -> bool)
  : M Database (list (Row t)) :=
  fun db => (Ok (List.filter condition (db t)), db).

(** [trx(t).insert(rows).returning('*')] *)
Definition insert (t : Table) (rows : list (Data t))
  : M Database (list (Row t)) :=
  fun db =>
    match violates engine t rows db with
    | Some e => (Err (PgDatabaseError e), db)
    | None =>
        let inserted := imap (fun i d => (generated engine t db i, d)) rows in
        (Ok inserted, upd t (db t ++ inserted) db)
    end.

(** [trx(t).insert(row).onConflict(column).merge().returning('*')]:
    when rows conflict with [row] on the column they take the values of
    [row]; otherwise [row] is inserted. *)
Definition insert_onConflict_merge (t : Table)
    (conflict : Data t -> Data t -> bool) (row : Data t)
  : M Database (list (Row t)) :=
  fun db =>
    match violates engine t [row] db with
    | Some e => (Err (PgDatabaseError e), db)
    | None =>
        if existsb (fun r => conflict (data r) row) (db t)
        then
          let merged :=
            map (fun r => if conflict (data r) row
                          then (fst r, row) else r) (db t) in
          (Ok (List.filter (fun r => conflict (data r) row) merged),
           upd t merged db)
        else
          let inserted := [(generated engine t db 0%nat, row)] in
          (Ok inserted, upd t (db t ++ inserted) db)
    end.

End Statements.

(** ** The preview content cloner *)

Section Cloner.

Variable engine : StorageEngine.

(** [copyChartVersionContent(table, fieldId)], a closure of
    [duplicateContent] over [chartVersionIds] and [chartVersionMapping].
    Each call passes a table with the name [fieldId] of its own serial id
    column, which [delete createContent[fieldId]] removes from the copy:
    the copy is the data of the row, its id is generated anew. *)
Definition copyChartVersionContent (chartVersionIds : list Z)
    (chartVersionMapping : list (IdMapping Z))
    (table : ChartVersionContentTable)
  : M Database (option (list (Row (saved_queries_version_content table)))) :=
  let* content :=
    where_ (saved_queries_version_content table)
      (fun d => sql_in (content_saved_queries_version_id (data d))
                       (map Some chartVersionIds)) in
  match content with
  | [] => ret None
  | _ =>
      let* newContent :=
        insert engine (saved_queries_version_content table)
          (js_map content (fun d =>
                  {| content_saved_queries_version_id :=
                       find_newId chartVersionMapping
                         (content_saved_queries_version_id (data d));
                     content_columns := content_columns (data d) |})) in
      ret (Some newContent)
  end.

(** [copyDashboardTileContent(table)], a closure over
    [dashboardTileUuids], [dashboardVersionIds], [chartMapping],
    [dashboardVersionsMapping] and [dashboardTilesMapping]. The spread
    [...(d.saved_chart_id && { saved_chart_id: find(...)?.newId })]
    rewrites [saved_chart_id] only when it is truthy. *)
Definition copyDashboardTileContent (dashboardTileUuids : list Uuid)
    (dashboardVersionIds : list (option Z))
    (chartMapping dashboardVersionsMapping : list (IdMapping Z))
    (dashboardTilesMapping : list (IdMapping Uuid))
    (table : TileContentTable)
  : M Database (option (list (Row (dashboard_tile_content table)))) :=
  let* content :=
    where_ (dashboard_tile_content table)
      (fun d =>
         match tile_content_dashboard_tile_uuid (data d) with
         | Some u => sql_in_uuid u dashboardTileUuids
         | None => false
         end
         && sql_in (tile_content_dashboard_version_id (data d))
                   dashboardVersionIds) in
  match content with
  | [] => ret None
  | _ =>
      let* newContent :=
        insert engine (dashboard_tile_content table)
          (js_map content (fun d =>
                  {| saved_chart_id :=
                       match saved_chart_id (data d) with
                       | Some c =>
                           if Z.eqb c 0 then Some c
                           else find_newId chartMapping (Some c)
                       | None => None
                       end;
                     tile_content_dashboard_version_id :=
                       find_newId dashboardVersionsMapping
                         (tile_content_dashboard_version_id (data d));
                     tile_content_dashboard_tile_uuid :=
                       find_newUuid dashboardTilesMapping
                         (tile_content_dashboard_tile_uuid (data d));
                     tile_content_columns :=
                       tile_content_columns (data d) |})) in
      ret (Some newContent)
  end.

(** The body of the transaction of [duplicateContent]. [Logger.debug]
    calls have no effect on storage and are left out. *)
Definition duplicateContent_body (projectUuid previewProjectUuid : Uuid)
  : M Database unit :=
  let* previewProjects :=
    where_ projects
      (fun p => String.eqb (project_uuid p) previewProjectUuid) in
  let previewProject := first previewProjects in
  let* sourceProjects :=
    where_ projects (fun p => String.eqb (project_uuid p) projectUuid) in
  let project := first sourceProjects in
  let* projectId := deref project project_id in

  let* spaces_ :=
    where_ spaces
      (fun s => Z.eqb (space_project_id (data s)) projectId) in
  let spaceIds := map space_id spaces_ in
  let* newSpaces :=
    match spaces_ with
    | [] => ret []
    | _ =>
        (* every [createSpace] reads [previewProject.project_id] *)
        let* previewProjectId := deref previewProject project_id in
        insert engine spaces
          (js_map spaces_ (fun d =>
                  {| space_project_id := previewProjectId;
                     space_columns := space_columns (data d) |}))
    end in
  let* spaceMapping :=
    lift_result (zip_mapping spaces_ newSpaces space_id space_id) in
  let getNewSpace (oldSpaceId : option Z) : option Z :=
    find_newId spaceMapping oldSpaceId in

  let* spaceShares :=
    where_ space_share
      (fun d => sql_in (space_share_space_id (data d))
                       (map Some spaceIds)) in
  let* newSpaceShare :=
    match spaceShares with
    | [] => ret []
    | _ =>
        insert engine space_share
          (js_map spaceShares (fun d =>
                  {| space_share_space_id :=
                       getNewSpace (space_share_space_id (data d));
                     space_share_columns :=
                       space_share_columns (data d) |}))
    end in

  let* allCharts := select saved_queries in
  let* allSpaces := select spaces in
  let charts :=
    leftJoin_spaces_where_project allCharts allSpaces
      (fun c => saved_query_space_id (data c)) projectId in
  let chartIds := map saved_query_id charts in
  let* newCharts :=
    match charts with
    | [] => ret []
    | _ =>
        insert engine saved_queries
          (js_map charts (fun d =>
                  {| saved_query_space_id :=
                       getNewSpace (saved_query_space_id (data d));
                     saved_query_columns :=
                       saved_query_columns (data d) |}))
    end in
  let* chartMapping :=
    lift_result
      (zip_mapping charts newCharts saved_query_id saved_query_id) in

  (* only get last chart version *)
  let* scopedVersions :=
    where_ saved_queries_versions
      (fun v => sql_in (version_saved_query_id (data v))
                       (map Some chartIds)) in
  let lastVersionIds :=
    groupBy_max scopedVersions
      (fun v => version_saved_query_id (data v))
      saved_queries_version_id in
  let* chartVersions :=
    where_ saved_queries_versions
      (fun v => sql_in (Some (saved_queries_version_id v))
                       lastVersionIds) in
  let chartVersionIds := map saved_queries_version_id chartVersions in
  let* newChartVersions :=
    match chartVersions with
    | [] => ret []
    | _ =>
        insert engine saved_queries_versions
          (js_map chartVersions (fun d =>
                  {| version_saved_query_id :=
                       find_newId chartMapping
                         (version_saved_query_id (data d));
                     version_columns := version_columns (data d) |}))
    end in
  let* chartVersionMapping :=
    lift_result
      (zip_mapping chartVersions newChartVersions
         saved_queries_version_id saved_queries_version_id) in

  run copyChartVersionContent chartVersionIds chartVersionMapping
        table_calculations then
  run copyChartVersionContent chartVersionIds chartVersionMapping
        sorts then
  run copyChartVersionContent chartVersionIds chartVersionMapping
        fields then
  run copyChartVersionContent chartVersionIds chartVersionMapping
        additional_metrics then

  let* allDashboards := select dashboards in
  let* allSpaces' := select spaces in
  let dashboards_ :=
    leftJoin_spaces_where_project allDashboards allSpaces'
      (fun d => dashboard_space_id (data d)) projectId in
  let dashboardIds := map dashboard_id dashboards_ in
  let* newDashboards :=
    match dashboards_ with
    | [] => ret []
    | _ =>
        insert engine dashboards
          (js_map dashboards_ (fun d =>
                  {| dashboard_space_id :=
                       getNewSpace (dashboard_space_id (data d));
                     dashboard_columns := dashboard_columns (data d) |}))
    end in
  let* dashboardMapping :=
    lift_result
      (zip_mapping dashboards_ newDashboards dashboard_id dashboard_id) in

  (* Get last version of a dashboard *)
  let* scopedDashboardVersions :=
    where_ dashboard_versions
      (fun v => sql_in (dashboard_version_dashboard_id (data v))
                       (map Some dashboardIds)) in
  let lastDashboardVersionsIds :=
    groupBy_max scopedDashboardVersions
      (fun v => dashboard_version_dashboard_id (data v))
      dashboard_version_id in
  let dashboardVersionIds := lastDashboardVersionsIds in
  let* dashboardVersions :=
    where_ dashboard_versions
      (fun v => sql_in (Some (dashboard_version_id v))
                       dashboardVersionIds) in
  let* newDashboardVersions :=
    match dashboardVersions with
    | [] => ret []
    | _ =>
        insert engine dashboard_versions
          (js_map dashboardVersions (fun d =>
                  {| dashboard_version_dashboard_id :=
                       find_newId dashboardMapping
                         (dashboard_version_dashboard_id (data d));
                     dashboard_version_columns :=
                       dashboard_version_columns (data d) |}))
    end in
  let* dashboardVersionsMapping :=
    lift_result
      (zip_mapping dashboardVersions newDashboardVersions
         dashboard_version_id dashboard_version_id) in

  let* dashboardTiles :=
    where_ dashboard_tiles
      (fun d => sql_in (tile_dashboard_version_id (data d))
                       dashboardVersionIds) in
  let dashboardTileUuids :=
    js_map dashboardTiles (fun dv => dashboard_tile_uuid (data dv)) in
  let* newDashboardTiles :=
    match dashboardTiles with
    | [] => ret []
    | _ =>
        insert engine dashboard_tiles
          (js_map dashboardTiles (fun d =>
                  {| (* we keep the same dashboard_tile_uuid *)
                     dashboard_tile_uuid := dashboard_tile_uuid (data d);
                     tile_dashboard_version_id :=
                       find_newId dashboardVersionsMapping
                         (tile_dashboard_version_id (data d));
                     tile_columns := tile_columns (data d) |}))
    end in
  let* dashboardTilesMapping :=
    lift_result
      (zip_mapping dashboardTiles newDashboardTiles
         (fun c => dashboard_tile_uuid (data c))
         (fun n => dashboard_tile_uuid (data n))) in

  run copyDashboardTileContent dashboardTileUuids dashboardVersionIds
        chartMapping dashboardVersionsMapping dashboardTilesMapping
        tile_charts then
  run copyDashboardTileContent dashboardTileUuids dashboardVersionIds
        chartMapping dashboardVersionsMapping dashboardTilesMapping
        tile_looms then
  run copyDashboardTileContent dashboardTileUuids dashboardVersionIds
        chartMapping dashboardVersionsMapping dashboardTilesMapping
        tile_markdowns then

  let contentMapping :=
    {| mapping_charts := chartMapping;
       mapping_chartVersions := chartVersionMapping;
       mapping_spaces := spaceMapping;
       mapping_dashboards := dashboardMapping;
       mapping_dashboardVersions := dashboardVersionsMapping |} in
  (* Insert mapping on database *)
  run insert engine preview_content
        [ {| preview_content_project_uuid := projectUuid;
             preview_project_uuid := previewProjectUuid;
             content_mapping := contentMapping |} ] then
  ret tt.

Definition duplicateContent (projectUuid previewProjectUuid : Uuid)
  : M Database unit :=
  transaction (duplicateContent_body projectUuid previewProjectUuid).

End Cloner.

(** ** The explore cache *)

Section ExploreCache.

Variable engine : StorageEngine.

(** The [explores] column is [jsonb]: it holds the document that
    [JSON.stringify(explores)] writes, and a read returns it parsed. A
    snapshot, an array of explores, is JSON data and is represented by
    that document. *)
Definition getExploresFromCache (projectUuid : Uuid)
  : M Database (option (list Json)) :=
  let* rows :=
    where_ cached_explores
      (fun r => String.eqb (cached_explores_project_uuid (data r))
                           projectUuid) in
  let explores_ := take 1 rows in
  match explores_ with
  | row :: _ => ret (Some (explores (data row)))
  | [] => ret None
  end.

Definition saveExploresToCache (projectUuid : Uuid)
    (explores_ : list Json)
  : M Database (option (Row cached_explores)) :=
  let* returning :=
    insert_onConflict_merge engine cached_explores
      (fun r row => String.eqb (cached_explores_project_uuid r)
                               (cached_explores_project_uuid row))
      {| cached_explores_project_uuid := projectUuid;
         explores := explores_ |} in
  let cachedExplores := first returning in
  ret cachedExplores.

End ExploreCache.

(** ** Project access control *)

Section ProjectAccess.

Variable engine : StorageEngine.

(** [users.leftJoin(emails, emails.user_id = users.user_id)
      .where(email = value)], selecting [users.user_id]. *)
Definition users_with_email (value : string) : M Database (list Z) :=
  let* allUsers := select users in
  let* allEmails := select emails in
  ret (flat_map
         (fun u =>
            map (fun _ => user_id u)
                (List.filter
                   (fun e : Row emails =>
                      Z.eqb (email_user_id (data e)) (user_id u)
                             && String.eqb (email (data e)) value)
                   allEmails))
         allUsers).

Definition createProjectAccess (projectUuid : Uuid) (email_ : string)
    (role : string) : M Database unit :=
  try_catch
    (let* matching :=
       where_ projects
         (fun p => String.eqb (project_uuid p) projectUuid) in
     let project := first matching in
     let* found := users_with_email email_ in
     let user := first found in
     match user with
     | None =>
         throw (NotExistsError
                  ("Can't find user with email " ++ email_
                   ++ " in the organization"))
     | Some user_id_ =>
         let* project_id_ := deref project project_id in
         run insert engine project_memberships
               [ {| membership_project_id := project_id_;
                    membership_role := role;
                    membership_user_id := user_id_ |} ] then
         ret tt
     end)
    (fun error =>
       match error with
       | PgDatabaseError e =>
           if bool_decide
                (constraint e
                 = Some "project_memberships_project_id_user_id_unique")
           then
             throw (AlreadyExistsError
                      ("This user email " ++ email_
                       ++ " already has access to this project"))
           else throw error
       | _ => throw error
       end).

End ProjectAccess.

(** ** The advisory lock coordinator *)

Definition CACHED_EXPLORES_PG_LOCK_NAMESPACE : Z := 1.

(** The text of the statement that [tryAcquireProjectLock] hands to
    [trx.raw]: a template literal into which the namespace and the uuid are
    pasted, the uuid between two quotes. The white space between the words
    of the template is written as one space. *)
Definition project_lock_statement (projectUuid : string) : string :=
  "SELECT pg_try_advisory_xact_lock("
  ++ pretty CACHED_EXPLORES_PG_LOCK_NAMESPACE
  ++ ", project_id) FROM projects WHERE project_uuid = '"
  ++ projectUuid ++ "' LIMIT 1".

(** The strings that, pasted between two quotes, make the SQL string
    constant that denotes them: no quote, which would end the constant, no
    backslash, which is an escape under some server settings, and no null
    character. *)
Fixpoint plain_literal (s : string) : bool :=
  match s with
  | EmptyString => true
  | String c rest =>
      negb (Ascii.eqb c "'"%char     (* the quote *)
            || Ascii.eqb c "092"%char (* the backslash *)
            || Ascii.eqb c "000"%char (* the null character *))
      && plain_literal rest
  end.

(** The two continuations of [tryAcquireProjectLock]. *)
Inductive ContinuationName : Type := OnLockAcquired | OnLockFailed.

Section LockCoordinator.

(** Whatever the continuations act on. They are called without the
    transaction handle, so nothing they do is a statement of the
    transaction. *)
Variable W : Type.

Definition Continuation : Type := W -> Result unit * W.

(** The session that runs [tryAcquireProjectLock]: its view of the
    database, the advisory locks that other sessions hold, and the trace of
    the continuation calls made so far. *)
Record Session : Type := {
  session_database : Database;
  locks_held_elsewhere : list (Z * Z);
  world : W;
  calls : list ContinuationName
}.

#[global] Instance Session_Transactional : Transactional Session :=
  fun snapshot s =>
    {| session_database := session_database snapshot;
       locks_held_elsewhere := locks_held_elsewhere s;
       world := world s;
       calls := calls s |}.

(** [await continuation()] *)
Definition call (name : ContinuationName) (continuation : Continuation)
  : M Session unit :=
  fun s =>
    let (r, w) := continuation (world s) in
    (r, {| session_database := session_database s;
           locks_held_elsewhere := locks_held_elsewhere s;
           world := w;
           calls := calls s ++ [name] |}).

(** [pg_try_advisory_xact_lock(namespace, key)]: [true] unless another
    session holds the lock; the lock is then held by this transaction
    until it ends. *)
Definition pg_try_advisory_xact_lock (s : Session) (namespace key : Z)
  : bool :=
  negb (existsb (fun l => Z.eqb (fst l) namespace && Z.eqb (snd l) key)
                (locks_held_elsewhere s)).

(** [trx.raw(text)] for a text that is not read as SQL here: the
    outcome is the database's. Of the rows it returns, the caller reads
    their number and the truthiness of [pg_try_advisory_xact_lock]. *)
Variable raw : string -> M Session (list bool).

(** [trx.raw(`SELECT pg_try_advisory_xact_lock(NAMESPACE, project_id)
     FROM projects WHERE project_uuid = '${projectUuid}' LIMIT 1`)].
    The uuid is not a bound parameter: it is part of the text. When it is
    a plain literal, the text compares [project_uuid] with the string
    constant that denotes it; otherwise the text is another statement,
    which the database answers as it will. *)
Definition select_project_lock (projectUuid : Uuid)
  : M Session (list bool) :=
  if plain_literal projectUuid
  then
    fun s =>
      (Ok (map (fun p =>
                  pg_try_advisory_xact_lock s
                    CACHED_EXPLORES_PG_LOCK_NAMESPACE (project_id p))
               (take 1
                  (List.filter
                     (fun p => String.eqb (project_uuid p) projectUuid)
                     (session_database s projects)))),
       s)
  else raw (project_lock_statement projectUuid).

Definition tryAcquireProjectLock (projectUuid : Uuid)
    (onLockAcquired : Continuation) (onLockFailed : option Continuation)
  : M Session unit :=
  transaction
    (let* projectLock := select_project_lock projectUuid in
     match projectLock with
     | [] => ret tt (* No project with uuid in DB *)
     | acquiresLock :: _ =>
         if acquiresLock
         then call OnLockAcquired onLockAcquired
         else
           match onLockFailed with
           | Some onLockFailed_ => call OnLockFailed onLockFailed_
           | None => ret tt
           end
     end).

End LockCoordinator.

Arguments session_database {W} _.
Arguments locks_held_elsewhere {W} _.
Arguments world {W} _.
Arguments calls {W} _.
Arguments call {W} name continuation.
Arguments pg_try_advisory_xact_lock {W} s namespace key.
Arguments select_project_lock {W} raw projectUuid.
Arguments tryAcquireProjectLock {W} raw projectUuid onLockAcquired
  onLockFailed.

(** ** Sample storage

    A storage engine that accepts every insert and numbers the rows it
    stores, one that also rejects every insert into a chosen table, one that
    enforces the uniqueness of [(project_id, user_id)] on memberships, and a
    small database: a source project with two spaces, a preview project and
    a third project.  They instantiate the theorems below. *)

Definition serial_generated (t : Table) (db : Database) (i : nat) : Auto t :=
  let next := 1000 + Z.of_nat (length (db t)) + Z.of_nat i in
  match t return Auto t with
  | projects | spaces | saved_queries | saved_queries_versions
  | dashboards | users => (next, "generated")
  | saved_queries_version_content _ | dashboard_versions => next
  | _ => tt
  end.

Definition accepting_engine : StorageEngine :=
  {| violates := fun _ _ _ => None;
     generated := serial_generated |}.

Definition rejecting_engine (rejected : Table) : StorageEngine :=
  {| violates := fun t _ _ =>
       if Table_eq_dec t rejected
       then Some {| constraint := Some "rejected" |}
       else None;
     generated := serial_generated |}.

Definition unique_memberships_engine : StorageEngine :=
  {| violates := fun t =>
       match t return list (Data t) -> Database -> option DatabaseError with
       | project_memberships => fun rows db =>
           if existsb
                (fun row =>
                   existsb
                     (fun m : Row project_memberships =>
                        Z.eqb (membership_project_id (data m))
                              (membership_project_id row)
                        && Z.eqb (membership_user_id (data m))
                                 (membership_user_id row))
                     (db project_memberships))
                rows
           then Some {| constraint :=
                  Some "project_memberships_project_id_user_id_unique" |}
           else None
       | _ => fun _ _ => None
       end;
     generated := serial_generated |}.

Definition empty_database : Database := fun _ => [].

Definition sample_database : Database :=
  upd projects
    [ ((1, "project-1"), {| project_columns := [] |});
      ((2, "preview-2"), {| project_columns := [] |});
      ((3, "project-3"), {| project_columns := [] |}) ]
  (upd spaces
    [ ((10, "space-10"),
       {| space_project_id := 1;
          space_columns := [("name", JString "Shared")] |});
      ((11, "space-11"),
       {| space_project_id := 1;
          space_columns := [("name", JString "Private")] |});
      ((12, "space-12"),
       {| space_project_id := 3; space_columns := [] |}) ]
  (upd space_share
    [ (tt, {| space_share_space_id := Some 11;
              space_share_columns := [("user_id", JNumber 7)] |}) ]
  (upd saved_queries
    [ ((20, "chart-20"),
       {| saved_query_space_id := Some 10; saved_query_columns := [] |});
      ((21, "chart-21"),
       {| saved_query_space_id := Some 11; saved_query_columns := [] |});
      ((22, "chart-22"),
       {| saved_query_space_id := Some 12; saved_query_columns := [] |}) ]
  (upd saved_queries_versions
    [ ((30, "version-30"),
       {| version_saved_query_id := Some 20; version_columns := [] |});
      ((31, "version-31"),
       {| version_saved_query_id := Some 20; version_columns := [] |});
      ((32, "version-32"),
       {| version_saved_query_id := Some 22; version_columns := [] |}) ]
  (upd saved_queries_version_sorts
    [ (300, {| content_saved_queries_version_id := Some 30;
               content_columns := [] |});
      (301, {| content_saved_queries_version_id := Some 31;
               content_columns := [("field_name", JString "a")] |}) ]
  (upd dashboards
    [ ((40, "dashboard-40"),
       {| dashboard_space_id := Some 10; dashboard_columns := [] |}) ]
  (upd dashboard_versions
    [ (50, {| dashboard_version_dashboard_id := Some 40;
              dashboard_version_columns := [] |});
      (51, {| dashboard_version_dashboard_id := Some 40;
              dashboard_version_columns := [] |}) ]
  (upd dashboard_tiles
    [ (tt, {| tile_dashboard_version_id := Some 50;
              dashboard_tile_uuid := "tile-a"; tile_columns := [] |});
      (tt, {| tile_dashboard_version_id := Some 51;
              dashboard_tile_uuid := "tile-b"; tile_columns := [] |});
      (tt, {| tile_dashboard_version_id := Some 51;
              dashboard_tile_uuid := "tile-c"; tile_columns := [] |}) ]
  (upd dashboard_tile_charts
    [ (tt, {| tile_content_dashboard_version_id := Some 51;
              tile_content_dashboard_tile_uuid := Some "tile-b";
              saved_chart_id := Some 20;
              tile_content_columns := [] |});
      (tt, {| tile_content_dashboard_version_id := Some 51;
              tile_content_dashboard_tile_uuid := Some "tile-c";
              saved_chart_id := Some 22;
              tile_content_columns := [] |}) ]
  (upd users
    [ ((7, "user-7"), {| user_columns := [] |}) ]
  (upd emails
    [ (tt, {| email_user_id := 7; email := "ada@example.com";
              email_columns := [] |}) ]
  empty_database))))))))))).

(** ** Definitions used by the statements *)

(** A secret is taken from the complete configuration when the incomplete
    one holds a falsy value for it and the complete one a truthy value. *)
Definition refilled (incompleteConfig completeConfig : gmap string JsValue)
    (key : string) : bool :=
  negb (truthy (prop incompleteConfig key))
  && truthy (prop completeConfig key).

Definition sample_incomplete : gmap string JsValue :=
  {[ "type" := JsString "postgres"; "host" := JsString "db";
     "password" := JsString "" ]}.

Definition sample_complete : gmap string JsValue :=
  {[ "type" := JsString "postgres"; "host" := JsString "old";
     "password" := JsString "secret" ]}.

Definition sample_incomplete_dbt : gmap string JsValue :=
  {[ "type" := JsString "github"; "repository" := JsString "org/repo";
     "personal_access_token" := JsString "" ]}.

Definition sample_complete_dbt : gmap string JsValue :=
  {[ "type" := JsString "github"; "repository" := JsString "org/repo";
     "personal_access_token" := JsString "token" ]}.

Definition sample_other_type : gmap string JsValue :=
  {[ "type" := JsString "bigquery"; "keyfileContents" := JsString "k" ]}.

(** A cached row belongs to a project. *)
Definition conflicts (projectUuid : Uuid) (r : Row cached_explores) : bool :=
  String.eqb (cached_explores_project_uuid (data r)) projectUuid.

(** The cached rows of a project. *)
Definition cached_rows (projectUuid : Uuid) (db : Database)
  : list (Row cached_explores) :=
  List.filter
    (fun r : Row cached_explores =>
       String.eqb (cached_explores_project_uuid (data r)) projectUuid)
    (db cached_explores).

(** The rows [createProjectAccess] reads: the users joined with the given
    email, and the projects with the given uuid. *)
Definition matching_users (email_ : string) (db : Database) : list Z :=
  flat_map
    (fun u =>
       map (fun _ => user_id u)
           (List.filter
              (fun e : Row emails =>
                 Z.eqb (email_user_id (data e)) (user_id u)
                 && String.eqb (email (data e)) email_)
              (db emails)))
    (db users).

Definition matching_projects (projectUuid : Uuid) (db : Database)
  : list (Row projects) :=
  List.filter (fun p => String.eqb (project_uuid p) projectUuid)
              (db projects).

Definition membership_unique_constraint : string :=
  "project_memberships_project_id_user_id_unique".

(** A session on the sample database in which another session holds the
    advisory lock of project 3, and continuations that count their runs. *)
Definition sample_session : Session nat :=
  {| session_database := sample_database;
     locks_held_elsewhere := [(1, 3)];
     world := 0%nat;
     calls := [] |}.

(** A string that is not a plain literal, and what the database answers to
    the statement built from it: the condition
    [project_uuid = '00000000-0000-0000-0000-000000000000' OR '1'='1']
    holds of every row, so the row selected is the first project, whatever
    its uuid. Any other text is rejected. *)
Definition unbound_uuid : Uuid :=
  "00000000-0000-0000-0000-000000000000' OR '1'='1".

Definition answer_unbound_uuid {W : Type}
  : string -> M (Session W) (list bool) :=
  fun text s =>
    if String.eqb text (project_lock_statement unbound_uuid)
    then
      (Ok (map (fun p : Row projects =>
                  pg_try_advisory_xact_lock s
                    CACHED_EXPLORES_PG_LOCK_NAMESPACE (project_id p))
               (take 1 (session_database s projects))),
       s)
    else (Err (PgDatabaseError {| constraint := None |}), s).

Definition counting_continuation : Continuation nat :=
  fun n => (Ok tt, S n).

Definition failing_continuation : Continuation nat :=
  fun n => (Err (NotExistsError "failed"), S n).

(** What [createProjectAccess] resolves or rejects with once it inserts
    the membership [row]: the storage layer's verdict on the insert, with
    the violation of the uniqueness constraint translated. *)
Definition insert_membership_outcome (engine : StorageEngine)
    (email_ : string) (row : ProjectMembershipData) (db : Database)
  : Result unit * Database :=
  match violates engine project_memberships [row] db with
  | Some e =>
      if bool_decide (constraint e = Some membership_unique_constraint)
      then (Err (AlreadyExistsError
                   ("This user email " ++ email_
                    ++ " already has access to this project")), db)
      else (Err (PgDatabaseError e), db)
  | None =>
      (Ok tt,
       upd project_memberships
         (db project_memberships
          ++ [(generated engine project_memberships db 0%nat, row)]) db)
  end.

(** *** The scope of a clone

    The rows of the source project that [duplicateContent] reads, as
    functions of the database before the call. The two joins with [spaces]
    run after the copies of the spaces are inserted, so they also see
    [newSpaces]. *)

(** [db'] is [db] with [news] appended to table [t]. *)
Definition inserted_into (t : Table) (news : list (Row t))
    (db db' : Database) : Prop :=
  db' t = (db t ++ news)%list /\ forall t', t' <> t -> db' t' = db t'.

Definition cloned_spaces (db : Database) (projectId : Z)
  : list (Row spaces) :=
  List.filter (fun s : Row spaces =>
                 Z.eqb (space_project_id (data s)) projectId)
              (db spaces).

Definition cloned_spaceShares (db : Database) (projectId : Z)
  : list (Row space_share) :=
  List.filter
    (fun d : Row space_share =>
       sql_in (space_share_space_id (data d))
              (map Some (map space_id (cloned_spaces db projectId))))
    (db space_share).

Definition cloned_charts (db : Database) (projectId : Z)
    (newSpaces : list (Row spaces)) : list (Row saved_queries) :=
  leftJoin_spaces_where_project (db saved_queries)
    (db spaces ++ newSpaces)%list
    (fun c : Row saved_queries => saved_query_space_id (data c)) projectId.

(** [lastVersionIds] *)
Definition last_chart_version_ids (db : Database) (projectId : Z)
    (newSpaces : list (Row spaces)) : list (option Z) :=
  groupBy_max
    (List.filter
       (fun v : Row saved_queries_versions =>
          sql_in (version_saved_query_id (data v))
                 (map Some (map saved_query_id
                              (cloned_charts db projectId newSpaces))))
       (db saved_queries_versions))
    (fun v : Row saved_queries_versions => version_saved_query_id (data v))
    saved_queries_version_id.

Definition cloned_chartVersions (db : Database) (projectId : Z)
    (newSpaces : list (Row spaces)) : list (Row saved_queries_versions) :=
  List.filter
    (fun v : Row saved_queries_versions =>
       sql_in (Some (saved_queries_version_id v))
              (last_chart_version_ids db projectId newSpaces))
    (db saved_queries_versions).

Definition cloned_versionContent (db : Database) (projectId : Z)
    (newSpaces : list (Row spaces)) (table : ChartVersionContentTable)
  : list (Row (saved_queries_version_content table)) :=
  List.filter
    (fun d : Row (saved_queries_version_content table) =>
       sql_in (content_saved_queries_version_id (data d))
              (map Some (map saved_queries_version_id
                           (cloned_chartVersions db projectId newSpaces))))
    (db (saved_queries_version_content table)).

Definition cloned_dashboards (db : Database) (projectId : Z)
    (newSpaces : list (Row spaces)) : list (Row dashboards) :=
  leftJoin_spaces_where_project (db dashboards)
    (db spaces ++ newSpaces)%list
    (fun d : Row dashboards => dashboard_space_id (data d)) projectId.

(** [dashboardVersionIds], the [lastDashboardVersionsIds] *)
Definition last_dashboard_version_ids (db : Database) (projectId : Z)
    (newSpaces : list (Row spaces)) : list (option Z) :=
  groupBy_max
    (List.filter
       (fun v : Row dashboard_versions =>
          sql_in (dashboard_version_dashboard_id (data v))
                 (map Some (map dashboard_id
                              (cloned_dashboards db projectId newSpaces))))
       (db dashboard_versions))
    (fun v : Row dashboard_versions =>
       dashboard_version_dashboard_id (data v))
    dashboard_version_id.

Definition cloned_dashboardVersions (db : Database) (projectId : Z)
    (newSpaces : list (Row spaces)) : list (Row dashboard_versions) :=
  List.filter
    (fun v : Row dashboard_versions =>
       sql_in (Some (dashboard_version_id v))
              (last_dashboard_version_ids db projectId newSpaces))
    (db dashboard_versions).

Definition cloned_dashboardTiles (db : Database) (projectId : Z)
    (newSpaces : list (Row spaces)) : list (Row dashboard_tiles) :=
  List.filter
    (fun d : Row dashboard_tiles =>
       sql_in (tile_dashboard_version_id (data d))
              (last_dashboard_version_ids db projectId newSpaces))
    (db dashboard_tiles).

Definition cloned_tileContent (db : Database) (projectId : Z)
    (newSpaces : list (Row spaces)) (table : TileContentTable)
  : list (Row (dashboard_tile_content table)) :=
  List.filter
    (fun d : Row (dashboard_tile_content table) =>
       match tile_content_dashboard_tile_uuid (data d) with
       | Some u =>
           sql_in_uuid u
             (map (fun dv : Row dashboard_tiles =>
                     dashboard_tile_uuid (data dv))
                  (cloned_dashboardTiles db projectId newSpaces))
       | None => false
       end
       && sql_in (tile_content_dashboard_version_id (data d))
                 (last_dashboard_version_ids db projectId newSpaces))
    (db (dashboard_tile_content table)).

(** *** The outcome of a clone

    [Cloned db projectUuid previewProjectUuid projectId previewProjectId
    inserted mapping tiles] holds when the source project has id
    [projectId] and [inserted] lists, table by table, the copies that
    [duplicateContent] makes of the rows in scope: every copy carries the
    columns of its source row, its rewritten foreign keys are the results of
    the lookups in [mapping] (and in the tile mapping [tiles]), and the
    mappings pair the key of each source row with the key of its copy. *)
Record Cloned (db : Database) (projectUuid previewProjectUuid : Uuid)
    (cloned_projectId cloned_previewProjectId : Z)
    (inserted : Database) (mapping : PreviewContentMapping)
    (tiles : list (IdMapping Uuid)) : Prop := {
  cloned_project :
    option_map project_id (first (matching_projects projectUuid db))
    = Some cloned_projectId;
  cloned_previewProject :
    cloned_spaces db cloned_projectId <> [] ->
    option_map project_id (first (matching_projects previewProjectUuid db))
    = Some cloned_previewProjectId;
  cloned_newSpaces :
    map data (inserted spaces)
    = js_map (cloned_spaces db cloned_projectId)
        (fun d => {| space_project_id := cloned_previewProjectId;
                     space_columns := space_columns (data d) |});
  cloned_spaceMapping :
    zip_mapping (cloned_spaces db cloned_projectId) (inserted spaces)
      space_id space_id
    = Ok (mapping_spaces mapping);
  cloned_newSpaceShare :
    map data (inserted space_share)
    = js_map (cloned_spaceShares db cloned_projectId)
        (fun d => {| space_share_space_id :=
                       find_newId (mapping_spaces mapping)
                         (space_share_space_id (data d));
                     space_share_columns := space_share_columns (data d) |});
  cloned_newCharts :
    map data (inserted saved_queries)
    = js_map (cloned_charts db cloned_projectId (inserted spaces))
        (fun d => {| saved_query_space_id :=
                       find_newId (mapping_spaces mapping)
                         (saved_query_space_id (data d));
                     saved_query_columns := saved_query_columns (data d) |});
  cloned_chartMapping :
    zip_mapping (cloned_charts db cloned_projectId (inserted spaces))
      (inserted saved_queries) saved_query_id saved_query_id
    = Ok (mapping_charts mapping);
  cloned_newChartVersions :
    map data (inserted saved_queries_versions)
    = js_map (cloned_chartVersions db cloned_projectId (inserted spaces))
        (fun d => {| version_saved_query_id :=
                       find_newId (mapping_charts mapping)
                         (version_saved_query_id (data d));
                     version_columns := version_columns (data d) |});
  cloned_chartVersionMapping :
    zip_mapping (cloned_chartVersions db cloned_projectId (inserted spaces))
      (inserted saved_queries_versions)
      saved_queries_version_id saved_queries_version_id
    = Ok (mapping_chartVersions mapping);
  cloned_newVersionContent :
    forall table,
      map data (inserted (saved_queries_version_content table))
      = js_map (cloned_versionContent db cloned_projectId
                  (inserted spaces) table)
          (fun d => {| content_saved_queries_version_id :=
                         find_newId (mapping_chartVersions mapping)
                           (content_saved_queries_version_id (data d));
                       content_columns := content_columns (data d) |});
  cloned_newDashboards :
    map data (inserted dashboards)
    = js_map (cloned_dashboards db cloned_projectId (inserted spaces))
        (fun d => {| dashboard_space_id :=
                       find_newId (mapping_spaces mapping)
                         (dashboard_space_id (data d));
                     dashboard_columns := dashboard_columns (data d) |});
  cloned_dashboardMapping :
    zip_mapping (cloned_dashboards db cloned_projectId (inserted spaces))
      (inserted dashboards) dashboard_id dashboard_id
    = Ok (mapping_dashboards mapping);
  cloned_newDashboardVersions :
    map data (inserted dashboard_versions)
    = js_map (cloned_dashboardVersions db cloned_projectId
                (inserted spaces))
        (fun d => {| dashboard_version_dashboard_id :=
                       find_newId (mapping_dashboards mapping)
                         (dashboard_version_dashboard_id (data d));
                     dashboard_version_columns :=
                       dashboard_version_columns (data d) |});
  cloned_dashboardVersionsMapping :
    zip_mapping (cloned_dashboardVersions db cloned_projectId
                   (inserted spaces))
      (inserted dashboard_versions)
      dashboard_version_id dashboard_version_id
    = Ok (mapping_dashboardVersions mapping);
  cloned_newDashboardTiles :
    map data (inserted dashboard_tiles)
    = js_map (cloned_dashboardTiles db cloned_projectId (inserted spaces))
        (fun d => {| dashboard_tile_uuid := dashboard_tile_uuid (data d);
                     tile_dashboard_version_id :=
                       find_newId (mapping_dashboardVersions mapping)
                         (tile_dashboard_version_id (data d));
                     tile_columns := tile_columns (data d) |});
  cloned_dashboardTilesMapping :
    zip_mapping (cloned_dashboardTiles db cloned_projectId (inserted spaces))
      (inserted dashboard_tiles)
      (fun c => dashboard_tile_uuid (data c))
      (fun n => dashboard_tile_uuid (data n))
    = Ok tiles;
  cloned_newTileContent :
    forall table,
      map data (inserted (dashboard_tile_content table))
      = js_map (cloned_tileContent db cloned_projectId
                  (inserted spaces) table)
          (fun d => {| saved_chart_id :=
                         match saved_chart_id (data d) with
                         | Some c =>
                             if Z.eqb c 0 then Some c
                             else find_newId (mapping_charts mapping)
                                    (Some c)
                         | None => None
                         end;
                       tile_content_dashboard_version_id :=
                         find_newId (mapping_dashboardVersions mapping)
                           (tile_content_dashboard_version_id (data d));
                       tile_content_dashboard_tile_uuid :=
                         find_newUuid tiles
                           (tile_content_dashboard_tile_uuid (data d));
                       tile_content_columns :=
                         tile_content_columns (data d) |});
  cloned_record :
    map data (inserted preview_content)
    = [ {| preview_content_project_uuid := projectUuid;
           preview_project_uuid := previewProjectUuid;
           content_mapping := mapping |} ];
  cloned_nothing_else :
    inserted projects = [] /\ inserted cached_explores = []
    /\ inserted users = [] /\ inserted emails = []
    /\ inserted project_memberships = []
}.

(** *** Latest versions *)

(** The two queries with which [duplicateContent] reads the latest
    versions: the largest version id of every parent in scope, computed by
    grouped aggregation, then the rows with these ids. *)
Definition rows_in_scope {R} (parent : R -> option Z) (rows : list R)
    (parentIds : list Z) : list R :=
  List.filter (fun v => sql_in (parent v) (map Some parentIds)) rows.

Definition last_ids {R} (parent : R -> option Z) (key : R -> Z)
    (rows : list R) (parentIds : list Z) : list (option Z) :=
  groupBy_max (rows_in_scope parent rows parentIds) parent key.

Definition latest_rows {R} (parent : R -> option Z) (key : R -> Z)
    (rows : list R) (parentIds : list Z) : list R :=
  List.filter
    (fun v => sql_in (Some (key v)) (last_ids parent key rows parentIds))
    rows.

(** The rows of a version table that belong to one parent. *)
Definition versions_of {R} (parent : R -> option Z) (rows : list R)
    (parentId : Z) : list R :=
  List.filter (fun v => sql_eq (parent v) parentId) rows.

(** [v] is a version of the parent with the largest version id. *)
Definition is_latest {R} (parent : R -> option Z) (key : R -> Z)
    (rows : list R) (parentId : Z) (v : R) : Prop :=
  In v (versions_of parent rows parentId)
  /\ forall w, In w (versions_of parent rows parentId) -> key w <= key v.

(** Among the [copied] versions, a parent has none when it has no version
    and exactly one, a latest one, when it has any. *)
Definition one_latest_version {R} (parent : R -> option Z) (key : R -> Z)
    (rows copied : list R) (parentId : Z) : Prop :=
  match versions_of parent rows parentId with
  | [] => versions_of parent copied parentId = []
  | _ :: _ =>
      exists v, versions_of parent copied parentId = [v]
                /\ is_latest parent key rows parentId v
  end.

(** *** Statements about a successful clone *)

(** [db'] is [db] after a clone of the project [projectUuid] into
    [previewProjectUuid], and the clone satisfies [property]. *)
Definition cloned_with (db : Database) (projectUuid previewProjectUuid : Uuid)
    (db' : Database)
    (property : Z -> Database -> PreviewContentMapping -> Prop) : Prop :=
  exists projectId previewProjectId inserted mapping tiles,
    Cloned db projectUuid previewProjectUuid projectId previewProjectId
      inserted mapping tiles
    /\ (forall t, db' t = (db t ++ inserted t)%list)
    /\ property projectId inserted mapping.

(** The charts and the dashboards of a project: the rows whose space is a
    space of the project. *)
Definition space_of_project (db : Database) (projectId : Z)
    (space : option Z) : bool :=
  existsb
    (fun s : Row spaces =>
       sql_eq space (space_id s)
       && Z.eqb (space_project_id (data s)) projectId)
    (db spaces).

Definition project_charts (db : Database) (projectId : Z)
  : list (Row saved_queries) :=
  List.filter
    (fun chart : Row saved_queries =>
       space_of_project db projectId (saved_query_space_id (data chart)))
    (db saved_queries).

Definition project_dashboards (db : Database) (projectId : Z)
  : list (Row dashboards) :=
  List.filter
    (fun dashboard : Row dashboards =>
       space_of_project db projectId (dashboard_space_id (data dashboard)))
    (db dashboards).

(** The version rows inserted are the copies, one for one, of the selected
    versions, and of every chart and every dashboard of the source project
    the selected versions are none when it has none and exactly its latest
    one otherwise. *)
Definition latest_versions_copied (db : Database) (projectId : Z)
    (inserted : Database) (_ : PreviewContentMapping) : Prop :=
  let chartVersions := cloned_chartVersions db projectId (inserted spaces) in
  let dashboardVersions :=
    cloned_dashboardVersions db projectId (inserted spaces) in
  map (fun n : Row saved_queries_versions => version_columns (data n))
      (inserted saved_queries_versions)
  = map (fun v : Row saved_queries_versions => version_columns (data v))
        chartVersions
  /\ (forall chart,
        In chart (project_charts db projectId) ->
        one_latest_version
          (fun v : Row saved_queries_versions =>
             version_saved_query_id (data v))
          saved_queries_version_id (db saved_queries_versions)
          chartVersions (saved_query_id chart))
  /\ map (fun n : Row dashboard_versions =>
            dashboard_version_columns (data n))
         (inserted dashboard_versions)
     = map (fun v : Row dashboard_versions =>
              dashboard_version_columns (data v))
           dashboardVersions
  /\ (forall dashboard,
        In dashboard (project_dashboards db projectId) ->
        one_latest_version
          (fun v : Row dashboard_versions =>
             dashboard_version_dashboard_id (data v))
          dashboard_version_id (db dashboard_versions)
          dashboardVersions (dashboard_id dashboard)).


(** A lookup resolves exactly for the keys in scope: the copies stand at
    the positions of the rows, and the foreign key written into a copy is
    not [NULL] exactly when the key that the row holds is the key of a
    parent row in the cloned scope. *)
Definition resolves_in_scope {P R K : Type} (parents : list P)
    (parentKey : P -> K) (rows copies : list R)
    (foreignKey : R -> option K) : Prop :=
  length copies = length rows
  /\ forall (i : nat) (row copy : R),
       rows !! i = Some row -> copies !! i = Some copy ->
       (is_Some (foreignKey copy)
        <-> exists parent : P,
              In parent parents /\ foreignKey row = Some (parentKey parent)).

(** The chart of a chart tile is looked up when the tile holds a truthy
    chart id; a tile without a chart id, or with the id [0], keeps what it
    holds. *)
Definition chart_resolves_in_scope {table : TileContentTable}
    (charts : list (Row saved_queries))
    (rows copies : list (Row (dashboard_tile_content table))) : Prop :=
  forall (i : nat) (row copy : Row (dashboard_tile_content table)),
    rows !! i = Some row -> copies !! i = Some copy ->
    match saved_chart_id (data row) with
    | None => saved_chart_id (data copy) = None
    | Some chartId =>
        if Z.eqb chartId 0
        then saved_chart_id (data copy) = Some chartId
        else
          is_Some (saved_chart_id (data copy))
          <-> exists chart : Row saved_queries,
                In chart charts /\ chartId = saved_query_id chart
    end.

(** Every lookup of [duplicateContent] resolves for the ids in the cloned
    scope, and only for them. *)
Definition lookups_resolve_in_scope (db : Database) (projectId : Z)
    (inserted : Database) (_ : PreviewContentMapping) : Prop :=
  let newSpaces := inserted spaces in
  resolves_in_scope (cloned_spaces db projectId) space_id
    (cloned_spaceShares db projectId) (inserted space_share)
    (fun d : Row space_share => space_share_space_id (data d))
  /\ resolves_in_scope (cloned_spaces db projectId) space_id
       (cloned_charts db projectId newSpaces) (inserted saved_queries)
       (fun d : Row saved_queries => saved_query_space_id (data d))
  /\ resolves_in_scope (cloned_charts db projectId newSpaces)
       saved_query_id
       (cloned_chartVersions db projectId newSpaces)
       (inserted saved_queries_versions)
       (fun d : Row saved_queries_versions =>
          version_saved_query_id (data d))
  /\ (forall table,
        resolves_in_scope (cloned_chartVersions db projectId newSpaces)
          saved_queries_version_id
          (cloned_versionContent db projectId newSpaces table)
          (inserted (saved_queries_version_content table))
          (fun d : Row (saved_queries_version_content table) =>
             content_saved_queries_version_id (data d)))
  /\ resolves_in_scope (cloned_spaces db projectId) space_id
       (cloned_dashboards db projectId newSpaces) (inserted dashboards)
       (fun d : Row dashboards => dashboard_space_id (data d))
  /\ resolves_in_scope (cloned_dashboards db projectId newSpaces)
       dashboard_id
       (cloned_dashboardVersions db projectId newSpaces)
       (inserted dashboard_versions)
       (fun d : Row dashboard_versions =>
          dashboard_version_dashboard_id (data d))
  /\ resolves_in_scope (cloned_dashboardVersions db projectId newSpaces)
       dashboard_version_id
       (cloned_dashboardTiles db projectId newSpaces)
       (inserted dashboard_tiles)
       (fun d : Row dashboard_tiles => tile_dashboard_version_id (data d))
  /\ (forall table,
        resolves_in_scope
          (cloned_dashboardVersions db projectId newSpaces)
          dashboard_version_id
          (cloned_tileContent db projectId newSpaces table)
          (inserted (dashboard_tile_content table))
          (fun d : Row (dashboard_tile_content table) =>
             tile_content_dashboard_version_id (data d)))
  /\ (forall table,
        resolves_in_scope (cloned_dashboardTiles db projectId newSpaces)
          (fun tile : Row dashboard_tiles => dashboard_tile_uuid (data tile))
          (cloned_tileContent db projectId newSpaces table)
          (inserted (dashboard_tile_content table))
          (fun d : Row (dashboard_tile_content table) =>
             tile_content_dashboard_tile_uuid (data d)))
  /\ (forall table,
        chart_resolves_in_scope (cloned_charts db projectId newSpaces)
          (cloned_tileContent db projectId newSpaces table)
          (inserted (dashboard_tile_content table))).

(** Every foreign key written through a lookup of a space, a chart (as
    the owner of a version), a chart version, a dashboard, a dashboard
    version or a tile uuid is present in the inserted rows. *)
Definition foreign_keys_resolved (db : Database) (projectId : Z)
    (inserted : Database) (_ : PreviewContentMapping) : Prop :=
  List.Forall (fun n : Row space_share =>
                 is_Some (space_share_space_id (data n)))
              (inserted space_share)
  /\ List.Forall (fun n : Row saved_queries =>
                    is_Some (saved_query_space_id (data n)))
                 (inserted saved_queries)
  /\ List.Forall (fun n : Row saved_queries_versions =>
                    is_Some (version_saved_query_id (data n)))
                 (inserted saved_queries_versions)
  /\ (forall table,
        List.Forall (fun n : Row (saved_queries_version_content table) =>
                       is_Some (content_saved_queries_version_id (data n)))
                    (inserted (saved_queries_version_content table)))
  /\ List.Forall (fun n : Row dashboards =>
                    is_Some (dashboard_space_id (data n)))
                 (inserted dashboards)
  /\ List.Forall (fun n : Row dashboard_versions =>
                    is_Some (dashboard_version_dashboard_id (data n)))
                 (inserted dashboard_versions)
  /\ List.Forall (fun n : Row dashboard_tiles =>
                    is_Some (tile_dashboard_version_id (data n)))
                 (inserted dashboard_tiles)
  /\ (forall table,
        List.Forall (fun n : Row (dashboard_tile_content table) =>
                       is_Some (tile_content_dashboard_version_id (data n))
                       /\ is_Some
                            (tile_content_dashboard_tile_uuid (data n)))
                    (inserted (dashboard_tile_content table))).

(** The preview project is not the source project. *)
Definition distinct_projects (db : Database)
    (projectUuid previewProjectUuid : Uuid) : Prop :=
  forall source preview,
    first (matching_projects projectUuid db) = Some source ->
    first (matching_projects previewProjectUuid db) = Some preview ->
    project_id preview <> project_id source.

(** The clone of the sample source project into the sample preview
    project. *)
Definition sample_clone : Result unit * Database :=
  duplicateContent accepting_engine "project-1" "preview-2" sample_database.

(** * Further functions of the project model *)

(** ** Merging the secrets of a whole project configuration *)

(** [UpdateProject]: the fields of the update other than the two
    connections are carried by the spread [...incompleteProjectConfig]. *)
Record UpdateProject : Type := {
  update_name : string;
  update_dbtConnection : gmap string JsValue;
  update_warehouseConnection : gmap string JsValue
}.

(** [Project], and [Project & { warehouseConnection?:
    CreateWarehouseCredentials }], the result of [getWithSensitiveFields]:
    the same fields, the connections being plain objects with or without
    their secret fields. *)
Record Project : Type := {
  organizationUuid : Uuid;
  projectUuid_ : Uuid;
  project_name : Json;
  project_type : Json;
  dbtConnection : gmap string JsValue;
  warehouseConnection : option (gmap string JsValue);
  pinnedListUuid : option Uuid
}.

Definition mergeMissingProjectConfigSecrets
    (sensitiveDbtCredentialsFieldNames sensitiveCredentialsFieldNames
       : list string)
    (incompleteProjectConfig : UpdateProject)
    (completeProjectConfig : Project) : UpdateProject :=
  {| update_name := update_name incompleteProjectConfig;
     update_dbtConnection :=
       mergeMissingDbtConfigSecrets sensitiveDbtCredentialsFieldNames
         (update_dbtConnection incompleteProjectConfig)
         (dbtConnection completeProjectConfig);
     update_warehouseConnection :=
       match warehouseConnection completeProjectConfig with
       | Some completeWarehouseConnection =>
           mergeMissingWarehouseSecrets sensitiveCredentialsFieldNames
             (update_warehouseConnection incompleteProjectConfig)
             completeWarehouseConnection
       | None => update_warehouseConnection incompleteProjectConfig
       end |}.

(** ** Listing, updating and removing project members *)

Definition user_uuid (u : Row users) : Uuid := snd (fst u).

(** The value of a column carried in [Columns]; [NULL] when the row holds
    no value for it. *)
Definition column (columns : Columns) (name : string) : Json :=
  match List.find (fun kv => String.eqb (fst kv) name) columns with
  | Some kv => snd kv
  | None => JNull
  end.

(** [column = true] in a [where] clause. *)
Definition sql_is_true (value : Json) : bool :=
  match value with
  | JBoolean b => b
  | _ => false
  end.

Record ProjectMemberProfile : Type := {
  userUuid : Uuid;
  profile_email : string;
  profile_role : string;
  firstName : Json;
  profile_projectUuid : Uuid;
  lastName : Json
}.

(** The rows of
    [project_memberships
       .leftJoin(users, project_memberships.user_id = users.user_id)
       .leftJoin(emails, emails.user_id = users.user_id)
       .leftJoin(projects, project_memberships.project_id = projects.project_id)
       .where(project_uuid = projectUuid).andWhere(is_primary = true)]
    that one membership gives: a joined row whose project or email is
    [NULL] fails the [where] clause. *)
Definition joined_memberships (db : Database) (projectUuid : Uuid)
    (m : Row project_memberships)
  : list (Row project_memberships * Row users * Row emails) :=
  flat_map
    (fun u : Row users =>
       flat_map
         (fun e : Row emails =>
            map (fun _ : Row projects => (m, u, e))
                (List.filter
                   (fun p : Row projects =>
                      Z.eqb (membership_project_id (data m)) (project_id p)
                      && String.eqb (project_uuid p) projectUuid)
                   (db projects)))
         (List.filter
            (fun e : Row emails =>
               Z.eqb (email_user_id (data e)) (user_id u)
               && sql_is_true (column (email_columns (data e)) "is_primary"))
            (db emails)))
    (List.filter
       (fun u : Row users =>
          Z.eqb (membership_user_id (data m)) (user_id u))
       (db users)).

Definition getProjectAccess (projectUuid : Uuid)
  : M Database (list ProjectMemberProfile) :=
  fun db =>
    let projectMemberships :=
      flat_map (joined_memberships db projectUuid)
               (db project_memberships) in
    (Ok (js_map projectMemberships
           (fun membership =>
              let '(m, u, e) := membership in
              {| userUuid := user_uuid u;
                 profile_email := email (data e);
                 profile_role := membership_role (data m);
                 firstName := column (user_columns (data u)) "first_name";
                 profile_projectUuid := projectUuid;
                 lastName := column (user_columns (data u)) "last_name" |})),
     db).

(** The memberships selected by
    [FROM projects AS p, users AS u
     WHERE p.project_id = m.project_id AND u.user_id = m.user_id
       AND user_uuid = :userUuid AND p.project_uuid = :projectUuid]. *)
Definition selected_membership (db : Database) (projectUuid userUuid_ : Uuid)
    (m : Row project_memberships) : bool :=
  existsb (fun p : Row projects =>
             Z.eqb (project_id p) (membership_project_id (data m))
             && String.eqb (project_uuid p) projectUuid)
          (db projects)
  && existsb (fun u : Row users =>
                Z.eqb (user_id u) (membership_user_id (data m))
                && String.eqb (user_uuid u) userUuid_)
             (db users).

(** [UPDATE project_memberships AS m SET role = :role FROM ... WHERE ...] *)
Definition updateProjectAccess (projectUuid userUuid_ : Uuid) (role : string)
  : M Database unit :=
  fun db =>
    (Ok tt,
     upd project_memberships
       (map (fun m : Row project_memberships =>
               if selected_membership db projectUuid userUuid_ m
               then (fst m,
                     {| membership_project_id :=
                          membership_project_id (data m);
                        membership_role := role;
                        membership_user_id := membership_user_id (data m) |})
               else m)
            (db project_memberships))
       db).

(** [DELETE FROM project_memberships AS m USING ... WHERE ...] *)
Definition deleteProjectAccess (projectUuid userUuid_ : Uuid)
  : M Database unit :=
  fun db =>
    (Ok tt,
     upd project_memberships
       (List.filter
          (fun m : Row project_memberships =>
             negb (selected_membership db projectUuid userUuid_ m))
          (db project_memberships))
       db).

(** A profile after [updateProjectAccess]: the role of the member is the
    new one. *)
Definition with_role (projectUuid userUuid_ : Uuid) (role : string)
    (queried : Uuid) (profile : ProjectMemberProfile) : ProjectMemberProfile :=
  if String.eqb queried projectUuid && String.eqb (userUuid profile) userUuid_
  then {| userUuid := userUuid profile;
          profile_email := profile_email profile;
          profile_role := role;
          firstName := firstName profile;
          profile_projectUuid := profile_projectUuid profile;
          lastName := lastName profile |}
  else profile.

(** The sample database with a primary email for its user. *)
Definition sample_members_database : Database :=
  upd emails
    [ (tt, {| email_user_id := 7; email := "ada@example.com";
              email_columns := [("is_primary", JBoolean true)] |}) ]
  (upd users
    [ ((7, "user-7"),
       {| user_columns := [("first_name", JString "Ada");
                           ("last_name", JString "Lovelace")] |}) ]
  (upd project_memberships
    [ (tt, {| membership_project_id := 1; membership_role := "viewer";
              membership_user_id := 7 |});
      (tt, {| membership_project_id := 3; membership_role := "admin";
              membership_user_id := 7 |}) ]
    sample_database)).

(** ** Further statements about a clone *)

(** The copies are as many as the rows, and whenever the copy of the
    [i]-th row holds a foreign key, the key is the id of the copy of a
    parent whose id the row holds. *)
Definition references_preserved {P R : Type} (parents parentCopies : list P)
    (parentId : P -> Z) (rows copies : list R) (foreignKey : R -> option Z)
  : Prop :=
  length copies = length rows
  /\ forall (i : nat) (row copy : R) (newKey : Z),
       rows !! i = Some row -> copies !! i = Some copy ->
       foreignKey copy = Some newKey ->
       exists (j : nat) (parent parentCopy : P),
         parents !! j = Some parent /\ parentCopies !! j = Some parentCopy
         /\ foreignKey row = Some (parentId parent)
         /\ newKey = parentId parentCopy.

(** The chart of a chart tile: when the tile names a chart by a truthy
    id and its copy names one, the copy names the copy of that chart. *)
Definition chart_references_preserved {table : TileContentTable}
    (charts chartCopies : list (Row saved_queries))
    (rows copies : list (Row (dashboard_tile_content table))) : Prop :=
  forall (i : nat) (row copy : Row (dashboard_tile_content table))
         (chartId newKey : Z),
    rows !! i = Some row -> copies !! i = Some copy ->
    saved_chart_id (data row) = Some chartId -> chartId <> 0 ->
    saved_chart_id (data copy) = Some newKey ->
    exists (j : nat) (chart chartCopy : Row saved_queries),
      charts !! j = Some chart /\ chartCopies !! j = Some chartCopy
      /\ chartId = saved_query_id chart
      /\ newKey = saved_query_id chartCopy.

(** The foreign keys that [duplicateContent] rewrites through a lookup by
    id lead from copies to copies. For the chart of a chart tile the lookup
    is made when the id is truthy, that is, not [0]. *)
Definition clone_preserves_references (db : Database) (projectId : Z)
    (inserted : Database) (_ : PreviewContentMapping) : Prop :=
  let newSpaces := inserted spaces in
  references_preserved (cloned_spaces db projectId) newSpaces space_id
    (cloned_spaceShares db projectId) (inserted space_share)
    (fun d : Row space_share => space_share_space_id (data d))
  /\ references_preserved (cloned_spaces db projectId) newSpaces space_id
       (cloned_charts db projectId newSpaces) (inserted saved_queries)
       (fun d : Row saved_queries => saved_query_space_id (data d))
  /\ references_preserved (cloned_charts db projectId newSpaces)
       (inserted saved_queries) saved_query_id
       (cloned_chartVersions db projectId newSpaces)
       (inserted saved_queries_versions)
       (fun d : Row saved_queries_versions =>
          version_saved_query_id (data d))
  /\ (forall table,
        references_preserved (cloned_chartVersions db projectId newSpaces)
          (inserted saved_queries_versions) saved_queries_version_id
          (cloned_versionContent db projectId newSpaces table)
          (inserted (saved_queries_version_content table))
          (fun d : Row (saved_queries_version_content table) =>
             content_saved_queries_version_id (data d)))
  /\ references_preserved (cloned_spaces db projectId) newSpaces space_id
       (cloned_dashboards db projectId newSpaces) (inserted dashboards)
       (fun d : Row dashboards => dashboard_space_id (data d))
  /\ references_preserved (cloned_dashboards db projectId newSpaces)
       (inserted dashboards) dashboard_id
       (cloned_dashboardVersions db projectId newSpaces)
       (inserted dashboard_versions)
       (fun d : Row dashboard_versions =>
          dashboard_version_dashboard_id (data d))
  /\ references_preserved (cloned_dashboardVersions db projectId newSpaces)
       (inserted dashboard_versions) dashboard_version_id
       (cloned_dashboardTiles db projectId newSpaces)
       (inserted dashboard_tiles)
       (fun d : Row dashboard_tiles => tile_dashboard_version_id (data d))
  /\ (forall table,
        references_preserved
          (cloned_dashboardVersions db projectId newSpaces)
          (inserted dashboard_versions) dashboard_version_id
          (cloned_tileContent db projectId newSpaces table)
          (inserted (dashboard_tile_content table))
          (fun d : Row (dashboard_tile_content table) =>
             tile_content_dashboard_version_id (data d)))
  /\ (forall table,
        chart_references_preserved (cloned_charts db projectId newSpaces)
          (inserted saved_queries)
          (cloned_tileContent db projectId newSpaces table)
          (inserted (dashboard_tile_content table))).

(** A mapping pairs, position by position, the ids of the source rows with
    the ids of their copies. *)
Definition mapping_pairs {P : Type} (mapping : list (IdMapping Z))
    (sources copies : list P) (id : P -> Z) : Prop :=
  map oldId mapping = map id sources /\ map newId mapping = map id copies.

(** The mapping record of a clone: the one row appended to
    [preview_content] holds mappings that list every copied space, chart,
    chart version, dashboard and dashboard version. *)
Definition mapping_record_lists_copies (db : Database) (projectId : Z)
    (inserted : Database) (mapping : PreviewContentMapping) : Prop :=
  let newSpaces := inserted spaces in
  map (fun r : Row preview_content => content_mapping (data r))
      (inserted preview_content) = [mapping]
  /\ mapping_pairs (mapping_spaces mapping)
       (cloned_spaces db projectId) newSpaces space_id
  /\ mapping_pairs (mapping_charts mapping)
       (cloned_charts db projectId newSpaces) (inserted saved_queries)
       saved_query_id
  /\ mapping_pairs (mapping_chartVersions mapping)
       (cloned_chartVersions db projectId newSpaces)
       (inserted saved_queries_versions) saved_queries_version_id
  /\ mapping_pairs (mapping_dashboards mapping)
       (cloned_dashboards db projectId newSpaces) (inserted dashboards)
       dashboard_id
  /\ mapping_pairs (mapping_dashboardVersions mapping)
       (cloned_dashboardVersions db projectId newSpaces)
       (inserted dashboard_versions) dashboard_version_id.

(** The mapping record of a clone of a project without spaces. *)
Definition empty_mapping_record (projectUuid previewProjectUuid : Uuid)
  : PreviewContentData :=
  {| preview_content_project_uuid := projectUuid;
     preview_project_uuid := previewProjectUuid;
     content_mapping :=
       {| mapping_charts := [];
          mapping_chartVersions := [];
          mapping_spaces := [];
          mapping_dashboards := [];
          mapping_dashboardVersions := [] |} |}.

(** ** Reading a project without its secrets *)

Section Get.

Context {S : Type}.

Variable sensitiveDbtCredentialsFieldNames : list string.
Variable sensitiveCredentialsFieldNames : list string.

(** [this.getWithSensitiveFields], which reads the stored project and
    decrypts its two connections. *)
Variable getWithSensitiveFields : Uuid -> M S Project.

(** [Object.fromEntries(Object.entries(config).filter(([key]) =>
    !names.includes(key)))] keeps the fields whose name is not listed. *)
Definition get (projectUuid : Uuid) : M S Project :=
  let* project := getWithSensitiveFields projectUuid in
  let sensitiveCredentials := warehouseConnection project in
  let nonSensitiveDbtCredentials :=
    filter (fun entry : string * JsValue =>
              fst entry ∉ sensitiveDbtCredentialsFieldNames)
           (dbtConnection project) in
  let nonSensitiveCredentials :=
    match sensitiveCredentials with
    | Some credentials =>
        Some (filter (fun entry : string * JsValue =>
                        fst entry ∉ sensitiveCredentialsFieldNames)
                     credentials)
    | None => None
    end in
  ret {| organizationUuid := organizationUuid project;
         projectUuid_ := projectUuid;
         project_name := project_name project;
         project_type := project_type project;
         dbtConnection := nonSensitiveDbtCredentials;
         warehouseConnection := nonSensitiveCredentials;
         pinnedListUuid := pinnedListUuid project |}.

End Get.

(** A connection without the listed fields holds every other field of the
    stored connection and none of the listed ones. *)
Definition without_secrets (names : list string)
    (stored shown : gmap string JsValue) : Prop :=
  forall key : string,
    shown !! key = if bool_decide (key ∈ names) then None else stored !! key.

(** Every listed field that the connection holds is truthy. *)
Definition secrets_truthy (names : list string)
    (stored : gmap string JsValue) : Prop :=
  forall key : string,
    key ∈ names -> is_Some (stored !! key) ->
    truthy (prop stored key) = true.

(** A stored connection whose secrets a merge can restore: its type is not
    a secret and is a value equal to itself (not an object), and its
    secrets are truthy. *)
Definition restorable (names : list string)
    (stored : gmap string JsValue) : Prop :=
  ~ ("type" ∈ names)
  /\ strict_equal (prop stored "type") (prop stored "type") = true
  /\ secrets_truthy names stored.

(** A stored project and a reader that returns it. *)
Definition sample_stored_project : Project :=
  {| organizationUuid := "organization-1";
     projectUuid_ := "project-1";
     project_name := JString "Jaffle shop";
     project_type := JString "DEFAULT";
     dbtConnection := sample_complete_dbt;
     warehouseConnection := Some sample_complete;
     pinnedListUuid := None |}.

Definition sample_reader (projectUuid : Uuid) : M Database Project :=
  if String.eqb projectUuid "project-1"
  then ret sample_stored_project
  else throw (NotExistsError
                ("Cannot find project with id: " ++ projectUuid)).

(** ** The tables configuration *)

(** [{ tableSelection: { type, value } }]: the selection type and the
    selected names, JSON values as the two columns hold them. *)
Record TablesConfiguration : Type := {
  tableSelection_type : Json;
  tableSelection_value : Json
}.

(** The columns of a row after [UPDATE ... SET name = value]. *)
Definition set_column (name : string) (value : Json) (columns : Columns)
  : Columns :=
  (name, value)
  :: List.filter (fun kv : string * Json => negb (String.eqb (fst kv) name))
       columns.

Definition getTablesConfiguration (projectUuid : Uuid)
  : M Database TablesConfiguration :=
  let* projects_ :=
    where_ projects (fun p => String.eqb (project_uuid p) projectUuid) in
  match projects_ with
  | [] =>
      throw (NotExistsError
               ("Cannot find project with id: " ++ projectUuid))
  | project :: _ =>
      ret {| tableSelection_type :=
               column (project_columns (data project))
                 "table_selection_type";
             tableSelection_value :=
               column (project_columns (data project))
                 "table_selection_value" |}
  end.

(** [projects.update({ table_selection_type, table_selection_value })
       .where('project_uuid', projectUuid)] *)
Definition updateTablesConfiguration (projectUuid : Uuid)
    (data_ : TablesConfiguration) : M Database unit :=
  fun db =>
    (Ok tt,
     upd projects
       (map (fun p : Row projects =>
               if String.eqb (project_uuid p) projectUuid
               then (fst p,
                     {| project_columns :=
                          set_column "table_selection_value"
                            (tableSelection_value data_)
                            (set_column "table_selection_type"
                               (tableSelection_type data_)
                               (project_columns (data p))) |})
               else p)
            (db projects))
       db).

(** The update that carries the connections of the sample project as
    [get] shows them. *)
Definition sample_shown_update : UpdateProject :=
  {| update_name := "Jaffle shop";
     update_dbtConnection :=
       {[ "type" := JsString "github";
          "repository" := JsString "org/repo" ]};
     update_warehouseConnection :=
       {[ "type" := JsString "postgres"; "host" := JsString "old" ]} |}.

(** * Properties *)

(** ** Monad lemmas *)

Lemma bind_ok_inv {S A B} (m : M S A) (k : A -> M S B) s b s' :
  bind m k s = (Ok b, s') ->
  exists a s1, m s = (Ok a, s1) /\ k a s1 = (Ok b, s').
Proof.
  unfold bind. destruct (m s) as [[a|e] s1]; intros H.
  - exists a, s1. split; [reflexivity | exact H].
  - discriminate H.
Qed.

Lemma bind_ok {S A B} (m : M S A) (k : A -> M S B) s a s1 :
  m s = (Ok a, s1) -> bind m k s = k a s1.
Proof. intros H. unfold bind. rewrite H. reflexivity. Qed.

Lemma bind_err {S A B} (m : M S A) (k : A -> M S B) s e s1 :
  m s = (Err e, s1) -> bind m k s = (Err e, s1).
Proof. intros H. unfold bind. rewrite H. reflexivity. Qed.

(** ** Storage lemmas *)

Lemma upd_same (t : Table) (rows : list (Row t)) (db : Database) :
  upd t rows db t = rows.
Proof.
  unfold upd. destruct (Table_eq_dec t t) as [e|n].
  - rewrite (UIP_dec Table_eq_dec e eq_refl). reflexivity.
  - contradiction.
Qed.

Lemma upd_other (t t' : Table) (rows : list (Row t)) (db : Database) :
  t <> t' -> upd t rows db t' = db t'.
Proof.
  intros Hne. unfold upd. destruct (Table_eq_dec t t') as [e|n].
  - contradiction.
  - reflexivity.
Qed.

Lemma bind_where_ {B} t condition (k : list (Row t) -> M Database B) db :
  bind (where_ t condition) k db = k (List.filter condition (db t)) db.
Proof. reflexivity. Qed.

Lemma bind_select {B} t (k : list (Row t) -> M Database B) db :
  bind (select t) k db = k (db t) db.
Proof. reflexivity. Qed.

Lemma bind_ret {S A B} (a : A) (k : A -> M S B) s :
  bind (ret a) k s = k a s.
Proof. reflexivity. Qed.

Lemma bind_throw {S A B} e (k : A -> M S B) s :
  bind (throw e) k s = (Err e, s).
Proof. reflexivity. Qed.

(** ** Credential secret merge *)

Section SecretMergeProperties.

Implicit Types (names : list string) (key : string).
Implicit Types (incompleteConfig completeConfig : gmap string JsValue).

Lemma reduce_secrets_lookup incompleteConfig completeConfig names key
    (sum : gmap string JsValue) :
  fold_left
    (fun (sum : gmap string JsValue) (secretKey : string) =>
       if negb (truthy (prop incompleteConfig secretKey))
          && truthy (prop completeConfig secretKey)
       then <[secretKey := prop completeConfig secretKey]> sum
       else sum)
    names sum !! key
  = if bool_decide (key ∈ names)
       && refilled incompleteConfig completeConfig key
    then Some (prop completeConfig key)
    else sum !! key.
Proof.
  revert sum. induction names as [|secretKey names IH]; intros sum.
  - reflexivity.
  - cbn [fold_left]. rewrite IH. clear IH.
    destruct (decide (key = secretKey)) as [->|Hne].
    + rewrite (bool_decide_eq_true_2 (secretKey ∈ secretKey :: names))
        by apply list_elem_of_here.
      unfold refilled. cbn [andb].
      destruct (negb (truthy (prop incompleteConfig secretKey))
                && truthy (prop completeConfig secretKey)) eqn:E.
      * rewrite lookup_insert_eq. rewrite andb_true_r.
        destruct (bool_decide (secretKey ∈ names)); reflexivity.
      * rewrite andb_false_r. reflexivity.
    + assert (bool_decide (key ∈ secretKey :: names)
              = bool_decide (key ∈ names)) as ->.
      { apply bool_decide_ext. rewrite elem_of_cons.
        split; [intros [?|?]; [congruence | assumption] | by right]. }
      destruct (negb (truthy (prop incompleteConfig secretKey))
                && truthy (prop completeConfig secretKey)).
      * rewrite lookup_insert_ne by congruence. reflexivity.
      * reflexivity.
Qed.

(** With equal connection types, the merged dbt configuration reads, at
    every key, the complete configuration's value when the key is a
    secret field that is refilled, and the incomplete one's otherwise. *)
Lemma mergeMissingDbtConfigSecrets_lookup names incompleteConfig
    completeConfig key :
  strict_equal (prop incompleteConfig "type") (prop completeConfig "type")
  = true ->
  mergeMissingDbtConfigSecrets names incompleteConfig completeConfig !! key
  = if bool_decide (key ∈ names)
       && refilled incompleteConfig completeConfig key
    then Some (prop completeConfig key)
    else incompleteConfig !! key.
Proof.
  intros Htype. unfold mergeMissingDbtConfigSecrets. rewrite Htype.
  cbn [negb]. rewrite lookup_union, reduce_secrets_lookup, lookup_empty.
  destruct (bool_decide (key ∈ names)
            && refilled incompleteConfig completeConfig key).
  - destruct (incompleteConfig !! key); reflexivity.
  - destruct (incompleteConfig !! key); reflexivity.
Qed.

Lemma mergeMissingWarehouseSecrets_lookup names incompleteConfig
    completeConfig key :
  strict_equal (prop incompleteConfig "type") (prop completeConfig "type")
  = true ->
  mergeMissingWarehouseSecrets names incompleteConfig completeConfig !! key
  = if bool_decide (key ∈ names)
       && refilled incompleteConfig completeConfig key
    then Some (prop completeConfig key)
    else incompleteConfig !! key.
Proof.
  intros Htype. unfold mergeMissingWarehouseSecrets. rewrite Htype.
  cbn [negb]. rewrite lookup_union, reduce_secrets_lookup, lookup_empty.
  destruct (bool_decide (key ∈ names)
            && refilled incompleteConfig completeConfig key).
  - destruct (incompleteConfig !! key); reflexivity.
  - destruct (incompleteConfig !! key); reflexivity.
Qed.

End SecretMergeProperties.

(** C6, as stated, fails: with equal types, an explicitly empty secret of
    the incomplete configuration is replaced by the complete
    configuration's value, in both helpers. *)
Lemma merge_overwrites_cleared_secret :
  (sample_incomplete_dbt !! "personal_access_token" = Some (JsString "")
   /\ strict_equal (prop sample_incomplete_dbt "type")
                   (prop sample_complete_dbt "type") = true
   /\ mergeMissingDbtConfigSecrets ["personal_access_token"; "api_key"]
        sample_incomplete_dbt sample_complete_dbt
        !! "personal_access_token"
      = Some (JsString "token")
   /\ mergeMissingDbtConfigSecrets ["personal_access_token"; "api_key"]
        sample_incomplete_dbt sample_complete_dbt
        !! "personal_access_token"
      <> sample_incomplete_dbt !! "personal_access_token")
  /\ (sample_incomplete !! "password" = Some (JsString "")
      /\ strict_equal (prop sample_incomplete "type")
                      (prop sample_complete "type") = true
      /\ mergeMissingWarehouseSecrets ["user"; "password"]
           sample_incomplete sample_complete !! "password"
         = Some (JsString "secret")
      /\ mergeMissingWarehouseSecrets ["user"; "password"]
           sample_incomplete sample_complete !! "password"
         <> sample_incomplete !! "password").
Proof.
  repeat split; try (vm_compute; reflexivity); vm_compute; discriminate.
Qed.

(** C6, amended: with equal connection types, a secret field that is the
    empty string in the incomplete configuration is treated as missing: the
    result holds the complete configuration's value when that value is
    truthy, and keeps the empty string only when the complete configuration
    has no truthy value for the field. *)
Theorem merge_cleared_secret_is_refilled
    (dbtNames warehouseNames : list string)
    (incompleteConfig completeConfig : gmap string JsValue)
    (key : string) :
  strict_equal (prop incompleteConfig "type") (prop completeConfig "type")
  = true ->
  incompleteConfig !! key = Some (JsString "") ->
  (key ∈ dbtNames ->
   mergeMissingDbtConfigSecrets dbtNames incompleteConfig completeConfig
     !! key
   = Some (if truthy (prop completeConfig key)
           then prop completeConfig key else JsString ""))
  /\ (key ∈ warehouseNames ->
      mergeMissingWarehouseSecrets warehouseNames incompleteConfig
        completeConfig !! key
      = Some (if truthy (prop completeConfig key)
              then prop completeConfig key else JsString "")).
Proof.
  intros Htype Hempty.
  assert (refilled incompleteConfig completeConfig key
          = truthy (prop completeConfig key)) as Hrefilled.
  { unfold refilled, prop at 1. rewrite Hempty. reflexivity. }
  split; intros Hin.
  - rewrite mergeMissingDbtConfigSecrets_lookup by assumption.
    rewrite bool_decide_eq_true_2 by assumption.
    rewrite Hrefilled, Hempty. cbn [andb].
    destruct (truthy (prop completeConfig key)); reflexivity.
  - rewrite mergeMissingWarehouseSecrets_lookup by assumption.
    rewrite bool_decide_eq_true_2 by assumption.
    rewrite Hrefilled, Hempty. cbn [andb].
    destruct (truthy (prop completeConfig key)); reflexivity.
Qed.

Lemma merge_cleared_secret_is_refilled_witness :
  mergeMissingDbtConfigSecrets ["personal_access_token"; "api_key"]
    sample_incomplete_dbt sample_complete_dbt !! "personal_access_token"
  = Some (JsString "token")
  /\ (mergeMissingWarehouseSecrets ["user"; "password"] sample_incomplete
        sample_complete !! "password"
      = Some (JsString "secret")).
Proof.
  split.
  - refine (proj1 (merge_cleared_secret_is_refilled
                     ["personal_access_token"; "api_key"] []
                     sample_incomplete_dbt sample_complete_dbt
                     "personal_access_token" _ _) _).
    + vm_compute. reflexivity.
    + vm_compute. reflexivity.
    + apply list_elem_of_here.
  - refine (proj2 (merge_cleared_secret_is_refilled
                     [] ["user"; "password"]
                     sample_incomplete sample_complete "password" _ _) _).
    + vm_compute. reflexivity.
    + vm_compute. reflexivity.
    + apply list_elem_of_further, list_elem_of_here.
Defined.

(** C7: when the connection types of the two configurations differ
    ([incompleteConfig.type !== completeConfig.type]), both helpers return
    the incomplete configuration itself, with no field changed, added or
    removed. *)
Theorem merge_type_mismatch_returns_incomplete
    (dbtNames warehouseNames : list string)
    (incompleteConfig completeConfig : gmap string JsValue) :
  strict_equal (prop incompleteConfig "type") (prop completeConfig "type")
  = false ->
  mergeMissingDbtConfigSecrets dbtNames incompleteConfig completeConfig
  = incompleteConfig
  /\ mergeMissingWarehouseSecrets warehouseNames incompleteConfig
       completeConfig
     = incompleteConfig.
Proof.
  intros Htype.
  unfold mergeMissingDbtConfigSecrets, mergeMissingWarehouseSecrets.
  rewrite Htype. split; reflexivity.
Qed.

Lemma merge_type_mismatch_returns_incomplete_witness :
  mergeMissingDbtConfigSecrets ["personal_access_token"; "api_key"]
    sample_incomplete sample_other_type
  = sample_incomplete
  /\ mergeMissingWarehouseSecrets ["keyfileContents"] sample_incomplete
       sample_other_type
     = sample_incomplete.
Proof.
  apply (merge_type_mismatch_returns_incomplete
           ["personal_access_token"; "api_key"] ["keyfileContents"]
           sample_incomplete sample_other_type).
  vm_compute. reflexivity.
Defined.

(** ** The explore cache *)

Section ExploreCacheProperties.

Variable engine : StorageEngine.

Lemma getExploresFromCache_rows projectUuid db :
  getExploresFromCache projectUuid db
  = (Ok (match cached_rows projectUuid db with
         | row :: _ => Some (explores (data row))
         | [] => None
         end), db).
Proof.
  unfold getExploresFromCache, bind, where_, cached_rows.
  destruct (List.filter _ (db cached_explores)) as [|row rest];
    reflexivity.
Qed.

(** Rows of [projectUuid] after a merge: each takes the saved values. *)
Lemma cached_rows_merged projectUuid row (rows : list (Row cached_explores)) :
  cached_explores_project_uuid row = projectUuid ->
  List.filter (conflicts projectUuid)
    (map (fun r => if conflicts projectUuid r then (fst r, row) else r)
         rows)
  = map (fun r => (fst r, row)) (List.filter (conflicts projectUuid) rows).
Proof.
  intros Hrow. induction rows as [|r rows IH]; [reflexivity|].
  cbn [map List.filter].
  destruct (conflicts projectUuid r) eqn:E.
  - assert (conflicts projectUuid (fst r, row) = true) as ->.
    { unfold conflicts, data. cbn [snd]. rewrite Hrow.
      apply String.eqb_refl. }
    cbn [map]. rewrite IH. reflexivity.
  - rewrite E. exact IH.
Qed.

(** A merge keeps the number of rows of every project. *)
Lemma cached_rows_merged_length projectUuid other row
    (rows : list (Row cached_explores)) :
  cached_explores_project_uuid row = projectUuid ->
  length (List.filter (conflicts other)
            (map (fun r => if conflicts projectUuid r
                           then (fst r, row) else r) rows))
  = length (List.filter (conflicts other) rows).
Proof.
  intros Hrow. induction rows as [|r rows IH]; [reflexivity|].
  cbn [map List.filter].
  destruct (conflicts projectUuid r) eqn:E.
  - assert (conflicts other (fst r, row) = conflicts other r) as ->.
    { unfold conflicts, data in *. cbn [snd]. rewrite Hrow.
      apply String.eqb_eq in E. rewrite E. reflexivity. }
    destruct (conflicts other r); cbn [length]; rewrite IH; reflexivity.
  - destruct (conflicts other r); cbn [length]; rewrite IH; reflexivity.
Qed.

(** What a successful save leaves in the cache. *)
Lemma saveExploresToCache_ok projectUuid explores_ db returned db' :
  saveExploresToCache engine projectUuid explores_ db
  = (Ok returned, db') ->
  (exists row rest,
      cached_rows projectUuid db' = row :: rest
      /\ explores (data row) = explores_)
  /\ forall other,
      length (cached_rows other db')
      = if String.eqb other projectUuid
        then Nat.max 1 (length (cached_rows other db))
        else length (cached_rows other db).
Proof.
  intros Hsave. unfold saveExploresToCache in Hsave.
  apply bind_ok_inv in Hsave as (returning & db1 & Hinsert & Hret).
  unfold ret in Hret. injection Hret as _ <-.
  unfold insert_onConflict_merge in Hinsert. unfold cached_rows.
  set (row := {| cached_explores_project_uuid := projectUuid;
                 explores := explores_ |}) in *.
  revert Hinsert.
  destruct (violates engine cached_explores _ db);
    [intros H; discriminate H|].
  change (fun r : Row cached_explores =>
            String.eqb (cached_explores_project_uuid (data r))
                       (cached_explores_project_uuid row))
    with (conflicts projectUuid).
  change (fun r : Row cached_explores =>
            String.eqb (cached_explores_project_uuid (data r)) projectUuid)
    with (conflicts projectUuid).
  destruct (existsb (conflicts projectUuid) (db cached_explores)) eqn:E.
  - intros H. injection H as _ <-. rewrite upd_same. split.
    + rewrite (cached_rows_merged projectUuid row) by reflexivity.
      apply existsb_exists in E as (r & Hin & Hr).
      assert (In r (List.filter (conflicts projectUuid)
                      (db cached_explores))) as Hfiltered
        by (apply filter_In; split; assumption).
      destruct (List.filter (conflicts projectUuid) (db cached_explores))
        as [|r0 rest]; [contradiction|].
      cbn [map]. eexists _, _. split; reflexivity.
    + intros other.
      change (fun r : Row cached_explores =>
                String.eqb (cached_explores_project_uuid (data r)) other)
        with (conflicts other).
      rewrite (cached_rows_merged_length projectUuid other row)
        by reflexivity.
      destruct (String.eqb other projectUuid) eqn:Eother; [|reflexivity].
      apply String.eqb_eq in Eother as ->.
      apply existsb_exists in E as (r & Hin & Hr).
      assert (In r (List.filter (conflicts projectUuid)
                      (db cached_explores))) as Hfiltered
        by (apply filter_In; split; assumption).
      destruct (List.filter (conflicts projectUuid) (db cached_explores));
        [contradiction|]. cbn [length]. lia.
  - intros H. injection H as _ <-. rewrite upd_same.
    assert (List.filter (conflicts projectUuid) (db cached_explores) = [])
      as Hnone.
    { destruct (List.filter (conflicts projectUuid) (db cached_explores))
        as [|r rest] eqn:Ef; [reflexivity|].
      assert (In r (r :: rest)) as Hin by (left; reflexivity).
      rewrite <- Ef in Hin. apply filter_In in Hin as [Hin Hr].
      assert (existsb (conflicts projectUuid) (db cached_explores) = true)
        as Hex by (apply existsb_exists; eauto).
      congruence. }
    split.
    + rewrite List.filter_app, Hnone. cbn [List.filter app].
      unfold conflicts at 1, data. cbn [snd row cached_explores_project_uuid].
      rewrite String.eqb_refl. eexists _, _. split; reflexivity.
    + intros other.
      change (fun r : Row cached_explores =>
                String.eqb (cached_explores_project_uuid (data r)) other)
        with (conflicts other).
      rewrite List.filter_app, length_app. cbn [List.filter].
      unfold conflicts at 2, data.
      cbn [snd row cached_explores_project_uuid].
      rewrite (String.eqb_sym projectUuid other).
      destruct (String.eqb other projectUuid) eqn:Eother.
      * apply String.eqb_eq in Eother as ->. rewrite Hnone.
        reflexivity.
      * cbn [length]. lia.
Qed.

End ExploreCacheProperties.

(** C9: after [saveExploresToCache(p, s1)] and then
    [saveExploresToCache(p, s2)] have both resolved,
    [getExploresFromCache(p)] resolves with exactly [s2]; a project that had
    at most one cached row still has at most one, and [p] has one; and for a
    project with no cached row [getExploresFromCache] resolves with
    [undefined] instead of throwing. *)
Theorem explore_cache_last_writer_wins (engine : StorageEngine)
    (projectUuid : Uuid) (s1 s2 : list Json) (db db1 db2 : Database)
    (returned1 returned2 : option (Row cached_explores)) :
  saveExploresToCache engine projectUuid s1 db = (Ok returned1, db1) ->
  saveExploresToCache engine projectUuid s2 db1 = (Ok returned2, db2) ->
  getExploresFromCache projectUuid db2 = (Ok (Some s2), db2)
  /\ (forall other,
        (length (cached_rows other db) <= 1)%nat ->
        (length (cached_rows other db2) <= 1)%nat)
  /\ (1 <= length (cached_rows projectUuid db2))%nat
  /\ (forall other (db0 : Database),
        cached_rows other db0 = [] ->
        getExploresFromCache other db0 = (Ok None, db0)).
Proof.
  intros Hsave1 Hsave2.
  apply saveExploresToCache_ok in Hsave1 as [_ Hcount1].
  apply saveExploresToCache_ok in Hsave2 as [(row & rest & Hrows & Hs2) Hcount2].
  split; [|split; [|split]].
  - rewrite getExploresFromCache_rows, Hrows, Hs2. reflexivity.
  - intros other Hone. rewrite Hcount2, Hcount1.
    destruct (String.eqb other projectUuid); lia.
  - rewrite Hrows. cbn [length]. lia.
  - intros other db0 Hnone.
    rewrite getExploresFromCache_rows, Hnone. reflexivity.
Qed.

Lemma explore_cache_last_writer_wins_witness :
  getExploresFromCache "project-1"
    (snd (saveExploresToCache accepting_engine "project-1"
            [JString "second"]
            (snd (saveExploresToCache accepting_engine "project-1"
                    [JString "first"] sample_database))))
  = (Ok (Some [JString "second"]),
     snd (saveExploresToCache accepting_engine "project-1"
            [JString "second"]
            (snd (saveExploresToCache accepting_engine "project-1"
                    [JString "first"] sample_database)))).
Proof.
  refine (proj1 (explore_cache_last_writer_wins accepting_engine
                   "project-1" [JString "first"] [JString "second"]
                   sample_database _ _ _ _ _ _)).
  - vm_compute. reflexivity.
  - vm_compute. reflexivity.
Defined.

(** ** Project access control *)

Section ProjectAccessProperties.

Variable engine : StorageEngine.

(** The behaviour of [createProjectAccess], case by case. *)
Lemma createProjectAccess_cases projectUuid email_ role db :
  createProjectAccess engine projectUuid email_ role db
  = match first (matching_users email_ db) with
    | None =>
        (Err (NotExistsError
                ("Can't find user with email " ++ email_
                 ++ " in the organization")), db)
    | Some user_id_ =>
        match first (matching_projects projectUuid db) with
        | None =>
            (Err (TypeError "Cannot read properties of undefined"), db)
        | Some project =>
            insert_membership_outcome engine email_
              {| membership_project_id := project_id project;
                 membership_role := role;
                 membership_user_id := user_id_ |} db
        end
    end.
Proof.
  unfold createProjectAccess, try_catch, insert_membership_outcome.
  rewrite bind_where_. fold (matching_projects projectUuid db).
  rewrite (bind_ok (users_with_email email_) _ db
             (matching_users email_ db) db eq_refl).
  destruct (first (matching_users email_ db)) as [user_id_|];
    [|reflexivity].
  destruct (first (matching_projects projectUuid db)) as [project|];
    [|reflexivity].
  cbn [deref]. rewrite bind_ret.
  unfold bind, insert.
  destruct (violates engine project_memberships _ db) as [e|];
    [|reflexivity].
  unfold membership_unique_constraint.
  destruct (bool_decide (constraint e = Some _)); reflexivity.
Qed.

End ProjectAccessProperties.

(** C8: [createProjectAccess] rejects with [NotExistsError] when no user
    has the given email; it rejects with [AlreadyExistsError] exactly when
    the user and the project are found and the insert into
    [project_memberships] is rejected by the storage layer with the
    uniqueness constraint on [(project_id, user_id)] (there is no check
    before the insert); and on that path the database is left as it was, so
    no second membership row is created. *)
Theorem createProjectAccess_not_found_and_already_exists
    (engine : StorageEngine) (projectUuid : Uuid) (email_ role : string)
    (db : Database) :
  (matching_users email_ db = [] ->
   exists message,
     createProjectAccess engine projectUuid email_ role db
     = (Err (NotExistsError message), db))
  /\ (forall message db',
        createProjectAccess engine projectUuid email_ role db
        = (Err (AlreadyExistsError message), db')
        <-> exists user_id_ others project others' e,
            matching_users email_ db = user_id_ :: others
            /\ matching_projects projectUuid db = project :: others'
            /\ insert engine project_memberships
                 [ {| membership_project_id := project_id project;
                      membership_role := role;
                      membership_user_id := user_id_ |} ] db
               = (Err (PgDatabaseError e), db')
            /\ constraint e = Some membership_unique_constraint
            /\ message = "This user email " ++ email_
                         ++ " already has access to this project")
  /\ (forall message db',
        createProjectAccess engine projectUuid email_ role db
        = (Err (AlreadyExistsError message), db') ->
        db' = db).
Proof.
  rewrite createProjectAccess_cases.
  assert (forall (row : ProjectMembershipData) message db',
             insert_membership_outcome engine email_ row db
             = (Err (AlreadyExistsError message), db')
             <-> exists e,
                 insert engine project_memberships [row] db
                 = (Err (PgDatabaseError e), db')
                 /\ constraint e = Some membership_unique_constraint
                 /\ message = "This user email " ++ email_
                              ++ " already has access to this project")
    as Houtcome.
  { intros row message db'. unfold insert_membership_outcome, insert.
    destruct (violates engine project_memberships _ db) as [e|].
    - destruct (bool_decide (constraint e = Some membership_unique_constraint))
        eqn:E.
      + apply bool_decide_eq_true_1 in E. split.
        * intros H. injection H as <- <-. exists e. repeat split; assumption.
        * intros (e' & H & _ & ->). injection H as _ <-. reflexivity.
      + apply bool_decide_eq_false_1 in E. split.
        * intros H. discriminate H.
        * intros (e' & H & Hc & _). injection H as <- _. contradiction.
    - split.
      + intros H. discriminate H.
      + intros (e' & H & _). discriminate H. }
  split; [|split].
  - intros ->. eexists. reflexivity.
  - intros message db'.
    destruct (matching_users email_ db) as [|user_id_ others].
    + cbn [first head]. split.
      * intros H. discriminate H.
      * intros (? & ? & ? & ? & ? & H & _). discriminate H.
    + cbn [first head].
      destruct (matching_projects projectUuid db) as [|project others'].
      * cbn [first head]. split.
        -- intros H. discriminate H.
        -- intros (? & ? & ? & ? & ? & _ & H & _). discriminate H.
      * cbn [first head]. rewrite Houtcome. split.
        -- intros (e & Hinsert & Hc & Hm).
           exists user_id_, others, project, others', e.
           repeat split; assumption.
        -- intros (u & o & p & o' & e & Hu & Hp & Hinsert & Hc & Hm).
           injection Hu as <- <-. injection Hp as <- <-.
           exists e. repeat split; assumption.
  - intros message db'.
    destruct (first (matching_users email_ db)); [|intros H; discriminate H].
    destruct (first (matching_projects projectUuid db));
      [|intros H; discriminate H].
    intros H. apply Houtcome in H as (e & H & _).
    unfold insert in H.
    destruct (violates engine project_memberships _ db);
      [|discriminate H].
    injection H as _ <-. reflexivity.
Qed.

Lemma createProjectAccess_not_found_and_already_exists_witness :
  exists message,
    createProjectAccess accepting_engine "project-1" "nobody@example.com"
      "viewer" sample_database
    = (Err (NotExistsError message), sample_database).
Proof.
  apply (proj1 (createProjectAccess_not_found_and_already_exists
                  accepting_engine "project-1" "nobody@example.com"
                  "viewer" sample_database)).
  vm_compute. reflexivity.
Defined.

(** With a storage engine that enforces the uniqueness of
    [(project_id, user_id)], adding the same email twice resolves the first
    time and rejects with [AlreadyExistsError] the second time, leaving one
    membership row. *)
Example createProjectAccess_twice :
  let first_call :=
    createProjectAccess unique_memberships_engine "project-1"
      "ada@example.com" "viewer" sample_database in
  let second_call :=
    createProjectAccess unique_memberships_engine "project-1"
      "ada@example.com" "editor" (snd first_call) in
  fst first_call = Ok tt
  /\ fst second_call
     = Err (AlreadyExistsError
              "This user email ada@example.com already has access to this project")
  /\ snd second_call project_memberships
     = [ (tt, {| membership_project_id := 1;
                 membership_role := "viewer";
                 membership_user_id := 7 |}) ].
Proof. vm_compute. repeat split; reflexivity. Qed.

(** ** The advisory lock coordinator *)

(** C5: the uuid is pasted into the text of the statement, not bound to
    it, so the row selected need not be a project with that uuid. For the
    string [00000000-0000-0000-0000-000000000000' OR '1'='1] no project of
    the sample database matches, the statement sent holds a condition that
    is true of every row, the database answers with the lock of the first
    project, and the call runs [onLockAcquired] instead of returning
    without a call. *)
Theorem tryAcquireProjectLock_unbound_uuid_runs_continuation :
  let outcome :=
    tryAcquireProjectLock answer_unbound_uuid unbound_uuid
      counting_continuation (Some failing_continuation) sample_session in
  matching_projects unbound_uuid (session_database sample_session) = []
  /\ project_lock_statement unbound_uuid
     = "SELECT pg_try_advisory_xact_lock(1, project_id) FROM projects WHERE project_uuid = '00000000-0000-0000-0000-000000000000' OR '1'='1' LIMIT 1"
  /\ fst outcome = Ok tt
  /\ calls (snd outcome) = [OnLockAcquired]
  /\ world (snd outcome) = 1%nat.
Proof. vm_compute. repeat split; reflexivity. Qed.

(** What the call does with that string on any session: it decides on the
    first project row, whatever its uuid. *)
Lemma tryAcquireProjectLock_unbound_uuid_first_project (W : Type)
    (onLockAcquired : Continuation W)
    (onLockFailed : option (Continuation W)) (s : Session W) :
  let outcome :=
    tryAcquireProjectLock answer_unbound_uuid unbound_uuid onLockAcquired
      onLockFailed s in
  match session_database s projects with
  | [] => outcome = (Ok tt, s)
  | project :: _ =>
      pg_try_advisory_xact_lock s CACHED_EXPLORES_PG_LOCK_NAMESPACE
        (project_id project) = true ->
      calls (snd outcome) = (calls s ++ [OnLockAcquired])%list
      /\ (fst outcome, world (snd outcome)) = onLockAcquired (world s)
  end.
Proof.
  cbv zeta. unfold tryAcquireProjectLock, transaction, select_project_lock.
  change (plain_literal unbound_uuid) with false. cbv iota.
  unfold bind, answer_unbound_uuid. rewrite String.eqb_refl.
  destruct (session_database s projects) as [|project others].
  - reflexivity.
  - cbn [take map]. intros ->. unfold call.
    destruct (onLockAcquired (world s)) as [[[]|e] w]; split; reflexivity.
Qed.

(** For a plain literal the statement selects by the uuid. *)
Lemma select_project_lock_plain (W : Type)
    (raw : string -> M (Session W) (list bool)) (projectUuid : Uuid)
    (s : Session W) :
  plain_literal projectUuid = true ->
  select_project_lock raw projectUuid s
  = (Ok (map (fun p : Row projects =>
                pg_try_advisory_xact_lock s
                  CACHED_EXPLORES_PG_LOCK_NAMESPACE (project_id p))
             (take 1 (matching_projects projectUuid (session_database s)))),
     s).
Proof.
  intros Hplain. unfold select_project_lock. rewrite Hplain. reflexivity.
Qed.

(** X20: a call to [tryAcquireProjectLock] with a uuid that is a plain
    literal. With no project row for the uuid it resolves without calling
    any continuation and leaves the session as it was. With a project row,
    when the lock is acquired the one call made is [onLockAcquired], whose
    outcome is the outcome of the call; when it is not acquired and
    [onLockFailed] was supplied, the one call made is [onLockFailed]; when
    it was not supplied, no call is made. The trace grows by at most one
    call, so both continuations never run. *)
Theorem tryAcquireProjectLock_runs_one_continuation (W : Type)
    (raw : string -> M (Session W) (list bool))
    (projectUuid : Uuid) (onLockAcquired : Continuation W)
    (onLockFailed : option (Continuation W)) (s : Session W) :
  plain_literal projectUuid = true ->
  let outcome :=
    tryAcquireProjectLock raw projectUuid onLockAcquired onLockFailed s in
  match matching_projects projectUuid (session_database s) with
  | [] => outcome = (Ok tt, s)
  | project :: _ =>
      if pg_try_advisory_xact_lock s CACHED_EXPLORES_PG_LOCK_NAMESPACE
           (project_id project)
      then
        calls (snd outcome) = (calls s ++ [OnLockAcquired])%list
        /\ (fst outcome, world (snd outcome)) = onLockAcquired (world s)
      else
        match onLockFailed with
        | Some onLockFailed_ =>
            calls (snd outcome) = (calls s ++ [OnLockFailed])%list
            /\ (fst outcome, world (snd outcome))
               = onLockFailed_ (world s)
        | None => outcome = (Ok tt, s)
        end
  end.
Proof.
  intros Hplain. cbv zeta. unfold tryAcquireProjectLock, transaction.
  rewrite (bind_ok _ _ _ _ _
             (select_project_lock_plain W raw projectUuid s Hplain)).
  destruct (matching_projects projectUuid (session_database s))
    as [|project others].
  - reflexivity.
  - cbn [take map].
    destruct (pg_try_advisory_xact_lock s
                CACHED_EXPLORES_PG_LOCK_NAMESPACE (project_id project)).
    + unfold call.
      destruct (onLockAcquired (world s)) as [[[]|e] w]; split; reflexivity.
    + destruct onLockFailed as [onLockFailed_|].
      * unfold call.
        destruct (onLockFailed_ (world s)) as [[[]|e] w]; split;
          reflexivity.
      * reflexivity.
Qed.

Lemma tryAcquireProjectLock_runs_one_continuation_witness :
  let outcome :=
    tryAcquireProjectLock answer_unbound_uuid "project-3"
      counting_continuation (Some failing_continuation) sample_session in
  calls (snd outcome) = [OnLockFailed]
  /\ (fst outcome, world (snd outcome)) = failing_continuation 0%nat.
Proof.
  exact (tryAcquireProjectLock_runs_one_continuation nat
           answer_unbound_uuid "project-3" counting_continuation
           (Some failing_continuation) sample_session eq_refl).
Defined.

(** The outcomes on the sample session: project 1 is free, project 3 is
    locked by another session. *)
Example tryAcquireProjectLock_samples :
  let acquired :=
    tryAcquireProjectLock answer_unbound_uuid "project-1"
      counting_continuation (Some failing_continuation) sample_session in
  let failed :=
    tryAcquireProjectLock answer_unbound_uuid "project-3"
      counting_continuation (Some failing_continuation) sample_session in
  let skipped :=
    tryAcquireProjectLock answer_unbound_uuid "project-3"
      counting_continuation None sample_session in
  let missing :=
    tryAcquireProjectLock answer_unbound_uuid "project-9"
      counting_continuation (Some failing_continuation) sample_session in
  (fst acquired, calls (snd acquired)) = (Ok tt, [OnLockAcquired])
  /\ (fst failed, calls (snd failed))
     = (Err (NotExistsError "failed"), [OnLockFailed])
  /\ (fst skipped, calls (snd skipped)) = (Ok tt, [])
  /\ (fst missing, calls (snd missing)) = (Ok tt, []).
Proof. vm_compute. repeat split; reflexivity. Qed.

(** ** The preview content cloner *)

Section ClonerLemmas.

Variable engine : StorageEngine.

Lemma map_data_imap (t : Table) (g : nat -> Auto t)
    (rows : list (Data t)) :
  map data (imap (fun i d => ((g i, d) : Row t)) rows) = rows.
Proof.
  revert g. induction rows as [|d rows IH]; intros g; [reflexivity|].
  cbn [imap map]. f_equal. apply (IH (g ∘ S)).
Qed.

Lemma inserted_into_nil t db : inserted_into t [] db db.
Proof.
  split; [symmetry; apply app_nil_r | reflexivity].
Qed.

Lemma insert_ok_inv t rows db news db' :
  insert engine t rows db = (Ok news, db') ->
  map data news = rows /\ inserted_into t news db db'.
Proof.
  unfold insert. destruct (violates engine t rows db);
    intros H; [discriminate H|].
  injection H as <- <-. split; [apply map_data_imap|].
  split; [apply upd_same | intros t' Hne; apply upd_other; congruence].
Qed.

Lemma insert_err_inv t rows db e db' :
  insert engine t rows db = (Err e, db') -> db' = db.
Proof.
  unfold insert. destruct (violates engine t rows db);
    intros H; [|discriminate H].
  injection H as _ <-. reflexivity.
Qed.

(** [rows.length > 0 ? await trx(t).insert(rows.map(f)).returning('*') : []] *)
Lemma insert_nonempty_ok_inv {A} t (rows : list A) (f : A -> Data t)
    db news db' :
  match rows with
  | [] => ret []
  | _ :: _ => insert engine t (js_map rows f)
  end db = (Ok news, db') ->
  map data news = js_map rows f /\ inserted_into t news db db'.
Proof.
  destruct rows as [|row rows].
  - intros H. injection H as <- <-. split; [reflexivity|].
    apply inserted_into_nil.
  - apply insert_ok_inv.
Qed.

Lemma bind_lift_result_inv {A B} (r : Result A) (k : A -> M Database B)
    db b db' :
  bind (lift_result r) k db = (Ok b, db') ->
  exists a, r = Ok a /\ k a db = (Ok b, db').
Proof.
  unfold bind, lift_result. destruct r as [a|e]; intros H.
  - exists a. split; [reflexivity | exact H].
  - discriminate H.
Qed.

Lemma copyChartVersionContent_ok_inv chartVersionIds chartVersionMapping
    table db returned db' :
  copyChartVersionContent engine chartVersionIds chartVersionMapping table
    db = (Ok returned, db') ->
  exists news : list (Row (saved_queries_version_content table)),
    map data news
    = js_map
        (List.filter
           (fun d : Row (saved_queries_version_content table) =>
              sql_in (content_saved_queries_version_id (data d))
                     (map Some chartVersionIds))
           (db (saved_queries_version_content table)))
        (fun d => {| content_saved_queries_version_id :=
                       find_newId chartVersionMapping
                         (content_saved_queries_version_id (data d));
                     content_columns := content_columns (data d) |})
    /\ inserted_into (saved_queries_version_content table) news db db'.
Proof.
  unfold copyChartVersionContent. rewrite bind_where_.
  destruct (List.filter _ (db (saved_queries_version_content table)))
    as [|row rows].
  - intros H. injection H as _ <-. exists []. split; [reflexivity|].
    apply inserted_into_nil.
  - intros H. apply bind_ok_inv in H as (news & db1 & Hinsert & Hret).
    injection Hret as _ <-. exists news.
    apply insert_ok_inv in Hinsert. exact Hinsert.
Qed.

Lemma copyDashboardTileContent_ok_inv dashboardTileUuids
    dashboardVersionIds chartMapping dashboardVersionsMapping
    dashboardTilesMapping table db returned db' :
  copyDashboardTileContent engine dashboardTileUuids dashboardVersionIds
    chartMapping dashboardVersionsMapping dashboardTilesMapping table db
  = (Ok returned, db') ->
  exists news : list (Row (dashboard_tile_content table)),
    map data news
    = js_map
        (List.filter
           (fun d : Row (dashboard_tile_content table) =>
              match tile_content_dashboard_tile_uuid (data d) with
              | Some u => sql_in_uuid u dashboardTileUuids
              | None => false
              end
              && sql_in (tile_content_dashboard_version_id (data d))
                        dashboardVersionIds)
           (db (dashboard_tile_content table)))
        (fun d => {| saved_chart_id :=
                       match saved_chart_id (data d) with
                       | Some c =>
                           if Z.eqb c 0 then Some c
                           else find_newId chartMapping (Some c)
                       | None => None
                       end;
                     tile_content_dashboard_version_id :=
                       find_newId dashboardVersionsMapping
                         (tile_content_dashboard_version_id (data d));
                     tile_content_dashboard_tile_uuid :=
                       find_newUuid dashboardTilesMapping
                         (tile_content_dashboard_tile_uuid (data d));
                     tile_content_columns :=
                       tile_content_columns (data d) |})
    /\ inserted_into (dashboard_tile_content table) news db db'.
Proof.
  unfold copyDashboardTileContent. rewrite bind_where_.
  destruct (List.filter _ (db (dashboard_tile_content table)))
    as [|row rows].
  - intros H. injection H as _ <-. exists []. split; [reflexivity|].
    apply inserted_into_nil.
  - intros H. apply bind_ok_inv in H as (news & db1 & Hinsert & Hret).
    injection Hret as _ <-. exists news.
    apply insert_ok_inv in Hinsert. exact Hinsert.
Qed.

(** Read a table of a later state back to the state before the call. *)
Ltac read_tables_in H :=
  repeat match goal with
    | Hi : inserted_into ?t _ _ ?d |- _ =>
        match type of H with
        | context [d ?t'] =>
            first [ rewrite (proj2 Hi t') in H by discriminate
                  | rewrite (proj1 Hi) in H ]
        end
    end.

Ltac read_tables :=
  repeat match goal with
    | Hi : inserted_into ?t _ _ ?d |- context [?d ?t'] =>
        first [ rewrite (proj2 Hi t') by discriminate
              | rewrite (proj1 Hi) ]
    end.

(** One step of the body: an insert guarded by [rows.length > 0]. *)
Ltac step_insert H news db Hdata Hinto :=
  let Hinsert := fresh "Hinsert" in
  apply bind_ok_inv in H as (news & db & Hinsert & H);
  apply insert_nonempty_ok_inv in Hinsert as [Hdata Hinto].

Ltac step_mapping H mapping Hzip :=
  apply bind_lift_result_inv in H as (mapping & Hzip & H).

Ltac step_versionContent H news db Hdata Hinto :=
  let Hcopy := fresh "Hcopy" in
  let returned := fresh "returned" in
  apply bind_ok_inv in H as (returned & db & Hcopy & H);
  apply copyChartVersionContent_ok_inv in Hcopy as (news & Hdata & Hinto);
  read_tables_in Hdata.

Ltac step_tileContent H news db Hdata Hinto :=
  let Hcopy := fresh "Hcopy" in
  let returned := fresh "returned" in
  apply bind_ok_inv in H as (returned & db & Hcopy & H);
  apply copyDashboardTileContent_ok_inv in Hcopy as (news & Hdata & Hinto);
  read_tables_in Hdata.

(** When the body of [duplicateContent] resolves, the database has grown,
    table by table, by the copies described by [Cloned]. *)
Lemma duplicateContent_body_ok projectUuid previewProjectUuid db db' :
  duplicateContent_body engine projectUuid previewProjectUuid db
  = (Ok tt, db') ->
  exists projectId previewProjectId inserted mapping tiles,
    Cloned db projectUuid previewProjectUuid projectId previewProjectId
      inserted mapping tiles
    /\ forall t, db' t = (db t ++ inserted t)%list.
Proof.
  intros H. unfold duplicateContent_body in H. cbv zeta in H.
  rewrite !bind_where_ in H.
  fold (matching_projects previewProjectUuid db) in H.
  fold (matching_projects projectUuid db) in H.
  destruct (first (matching_projects projectUuid db)) as [project|] eqn:Eproject;
    [|discriminate H].
  cbn [deref] in H. rewrite bind_ret in H. rewrite bind_where_ in H.
  set (projectId := project_id project) in *.
  fold (cloned_spaces db projectId) in H.
  apply bind_ok_inv in H as (newSpaces & db1 & Hinsert & H).
  assert (exists previewProjectId,
             (cloned_spaces db projectId <> [] ->
              option_map project_id
                (first (matching_projects previewProjectUuid db))
              = Some previewProjectId)
             /\ map data newSpaces
                = js_map (cloned_spaces db projectId)
                    (fun d => {| space_project_id := previewProjectId;
                                 space_columns := space_columns (data d) |})
             /\ inserted_into spaces newSpaces db db1)
    as (previewProjectId & Hpreview & Hspaces & Hinto1).
  { destruct (cloned_spaces db projectId) as [|space0 others].
    - injection Hinsert as <- <-. exists 0. split; [congruence|].
      split; [reflexivity | apply inserted_into_nil].
    - destruct (first (matching_projects previewProjectUuid db))
        as [previewProject|]; [|discriminate Hinsert].
      cbn [deref] in Hinsert. rewrite bind_ret in Hinsert.
      apply insert_ok_inv in Hinsert as [Hdata Hinto].
      exists (project_id previewProject). split; [reflexivity|].
      split; assumption. }
  clear Hinsert.
  step_mapping H spaceMapping HspaceMapping.
  (* space shares *)
  rewrite bind_where_ in H. read_tables_in H.
  fold (cloned_spaceShares db projectId) in H.
  step_insert H newSpaceShare db2 Hshares Hinto2.
  (* charts *)
  rewrite !bind_select in H. read_tables_in H.
  fold (cloned_charts db projectId newSpaces) in H.
  step_insert H newCharts db3 Hcharts Hinto3.
  step_mapping H chartMapping HchartMapping.
  (* chart versions *)
  rewrite !bind_where_ in H. read_tables_in H.
  fold (last_chart_version_ids db projectId newSpaces) in H.
  fold (cloned_chartVersions db projectId newSpaces) in H.
  step_insert H newChartVersions db4 Hversions Hinto4.
  step_mapping H chartVersionMapping HchartVersionMapping.
  (* chart version content *)
  step_versionContent H newCalculations db5 Hcalculations Hinto5.
  step_versionContent H newSorts db6 Hsorts Hinto6.
  step_versionContent H newFields db7 Hfields Hinto7.
  step_versionContent H newMetrics db8 Hmetrics Hinto8.
  (* dashboards *)
  rewrite !bind_select in H. read_tables_in H.
  fold (cloned_dashboards db projectId newSpaces) in H.
  step_insert H newDashboards db9 Hdashboards Hinto9.
  step_mapping H dashboardMapping HdashboardMapping.
  (* dashboard versions *)
  rewrite !bind_where_ in H. read_tables_in H.
  fold (last_dashboard_version_ids db projectId newSpaces) in H.
  fold (cloned_dashboardVersions db projectId newSpaces) in H.
  step_insert H newDashboardVersions db10 Hdversions Hinto10.
  step_mapping H dashboardVersionsMapping HdashboardVersionsMapping.
  (* dashboard tiles *)
  rewrite bind_where_ in H. read_tables_in H.
  fold (cloned_dashboardTiles db projectId newSpaces) in H.
  step_insert H newDashboardTiles db11 Htiles Hinto11.
  step_mapping H dashboardTilesMapping HdashboardTilesMapping.
  (* dashboard tile content *)
  step_tileContent H newTileCharts db12 Htilecharts Hinto12.
  step_tileContent H newTileLooms db13 Htilelooms Hinto13.
  step_tileContent H newTileMarkdowns db14 Htilemarkdowns Hinto14.
  (* the mapping record *)
  apply bind_ok_inv in H as (newRecord & db15 & Hinsert & H).
  injection H as <-.
  apply insert_ok_inv in Hinsert as [Hrecord Hinto15].
  exists projectId, previewProjectId.
  exists (fun t =>
            match t return list (Row t) with
            | spaces => newSpaces
            | space_share => newSpaceShare
            | saved_queries => newCharts
            | saved_queries_versions => newChartVersions
            | saved_queries_version_content c =>
                match c return
                      list (Row (saved_queries_version_content c)) with
                | table_calculations => newCalculations
                | sorts => newSorts
                | fields => newFields
                | additional_metrics => newMetrics
                end
            | dashboards => newDashboards
            | dashboard_versions => newDashboardVersions
            | dashboard_tiles => newDashboardTiles
            | dashboard_tile_content c =>
                match c return list (Row (dashboard_tile_content c)) with
                | tile_charts => newTileCharts
                | tile_looms => newTileLooms
                | tile_markdowns => newTileMarkdowns
                end
            | preview_content => newRecord
            | projects | cached_explores | users | emails
            | project_memberships => []
            end).
  exists {| mapping_charts := chartMapping;
            mapping_chartVersions := chartVersionMapping;
            mapping_spaces := spaceMapping;
            mapping_dashboards := dashboardMapping;
            mapping_dashboardVersions := dashboardVersionsMapping |}.
  exists dashboardTilesMapping.
  split.
  - constructor; cbn [mapping_charts mapping_chartVersions mapping_spaces
                      mapping_dashboards mapping_dashboardVersions];
      try assumption.
    + unfold projectId. rewrite Eproject. reflexivity.
    + intros [| | |]; assumption.
    + intros [| |]; assumption.
    + repeat split; reflexivity.
  - intros t.
    destruct t as [| | | | |[| | |]| | | |[| |]| | | | |];
      read_tables; rewrite ?app_nil_r; reflexivity.
Qed.

End ClonerLemmas.

(** *** Progress

    Nothing but the storage engine and a missing project can make
    [duplicateContent] reject: when the engine accepts its inserts and both
    projects exist, the call resolves. *)

Section ClonerProgress.

Variable engine : StorageEngine.

Hypothesis accepts :
  forall t rows db, violates engine t rows db = None.

Lemma zip_mapping_same_length {A B K} (olds : list A) (news : list B)
    (key_old : A -> K) (key_new : B -> K) :
  length news = length olds ->
  exists mapping, zip_mapping olds news key_old key_new = Ok mapping.
Proof.
  revert news. induction olds as [|c olds IH]; intros news Hlength.
  - eexists. reflexivity.
  - destruct news as [|n news]; [discriminate Hlength|].
    injection Hlength as Hlength.
    destruct (IH news Hlength) as [rest Hrest].
    cbn [zip_mapping]. rewrite Hrest. eexists. reflexivity.
Qed.

Lemma insert_accepted t rows db :
  exists news db',
    insert engine t rows db = (Ok news, db')
    /\ length news = length rows.
Proof.
  unfold insert. rewrite accepts. eexists _, _.
  split; [reflexivity|]. apply length_imap.
Qed.

Lemma insert_nonempty_accepted {A} t (rows : list A) (f : A -> Data t)
    db :
  exists news db',
    match rows with
    | [] => ret []
    | _ :: _ => insert engine t (js_map rows f)
    end db = (Ok news, db')
    /\ length news = length rows.
Proof.
  destruct rows as [|row rows].
  - exists [], db. split; reflexivity.
  - destruct (insert_accepted t (js_map (row :: rows) f) db)
      as (news & db' & Hinsert & Hlength).
    exists news, db'. split; [exact Hinsert|].
    rewrite Hlength. apply length_map.
Qed.

Lemma copyChartVersionContent_accepted chartVersionIds
    chartVersionMapping table db :
  exists returned db',
    copyChartVersionContent engine chartVersionIds chartVersionMapping
      table db = (Ok returned, db').
Proof.
  unfold copyChartVersionContent. rewrite bind_where_.
  destruct (List.filter _ (db (saved_queries_version_content table)))
    as [|row rows].
  - eexists _, _. reflexivity.
  - unfold bind, insert. rewrite accepts. eexists _, _. reflexivity.
Qed.

Lemma copyDashboardTileContent_accepted dashboardTileUuids
    dashboardVersionIds chartMapping dashboardVersionsMapping
    dashboardTilesMapping table db :
  exists returned db',
    copyDashboardTileContent engine dashboardTileUuids
      dashboardVersionIds chartMapping dashboardVersionsMapping
      dashboardTilesMapping table db = (Ok returned, db').
Proof.
  unfold copyDashboardTileContent. rewrite bind_where_.
  destruct (List.filter _ (db (dashboard_tile_content table)))
    as [|row rows].
  - eexists _, _. reflexivity.
  - unfold bind, insert. rewrite accepts. eexists _, _. reflexivity.
Qed.

Ltac forward_insert :=
  match goal with
  | |- exists db', bind (match ?rows with
                         | [] => ret []
                         | _ :: _ => insert engine ?t (js_map ?rows ?f)
                         end) _ ?db = _ =>
      let news := fresh "news" in
      let db1 := fresh "db" in
      let Hinsert := fresh "Hinsert" in
      let Hlength := fresh "Hlength" in
      destruct (insert_nonempty_accepted t rows f db)
        as (news & db1 & Hinsert & Hlength);
      rewrite (bind_ok _ _ _ _ _ Hinsert)
  end.

Ltac forward_mapping :=
  match goal with
  | |- exists db', bind (lift_result (zip_mapping ?olds ?news ?ko ?kn))
                        _ ?db = _ =>
      let mapping := fresh "mapping" in
      let Hmapping := fresh "Hmapping" in
      destruct (zip_mapping_same_length olds news ko kn)
        as (mapping & Hmapping); [assumption|];
      rewrite Hmapping;
      change (bind (lift_result (Ok mapping)) ?k db) with (k mapping db);
      cbv beta
  end.

Ltac forward_versionContent :=
  match goal with
  | |- exists db', bind (copyChartVersionContent engine ?ids ?m ?table)
                        _ ?db = _ =>
      let returned := fresh "returned" in
      let db1 := fresh "db" in
      let Hcopy := fresh "Hcopy" in
      destruct (copyChartVersionContent_accepted ids m table db)
        as (returned & db1 & Hcopy);
      rewrite (bind_ok _ _ _ _ _ Hcopy)
  end.

Ltac forward_tileContent :=
  match goal with
  | |- exists db', bind (copyDashboardTileContent engine ?uuids ?ids ?c
                           ?v ?tl ?table) _ ?db = _ =>
      let returned := fresh "returned" in
      let db1 := fresh "db" in
      let Hcopy := fresh "Hcopy" in
      destruct (copyDashboardTileContent_accepted uuids ids c v tl table
                  db) as (returned & db1 & Hcopy);
      rewrite (bind_ok _ _ _ _ _ Hcopy)
  end.

Lemma duplicateContent_resolves projectUuid previewProjectUuid db :
  matching_projects projectUuid db <> [] ->
  matching_projects previewProjectUuid db <> [] ->
  exists db',
    duplicateContent engine projectUuid previewProjectUuid db
    = (Ok tt, db').
Proof.
  intros Hsource Hpreview.
  cut (exists db',
          duplicateContent_body engine projectUuid previewProjectUuid db
          = (Ok tt, db')).
  { intros [db' Hbody]. exists db'.
    unfold duplicateContent, transaction. rewrite Hbody. reflexivity. }
  unfold duplicateContent_body. cbv zeta. rewrite !bind_where_.
  fold (matching_projects previewProjectUuid db).
  fold (matching_projects projectUuid db).
  destruct (matching_projects projectUuid db) as [|project others];
    [contradiction|].
  destruct (matching_projects previewProjectUuid db)
    as [|previewProject others']; [contradiction|].
  cbn [first head deref]. rewrite bind_ret, bind_where_.
  (* spaces *)
  match goal with
  | |- exists db', bind ?m _ db = _ =>
      assert (exists news db1,
                 m db = (Ok news, db1)
                 /\ length news
                    = length (List.filter
                                (fun s : Row spaces =>
                                   Z.eqb (space_project_id (data s))
                                         (project_id project))
                                (db spaces)))
        as (newSpaces & db1 & Hspaces & Hlength)
  end.
  { destruct (List.filter _ (db spaces)) as [|space0 spaces0].
    - exists [], db. split; reflexivity.
    - rewrite bind_ret. unfold insert. rewrite accepts.
      eexists _, _. split; [reflexivity|].
      rewrite length_imap. apply length_map. }
  rewrite (bind_ok _ _ _ _ _ Hspaces). clear Hspaces.
  forward_mapping.
  (* space shares *)
  rewrite bind_where_. forward_insert.
  (* charts *)
  rewrite !bind_select. forward_insert. forward_mapping.
  (* chart versions *)
  rewrite !bind_where_. forward_insert. forward_mapping.
  do 4 forward_versionContent.
  (* dashboards *)
  rewrite !bind_select. forward_insert. forward_mapping.
  (* dashboard versions *)
  rewrite !bind_where_. forward_insert. forward_mapping.
  (* dashboard tiles *)
  rewrite bind_where_. forward_insert. forward_mapping.
  do 3 forward_tileContent.
  (* the mapping record *)
  unfold bind, insert. rewrite accepts. eexists. reflexivity.
Qed.

End ClonerProgress.

(** ** Latest versions by grouped aggregation *)

Lemma sql_max_spec (values : list Z) (m : Z) :
  sql_max values = Some m ->
  In m values /\ forall x, In x values -> x <= m.
Proof.
  destruct values as [|x rest]; [discriminate|]. cbn [sql_max].
  intros H. injection H as <-. revert x.
  induction rest as [|y rest IH]; intros x.
  - cbn. split; [left; reflexivity|]. intros z [->|[]]. lia.
  - cbn [fold_left]. destruct (IH (Z.max x y)) as [Hin Hle]. split.
    + destruct Hin as [Heq|Hin].
      * rewrite <- Heq.
        destruct (Z.max_spec x y) as [[_ ->]|[_ ->]];
          [right; left | left]; reflexivity.
      * right. right. exact Hin.
    + intros z [<-|[<-|Hz]].
      * specialize (Hle (Z.max x y) (or_introl eq_refl)). lia.
      * specialize (Hle (Z.max x y) (or_introl eq_refl)). lia.
      * apply Hle. right. exact Hz.
Qed.

Lemma sql_max_nonempty (values : list Z) :
  values <> [] -> exists m, sql_max values = Some m.
Proof.
  destruct values; [contradiction|]. intros _. eexists. reflexivity.
Qed.

Lemma sql_in_true (column : option Z) (values : list (option Z)) :
  sql_in column values = true <->
  exists k, column = Some k /\ In (Some k) values.
Proof.
  unfold sql_in. destruct column as [x|].
  - rewrite existsb_exists. split.
    + intros (v & Hin & Heq). unfold sql_eq in Heq.
      destruct v as [y|]; [|discriminate].
      apply Z.eqb_eq in Heq as ->. exists x. split; [reflexivity|exact Hin].
    + intros (k & Hk & Hin). injection Hk as ->. exists (Some k).
      split; [exact Hin|]. apply Z.eqb_refl.
  - split; [discriminate|]. intros (k & Hk & _). discriminate Hk.
Qed.

Lemma sql_eq_true (column : option Z) (value : Z) :
  sql_eq column value = true <-> column = Some value.
Proof.
  unfold sql_eq. destruct column as [x|].
  - rewrite Z.eqb_eq. split; congruence.
  - split; discriminate.
Qed.

Lemma NoDup_map_eq {A B} (f : A -> B) (l : list A) (a b : A) :
  List.NoDup (map f l) -> In a l -> In b l -> f a = f b -> a = b.
Proof.
  induction l as [|x l IH]; [contradiction|].
  cbn [map]. intros Hnodup Ha Hb Heq.
  apply NoDup_cons_iff in Hnodup as [Hnotin Hnodup].
  destruct Ha as [<-|Ha], Hb as [<-|Hb].
  - reflexivity.
  - exfalso. apply Hnotin. rewrite Heq. apply in_map. exact Hb.
  - exfalso. apply Hnotin. rewrite <- Heq. apply in_map. exact Ha.
  - apply IH; assumption.
Qed.

Lemma NoDup_all_equal {A} (l : list A) (v : A) :
  List.NoDup l -> In v l -> (forall x, In x l -> x = v) -> l = [v].
Proof.
  intros Hnodup Hin Hall. destruct l as [|x l]; [contradiction|].
  assert (x = v) as -> by (apply Hall; left; reflexivity).
  destruct l as [|y l]; [reflexivity|]. exfalso.
  assert (y = v) as -> by (apply Hall; right; left; reflexivity).
  apply NoDup_cons_iff in Hnodup as [Hnotin _]. apply Hnotin.
  left. reflexivity.
Qed.

Lemma exists_latest {R} (key : R -> Z) (rows : list R) :
  rows <> [] ->
  exists v, In v rows /\ forall w, In w rows -> key w <= key v.
Proof.
  induction rows as [|x rows IH]; [contradiction|]. intros _.
  destruct rows as [|y rows].
  - exists x. split; [left; reflexivity|]. intros w [<-|[]]. lia.
  - destruct IH as (v & Hin & Hmax); [discriminate|].
    destruct (Z_le_gt_dec (key x) (key v)) as [Hle|Hgt].
    + exists v. split; [right; exact Hin|].
      intros w [<-|Hw]; [exact Hle | apply Hmax; exact Hw].
    + exists x. split; [left; reflexivity|].
      intros w [<-|Hw]; [lia|]. specialize (Hmax w Hw). lia.
Qed.

Section Latest.

Context {R : Type} (parent : R -> option Z) (key : R -> Z).
Variable rows : list R.
Variable parentIds : list Z.

Local Abbreviation scoped := (rows_in_scope parent rows parentIds).
Local Abbreviation lastIds := (last_ids parent key rows parentIds).
Local Abbreviation selected := (latest_rows parent key rows parentIds).

Lemma in_scoped v :
  In v scoped <->
  In v rows /\ exists p, parent v = Some p /\ In p parentIds.
Proof.
  unfold rows_in_scope. rewrite filter_In, sql_in_true. split.
  - intros (Hin & k & Hk & Hmem). split; [exact Hin|]. exists k.
    split; [exact Hk|]. apply in_map_iff in Hmem as (p & Hp & Hpin).
    injection Hp as <-. exact Hpin.
  - intros (Hin & p & Hp & Hpin). split; [exact Hin|]. exists p.
    split; [exact Hp|]. apply in_map. exact Hpin.
Qed.

Lemma in_group g v :
  In v (List.filter (fun r => bool_decide (parent r = g)) scoped) <->
  In v scoped /\ parent v = g.
Proof.
  rewrite filter_In. split.
  - intros [Hin Hg]. split; [exact Hin|].
    apply bool_decide_eq_true_1 in Hg. exact Hg.
  - intros [Hin Hg]. split; [exact Hin|].
    apply bool_decide_eq_true_2. exact Hg.
Qed.

(** Every id of the aggregation is the id of a row of a parent in scope,
    and no row of that parent has a larger id. *)
Lemma lastIds_attained k :
  In (Some k) lastIds ->
  exists w p, In w rows /\ key w = k /\ parent w = Some p
              /\ In p parentIds
              /\ forall u, In u rows -> parent u = Some p -> key u <= k.
Proof.
  unfold last_ids, groupBy_max. intros Hin.
  apply in_map_iff in Hin as (g & Hmax & Hg).
  apply list_elem_of_In, elem_of_remove_dups, list_elem_of_In in Hg.
  apply sql_max_spec in Hmax as [Hk Hle].
  apply in_map_iff in Hk as (w & Hw & Hwin).
  apply in_group in Hwin as [Hscoped Hparent].
  pose proof Hscoped as Hscoped'.
  apply in_scoped in Hscoped' as (Hrows & p & Hp & Hpin).
  exists w, p. repeat split; try assumption.
  intros u Hu Hup. apply Hle. apply in_map. apply in_group. split.
  - apply in_scoped. split; [exact Hu|]. exists p. split; assumption.
  - congruence.
Qed.

(** The largest id of a parent in scope is an id of the aggregation. *)
Lemma latest_in_lastIds p w :
  In p parentIds -> In w rows -> parent w = Some p ->
  (forall u, In u rows -> parent u = Some p -> key u <= key w) ->
  In (Some (key w)) lastIds.
Proof.
  intros Hpin Hw Hp Hmax. unfold last_ids, groupBy_max.
  assert (In w scoped) as Hscoped.
  { apply in_scoped. split; [exact Hw|]. exists p. split; assumption. }
  apply in_map_iff. exists (Some p). split.
  - destruct (sql_max_nonempty
                (map key (List.filter
                            (fun r => bool_decide (parent r = Some p))
                            scoped))) as [m Hm].
    { intros Hnil. apply map_eq_nil in Hnil.
      assert (In w (List.filter
                      (fun r => bool_decide (parent r = Some p)) scoped))
        as Hin by (apply in_group; split; assumption).
      rewrite Hnil in Hin. contradiction. }
    rewrite Hm. f_equal.
    apply sql_max_spec in Hm as [Hk Hle].
    apply in_map_iff in Hk as (u & Hu & Huin).
    apply in_group in Huin as [Huscoped Hup].
    apply in_scoped in Huscoped as [Hurows _].
    specialize (Hmax u Hurows Hup).
    assert (key w <= m).
    { apply Hle. apply in_map. apply in_group. split; assumption. }
    lia.
  - apply list_elem_of_In, elem_of_remove_dups, list_elem_of_In.
    rewrite <- Hp. apply in_map. exact Hscoped.
Qed.

(** The ids of the selected rows are the ids of the aggregation. *)
Lemma sql_in_lastIds_selected (column : option Z) :
  sql_in column lastIds
  = sql_in column (map Some (map key selected)).
Proof.
  apply eq_true_iff_eq. rewrite !sql_in_true. split.
  - intros (k & Hk & Hin). exists k. split; [exact Hk|].
    destruct (lastIds_attained k Hin) as (w & p & Hw & Hkey & _).
    apply in_map. apply in_map_iff. exists w. split; [exact Hkey|].
    unfold latest_rows. apply filter_In. split; [exact Hw|].
    apply sql_in_true. exists k. rewrite Hkey. split; [reflexivity|].
    exact Hin.
  - intros (k & Hk & Hin). exists k. split; [exact Hk|].
    apply in_map_iff in Hin as (k' & Hk' & Hin). injection Hk' as ->.
    apply in_map_iff in Hin as (v & Hv & Hsel).
    unfold latest_rows in Hsel. apply filter_In in Hsel as [_ Hsel].
    apply sql_in_true in Hsel as (k' & Hk' & Hin).
    injection Hk' as <-. rewrite <- Hv. exact Hin.
Qed.

Hypothesis unique_ids : List.NoDup (map key rows).

(** With unique version ids, the selected rows are the latest versions of
    the parents in scope. *)
Lemma in_selected v :
  In v selected <->
  In v rows
  /\ exists p, In p parentIds /\ parent v = Some p
               /\ forall u, In u rows -> parent u = Some p ->
                            key u <= key v.
Proof.
  unfold latest_rows. rewrite filter_In, sql_in_true. split.
  - intros (Hv & k & Hk & Hin). injection Hk as <-.
    split; [exact Hv|].
    destruct (lastIds_attained _ Hin)
      as (w & p & Hw & Hkey & Hp & Hpin & Hmax).
    assert (w = v) as ->
        by (apply (NoDup_map_eq key rows); assumption).
    exists p. repeat split; assumption.
  - intros (Hv & p & Hpin & Hp & Hmax). split; [exact Hv|].
    exists (key v). split; [reflexivity|].
    apply (latest_in_lastIds p); assumption.
Qed.

Lemma selected_parent_in_scope v :
  In v selected -> sql_in (parent v) (map Some parentIds) = true.
Proof.
  intros Hv. apply in_selected in Hv as (_ & p & Hpin & Hp & _).
  apply sql_in_true. exists p. split; [exact Hp|].
  apply in_map. exact Hpin.
Qed.

Lemma selected_one_latest_version p :
  In p parentIds -> one_latest_version parent key rows selected p.
Proof.
  intros Hpin. unfold one_latest_version.
  assert (forall x, In x (versions_of parent selected p) <->
                    In x rows /\ parent x = Some p
                    /\ forall u, In u rows -> parent u = Some p ->
                                 key u <= key x) as Hcopied.
  { intros x. unfold versions_of. rewrite filter_In, sql_eq_true.
    rewrite in_selected. split.
    - intros ((Hx & q & _ & Hq & Hmax) & Hp).
      assert (q = p) as -> by congruence. repeat split; assumption.
    - intros (Hx & Hp & Hmax). split; [|exact Hp].
      split; [exact Hx|]. exists p. repeat split; assumption. }
  assert (forall x, In x (versions_of parent rows p) <->
                    In x rows /\ parent x = Some p) as Hversions.
  { intros x. unfold versions_of. rewrite filter_In, sql_eq_true.
    reflexivity. }
  destruct (versions_of parent rows p) as [|v0 others] eqn:Eversions.
  - destruct (versions_of parent selected p) as [|x l]; [reflexivity|].
    exfalso. destruct (proj1 (Hcopied x) (or_introl eq_refl))
      as (Hx & Hp & _).
    apply (proj2 (Hversions x)). split; assumption.
  - destruct (exists_latest key (v0 :: others)) as (v & Hv & Hmax);
      [discriminate|].
    exists v. split.
    + apply NoDup_all_equal.
      * unfold versions_of, latest_rows. apply List.NoDup_filter.
        apply List.NoDup_filter.
        apply (List.NoDup_map_inv key). exact unique_ids.
      * apply Hcopied. apply Hversions in Hv as [Hv Hp].
        repeat split; try assumption.
        intros u Hu Hup. apply Hmax. apply Hversions. split; assumption.
      * intros x Hx. apply Hcopied in Hx as (Hx & Hp & Hxmax).
        apply Hversions in Hv as [Hv Hvp].
        apply (NoDup_map_eq key rows); try assumption.
        specialize (Hxmax v Hv Hvp).
        assert (key x <= key v)
          by (apply Hmax; apply Hversions; split; assumption).
        lia.
    + unfold is_latest. rewrite Eversions.
      split; [exact Hv | exact Hmax].
Qed.

End Latest.

(** ** Properties of [duplicateContent] *)

Lemma pair_eta_fst {A B} (x : A * B) (a : A) : fst x = a -> x = (a, snd x).
Proof. destruct x. cbn. intros ->. reflexivity. Qed.

Lemma duplicateContent_ok engine projectUuid previewProjectUuid db db' :
  duplicateContent engine projectUuid previewProjectUuid db = (Ok tt, db') ->
  cloned_with db projectUuid previewProjectUuid db' (fun _ _ _ => True).
Proof.
  unfold duplicateContent, transaction.
  destruct (duplicateContent_body engine projectUuid previewProjectUuid db)
    as [[[]|e] db1] eqn:Ebody; intros H; [|discriminate H].
  injection H as <-.
  apply duplicateContent_body_ok in Ebody
    as (projectId & previewProjectId & inserted & mapping & tiles & Hcloned
        & Hdb).
  exists projectId, previewProjectId, inserted, mapping, tiles.
  split; [exact Hcloned | split; [exact Hdb | exact I]].
Qed.

(** C1: [duplicateContent] is all-or-nothing. When it resolves, the
    database holds, next to the rows it held, the copy of every row in
    scope (spaces, space shares, charts, their latest versions and the
    content of these, dashboards, their latest versions, tiles and tile
    content) and the mapping record; when it rejects, at whatever step, the
    database is the one before the call. *)
Theorem duplicateContent_all_or_nothing (engine : StorageEngine)
    (projectUuid previewProjectUuid : Uuid) (db : Database) :
  match duplicateContent engine projectUuid previewProjectUuid db with
  | (Ok _, db') =>
      exists projectId previewProjectId inserted mapping tiles,
        Cloned db projectUuid previewProjectUuid projectId previewProjectId
          inserted mapping tiles
        /\ forall t, db' t = (db t ++ inserted t)%list
  | (Err _, db') => db' = db
  end.
Proof.
  unfold duplicateContent, transaction.
  destruct (duplicateContent_body engine projectUuid previewProjectUuid db)
    as [[[]|e] db'] eqn:Ebody.
  - apply duplicateContent_body_ok in Ebody. exact Ebody.
  - reflexivity.
Qed.

(** A clone that fails at the insert of the dashboard tiles, after the
    spaces, charts, versions and dashboards were inserted: the call rejects
    and none of these rows is left. *)
Example duplicateContent_rolls_back :
  let body :=
    duplicateContent_body (rejecting_engine dashboard_tiles)
      "project-1" "preview-2" sample_database in
  let call :=
    duplicateContent (rejecting_engine dashboard_tiles)
      "project-1" "preview-2" sample_database in
  length (snd body spaces) = 5%nat
  /\ length (snd body dashboard_versions) = 3%nat
  /\ fst call = Err (PgDatabaseError {| constraint := Some "rejected" |})
  /\ snd call = sample_database.
Proof. repeat split; vm_compute; reflexivity. Qed.

(** C10: when no project row has the source [projectUuid],
    [duplicateContent] rejects with the [TypeError] of reading [project_id]
    of [undefined] (neither a [NotExistsError] nor a silent return), and the
    database is left as it was. *)
Theorem duplicateContent_missing_source_project (engine : StorageEngine)
    (projectUuid previewProjectUuid : Uuid) (db : Database) :
  matching_projects projectUuid db = [] ->
  duplicateContent engine projectUuid previewProjectUuid db
  = (Err (TypeError "Cannot read properties of undefined"), db).
Proof.
  intros Hmissing. unfold duplicateContent, transaction, duplicateContent_body.
  cbv zeta. rewrite !bind_where_.
  fold (matching_projects projectUuid db). rewrite Hmissing.
  cbn [first head deref]. rewrite bind_throw. reflexivity.
Qed.

Lemma duplicateContent_missing_source_project_witness :
  duplicateContent accepting_engine "project-9" "preview-2" sample_database
  = (Err (TypeError "Cannot read properties of undefined"), sample_database).
Proof.
  apply (duplicateContent_missing_source_project accepting_engine
           "project-9" "preview-2" sample_database).
  vm_compute. reflexivity.
Defined.

(** *** Latest versions *)

Lemma leftJoin_spaces_where_project_intro {R} (from : list R)
    (joined : list (Row spaces)) (space_of : R -> option Z)
    (projectId : Z) (r : R) (s : Row spaces) :
  In r from -> In s joined -> space_of r = Some (space_id s) ->
  space_project_id (data s) = projectId ->
  In r (leftJoin_spaces_where_project from joined space_of projectId).
Proof.
  intros Hr Hs Hspace Hproject. unfold leftJoin_spaces_where_project.
  apply in_flat_map. exists r. split; [exact Hr|].
  apply in_map_iff. exists s. split; [reflexivity|].
  apply filter_In. split; [exact Hs|]. apply andb_true_iff. split.
  - apply sql_eq_true. exact Hspace.
  - apply Z.eqb_eq. exact Hproject.
Qed.

(** A row whose space is a space of the project is a row of the join that
    the cloner reads, whatever spaces were inserted meanwhile. *)
Lemma space_of_project_joined {R} (db : Database) (projectId : Z)
    (newSpaces : list (Row spaces)) (from : list R)
    (space_of : R -> option Z) (r : R) :
  In r from -> space_of_project db projectId (space_of r) = true ->
  In r (leftJoin_spaces_where_project from (db spaces ++ newSpaces)%list
          space_of projectId).
Proof.
  intros Hr Hspace. unfold space_of_project in Hspace.
  apply existsb_exists in Hspace as (s & Hs & Hcondition).
  apply andb_true_iff in Hcondition as [Hid Hproject].
  apply sql_eq_true in Hid. apply Z.eqb_eq in Hproject.
  apply (leftJoin_spaces_where_project_intro from _ space_of projectId r s);
    try assumption.
  apply in_or_app. left. exact Hs.
Qed.

(** C3: when [duplicateContent] resolves and version ids are unique in
    their tables (they are the primary keys), of every chart and every
    dashboard of the source project, that is, of every chart and dashboard
    whose space is a space of the project, exactly one version is copied
    when it has any, the one with the largest version id, selected by the
    grouped [max] aggregation, and none when it has no version. The version
    rows inserted are the copies of the selected rows, one for one. *)
Theorem duplicateContent_copies_latest_versions (engine : StorageEngine)
    (projectUuid previewProjectUuid : Uuid) (db db' : Database) :
  List.NoDup (map saved_queries_version_id (db saved_queries_versions)) ->
  List.NoDup (map dashboard_version_id (db dashboard_versions)) ->
  duplicateContent engine projectUuid previewProjectUuid db = (Ok tt, db') ->
  cloned_with db projectUuid previewProjectUuid db'
    (latest_versions_copied db).
Proof.
  intros Hcharts Hdashboards Hcall.
  apply duplicateContent_ok in Hcall
    as (projectId & previewProjectId & inserted & mapping & tiles & Hcloned
        & Hdb & _).
  exists projectId, previewProjectId, inserted, mapping, tiles.
  split; [exact Hcloned|]. split; [exact Hdb|].
  unfold latest_versions_copied. cbv zeta.
  split; [|split; [|split]].
  - rewrite <- (map_map (@data saved_queries_versions) version_columns).
    rewrite (cloned_newChartVersions _ _ _ _ _ _ _ _ Hcloned).
    unfold js_map. rewrite map_map. reflexivity.
  - intros chart Hchart.
    apply (selected_one_latest_version
             (fun v : Row saved_queries_versions =>
                version_saved_query_id (data v))
             saved_queries_version_id (db saved_queries_versions)
             (map saved_query_id
                (cloned_charts db projectId (inserted spaces))) Hcharts).
    apply in_map. unfold project_charts in Hchart.
    apply filter_In in Hchart as [Hin Hspace].
    apply (space_of_project_joined db projectId (inserted spaces)
             (db saved_queries)
             (fun c : Row saved_queries => saved_query_space_id (data c)));
      assumption.
  - rewrite <- (map_map (@data dashboard_versions)
                  dashboard_version_columns).
    rewrite (cloned_newDashboardVersions _ _ _ _ _ _ _ _ Hcloned).
    unfold js_map. rewrite map_map. reflexivity.
  - intros dashboard Hdashboard.
    apply (selected_one_latest_version
             (fun v : Row dashboard_versions =>
                dashboard_version_dashboard_id (data v))
             dashboard_version_id (db dashboard_versions)
             (map dashboard_id
                (cloned_dashboards db projectId (inserted spaces)))
             Hdashboards).
    apply in_map. unfold project_dashboards in Hdashboard.
    apply filter_In in Hdashboard as [Hin Hspace].
    apply (space_of_project_joined db projectId (inserted spaces)
             (db dashboards)
             (fun d : Row dashboards => dashboard_space_id (data d)));
      assumption.
Qed.

(** *** Tile uuids *)


(** *** Lookups *)

Lemma zip_mapping_oldId {A B K} (olds : list A) (news : list B)
    (key_old : A -> K) (key_new : B -> K) (mapping : list (IdMapping K)) :
  zip_mapping olds news key_old key_new = Ok mapping ->
  map oldId mapping = map key_old olds.
Proof.
  revert news mapping.
  induction olds as [|c olds IH]; intros news mapping H.
  - injection H as <-. reflexivity.
  - cbn [zip_mapping] in H. destruct news as [|n news]; [discriminate H|].
    destruct (zip_mapping olds news key_old key_new) as [rest|e] eqn:E;
      [|discriminate H].
    injection H as <-. cbn [map oldId]. f_equal. apply (IH news). exact E.
Qed.

Lemma find_newId_resolves (mapping : list (IdMapping Z)) (key : option Z) :
  sql_in key (map Some (map oldId mapping)) = true ->
  is_Some (find_newId mapping key).
Proof.
  intros H. apply sql_in_true in H as (k & -> & Hin).
  apply in_map_iff in Hin as (k' & Hk & Hin). injection Hk as ->.
  apply in_map_iff in Hin as (entry & Hentry & Hin).
  unfold find_newId.
  destruct (List.find (fun m => sql_eq (Some k) (oldId m)) mapping)
    as [found|] eqn:Efind.
  - eexists. reflexivity.
  - exfalso. apply (find_none _ _ Efind) in Hin. cbn [sql_eq] in Hin.
    apply Z.eqb_neq in Hin. congruence.
Qed.

Lemma find_newUuid_resolves (mapping : list (IdMapping Uuid)) (u : Uuid) :
  sql_in_uuid u (map oldId mapping) = true ->
  is_Some (find_newUuid mapping (Some u)).
Proof.
  unfold sql_in_uuid. intros H.
  apply existsb_exists in H as (u' & Hin & Heq).
  apply String.eqb_eq in Heq as <-.
  apply in_map_iff in Hin as (entry & Hentry & Hin).
  unfold find_newUuid.
  destruct (List.find (fun m => String.eqb (oldId m) u) mapping)
    as [found|] eqn:Efind.
  - eexists. reflexivity.
  - exfalso. apply (find_none _ _ Efind) in Hin.
    apply String.eqb_neq in Hin. exact (Hin Hentry).
Qed.

Lemma Forall_copies {A} {t : Table} (news : list (Row t)) (olds : list A)
    (f : A -> Data t) (P : Data t -> Prop) :
  map data news = js_map olds f ->
  (forall d, In d olds -> P (f d)) ->
  List.Forall (fun n => P (data n)) news.
Proof.
  intros Hdata Hall. apply List.Forall_forall. intros n Hn.
  apply (in_map data) in Hn. rewrite Hdata in Hn.
  apply in_map_iff in Hn as (d & <- & Hd). apply Hall. exact Hd.
Qed.

Lemma in_leftJoin_spaces_where_project {R} (from : list R)
    (joined : list (Row spaces)) (space_of : R -> option Z)
    (projectId : Z) (r : R) :
  In r (leftJoin_spaces_where_project from joined space_of projectId) ->
  In r from
  /\ exists s, In s joined /\ space_of r = Some (space_id s)
               /\ space_project_id (data s) = projectId.
Proof.
  unfold leftJoin_spaces_where_project. intros H.
  apply in_flat_map in H as (r' & Hfrom & Hin).
  apply in_map_iff in Hin as (s & <- & Hs).
  apply filter_In in Hs as [Hjoined Hcondition].
  apply andb_true_iff in Hcondition as [Hspace Hproject].
  apply sql_eq_true in Hspace. apply Z.eqb_eq in Hproject.
  split; [exact Hfrom|]. exists s. repeat split; assumption.
Qed.

(** Every entry of a mapping pairs a source row with the row at the same
    position among the copies. *)
Lemma zip_mapping_entry {A B K} (olds : list A) (news : list B)
    (key_old : A -> K) (key_new : B -> K) (mapping : list (IdMapping K))
    (entry : IdMapping K) :
  zip_mapping olds news key_old key_new = Ok mapping ->
  In entry mapping ->
  exists (j : nat) (c : A) (n : B),
    olds !! j = Some c /\ news !! j = Some n
    /\ oldId entry = key_old c /\ newId entry = key_new n.
Proof.
  revert news mapping.
  induction olds as [|c olds IH]; intros news mapping H Hin.
  - injection H as <-. contradiction.
  - cbn [zip_mapping] in H. destruct news as [|n news]; [discriminate H|].
    destruct (zip_mapping olds news key_old key_new) as [rest|e] eqn:E;
      [|discriminate H].
    injection H as <-. destruct Hin as [<-|Hin].
    + exists 0%nat, c, n. repeat split; reflexivity.
    + destruct (IH news rest E Hin) as (j & c' & n' & Hc & Hn & Hold & Hnew).
      exists (S j), c', n'. repeat split; assumption.
Qed.

Lemma find_newId_Some (mapping : list (IdMapping Z)) (key : option Z)
    (found : Z) :
  find_newId mapping key = Some found ->
  exists entry, In entry mapping /\ key = Some (oldId entry)
                /\ newId entry = found.
Proof.
  unfold find_newId. intros H.
  destruct (List.find (fun m => sql_eq key (oldId m)) mapping)
    as [entry|] eqn:Efind; [|discriminate H].
  injection H as <-. apply find_some in Efind as [Hin Heq].
  apply sql_eq_true in Heq. exists entry. repeat split; assumption.
Qed.

(** The copies of [rows] made by [rows.map(f)], row by row. *)
Lemma copies_lookup {R D} (project : R -> D) (rows copies : list R)
    (f : R -> D) :
  map project copies = js_map rows f ->
  length copies = length rows
  /\ forall (i : nat) (row copy : R),
       rows !! i = Some row -> copies !! i = Some copy ->
       project copy = f row.
Proof.
  unfold js_map. revert copies.
  induction rows as [|r rows IH]; intros copies H.
  - destruct copies; [|discriminate H]. split; [reflexivity|].
    intros i row copy Hrow. destruct i; discriminate Hrow.
  - destruct copies as [|c copies]; [discriminate H|].
    injection H as Hhead Htail. destruct (IH copies Htail) as [Hlength Hrows].
    split; [cbn [length]; f_equal; exact Hlength|].
    intros [|i] row copy Hrow Hcopy.
    + injection Hrow as <-. injection Hcopy as <-. exact Hhead.
    + apply (Hrows i); assumption.
Qed.

Lemma find_newUuid_Some (mapping : list (IdMapping Uuid))
    (key : option Uuid) (found : Uuid) :
  find_newUuid mapping key = Some found ->
  exists entry, In entry mapping /\ key = Some (oldId entry)
                /\ newId entry = found.
Proof.
  unfold find_newUuid. intros H.
  match type of H with
  | context [List.find ?f mapping] =>
      destruct (List.find f mapping) as [entry|] eqn:Efind;
        [|discriminate H]
  end.
  injection H as <-. apply find_some in Efind as [Hin Heq].
  destruct key as [k|]; [|discriminate Heq].
  apply String.eqb_eq in Heq. subst k.
  exists entry. repeat split; assumption.
Qed.

(** A lookup in a mapping resolves exactly for the keys of the rows the
    mapping was built from. *)
Lemma find_newId_in_scope {P B} (parents : list P) (news : list B)
    (key_old : P -> Z) (key_new : B -> Z) (mapping : list (IdMapping Z))
    (key : option Z) :
  zip_mapping parents news key_old key_new = Ok mapping ->
  is_Some (find_newId mapping key)
  <-> exists parent, In parent parents /\ key = Some (key_old parent).
Proof.
  intros Hmapping.
  pose proof (zip_mapping_oldId _ _ _ _ _ Hmapping) as Hold. split.
  - intros [found Hfound].
    apply find_newId_Some in Hfound as (entry & Hin & -> & _).
    apply (in_map oldId) in Hin. rewrite Hold in Hin.
    apply in_map_iff in Hin as (parent & <- & Hparent).
    exists parent. split; [exact Hparent | reflexivity].
  - intros (parent & Hparent & ->). apply find_newId_resolves.
    rewrite Hold. apply sql_in_true. exists (key_old parent).
    split; [reflexivity|]. apply in_map. apply in_map. exact Hparent.
Qed.

Lemma find_newUuid_in_scope {P B} (parents : list P) (news : list B)
    (key_old : P -> Uuid) (key_new : B -> Uuid)
    (mapping : list (IdMapping Uuid)) (key : option Uuid) :
  zip_mapping parents news key_old key_new = Ok mapping ->
  is_Some (find_newUuid mapping key)
  <-> exists parent, In parent parents /\ key = Some (key_old parent).
Proof.
  intros Hmapping.
  pose proof (zip_mapping_oldId _ _ _ _ _ Hmapping) as Hold. split.
  - intros [found Hfound].
    apply find_newUuid_Some in Hfound as (entry & Hin & -> & _).
    apply (in_map oldId) in Hin. rewrite Hold in Hin.
    apply in_map_iff in Hin as (parent & <- & Hparent).
    exists parent. split; [exact Hparent | reflexivity].
  - intros (parent & Hparent & ->). apply find_newUuid_resolves.
    rewrite Hold. unfold sql_in_uuid. apply existsb_exists.
    exists (key_old parent). split; [|apply String.eqb_refl].
    apply in_map. exact Hparent.
Qed.

Lemma resolves_in_scope_intro {P R D K} (parents : list P)
    (parentKey : P -> K) (project : R -> D) (rows copies : list R)
    (f : R -> D) (foreignKey : R -> option K)
    (foreignKey' : D -> option K) :
  map project copies = js_map rows f ->
  (forall copy, foreignKey copy = foreignKey' (project copy)) ->
  (forall row,
      is_Some (foreignKey' (f row))
      <-> exists parent,
            In parent parents /\ foreignKey row = Some (parentKey parent)) ->
  resolves_in_scope parents parentKey rows copies foreignKey.
Proof.
  intros Hcopies Hproject Hkey.
  apply copies_lookup in Hcopies as [Hlength Hrows].
  split; [exact Hlength|].
  intros i row copy Hrow Hcopy.
  rewrite Hproject, (Hrows i row copy Hrow Hcopy). apply Hkey.
Qed.

Section LookupsResolve.

Variables (db : Database) (projectUuid previewProjectUuid : Uuid).
Variables (projectId previewProjectId : Z) (inserted : Database).
Variables (mapping : PreviewContentMapping) (tiles : list (IdMapping Uuid)).

Hypothesis cloned :
  Cloned db projectUuid previewProjectUuid projectId previewProjectId
    inserted mapping tiles.
Hypothesis distinct : distinct_projects db projectUuid previewProjectUuid.

(** A row that joins with a space of the source project refers to a space
    in the mapping: the copies of the spaces belong to the preview
    project. *)
Lemma joined_space_resolves {R} (from : list R)
    (space_of : R -> option Z) (r : R) :
  In r (leftJoin_spaces_where_project from
          (db spaces ++ inserted spaces)%list space_of projectId) ->
  is_Some (find_newId (mapping_spaces mapping) (space_of r)).
Proof.
  intros Hr. apply in_leftJoin_spaces_where_project in Hr
    as (_ & s & Hs & Hspace & Hproject).
  apply find_newId_resolves.
  rewrite (zip_mapping_oldId _ _ _ _ _
             (cloned_spaceMapping _ _ _ _ _ _ _ _ cloned)).
  apply sql_in_true. exists (space_id s). split; [exact Hspace|].
  apply in_map. apply in_map.
  apply in_app_or in Hs as [Hs|Hs].
  - unfold cloned_spaces. apply filter_In. split; [exact Hs|].
    apply Z.eqb_eq. exact Hproject.
  - exfalso. apply (in_map data) in Hs.
    rewrite (cloned_newSpaces _ _ _ _ _ _ _ _ cloned) in Hs.
    apply in_map_iff in Hs as (d & Hd & Hin).
    assert (cloned_spaces db projectId <> []) as Hnonempty.
    { intros Hnil. rewrite Hnil in Hin. contradiction. }
    pose proof (cloned_previewProject _ _ _ _ _ _ _ _ cloned Hnonempty)
      as Hpreview.
    pose proof (cloned_project _ _ _ _ _ _ _ _ cloned) as Hsource.
    destruct (first (matching_projects projectUuid db)) as [source|] eqn:Es;
      [|discriminate Hsource].
    destruct (first (matching_projects previewProjectUuid db))
      as [preview|] eqn:Ep; [|discriminate Hpreview].
    injection Hsource as Hsource. injection Hpreview as Hpreview.
    apply (distinct source preview Es Ep).
    rewrite Hsource, Hpreview, <- Hproject, <- Hd. reflexivity.
Qed.

Hypothesis unique_chart_versions :
  List.NoDup (map saved_queries_version_id (db saved_queries_versions)).
Hypothesis unique_dashboard_versions :
  List.NoDup (map dashboard_version_id (db dashboard_versions)).

Lemma cloned_foreign_keys_resolved :
  foreign_keys_resolved db projectId inserted mapping.
Proof.
  unfold foreign_keys_resolved.
  split; [|split; [|split; [|split; [|split; [|split; [|split]]]]]].
  - apply (Forall_copies (t := space_share) _ _ _
             (fun d : SpaceShareData => is_Some (space_share_space_id d))
             (cloned_newSpaceShare _ _ _ _ _ _ _ _ cloned)).
    intros d Hd. cbn [space_share_space_id].
    apply find_newId_resolves.
    rewrite (zip_mapping_oldId _ _ _ _ _
               (cloned_spaceMapping _ _ _ _ _ _ _ _ cloned)).
    unfold cloned_spaceShares in Hd. apply filter_In in Hd as [_ Hd].
    exact Hd.
  - apply (Forall_copies (t := saved_queries) _ _ _
             (fun d : SavedChartData => is_Some (saved_query_space_id d))
             (cloned_newCharts _ _ _ _ _ _ _ _ cloned)).
    intros d Hd. cbn [saved_query_space_id].
    apply (joined_space_resolves (db saved_queries)
             (fun c : Row saved_queries => saved_query_space_id (data c))).
    exact Hd.
  - apply (Forall_copies (t := saved_queries_versions) _ _ _
             (fun d : ChartVersionData => is_Some (version_saved_query_id d))
             (cloned_newChartVersions _ _ _ _ _ _ _ _ cloned)).
    intros d Hd. cbn [version_saved_query_id].
    apply find_newId_resolves.
    rewrite (zip_mapping_oldId _ _ _ _ _
               (cloned_chartMapping _ _ _ _ _ _ _ _ cloned)).
    apply (selected_parent_in_scope
             (fun v : Row saved_queries_versions =>
                version_saved_query_id (data v))
             saved_queries_version_id (db saved_queries_versions)
             _ unique_chart_versions).
    exact Hd.
  - intros table.
    apply (Forall_copies (t := (saved_queries_version_content table)) _ _ _
             (fun d : VersionContentData => is_Some (content_saved_queries_version_id d))
             (cloned_newVersionContent _ _ _ _ _ _ _ _ cloned table)).
    intros d Hd. cbn [content_saved_queries_version_id].
    apply find_newId_resolves.
    rewrite (zip_mapping_oldId _ _ _ _ _
               (cloned_chartVersionMapping _ _ _ _ _ _ _ _ cloned)).
    unfold cloned_versionContent in Hd. apply filter_In in Hd as [_ Hd].
    exact Hd.
  - apply (Forall_copies (t := dashboards) _ _ _
             (fun d : DashboardData => is_Some (dashboard_space_id d))
             (cloned_newDashboards _ _ _ _ _ _ _ _ cloned)).
    intros d Hd. cbn [dashboard_space_id].
    apply (joined_space_resolves (db dashboards)
             (fun c : Row dashboards => dashboard_space_id (data c))).
    exact Hd.
  - apply (Forall_copies (t := dashboard_versions) _ _ _
             (fun d : DashboardVersionData => is_Some (dashboard_version_dashboard_id d))
             (cloned_newDashboardVersions _ _ _ _ _ _ _ _ cloned)).
    intros d Hd. cbn [dashboard_version_dashboard_id].
    apply find_newId_resolves.
    rewrite (zip_mapping_oldId _ _ _ _ _
               (cloned_dashboardMapping _ _ _ _ _ _ _ _ cloned)).
    apply (selected_parent_in_scope
             (fun v : Row dashboard_versions =>
                dashboard_version_dashboard_id (data v))
             dashboard_version_id (db dashboard_versions)
             _ unique_dashboard_versions).
    exact Hd.
  - apply (Forall_copies (t := dashboard_tiles) _ _ _
             (fun d : DashboardTileData => is_Some (tile_dashboard_version_id d))
             (cloned_newDashboardTiles _ _ _ _ _ _ _ _ cloned)).
    intros d Hd. cbn [tile_dashboard_version_id].
    apply find_newId_resolves.
    rewrite (zip_mapping_oldId _ _ _ _ _
               (cloned_dashboardVersionsMapping _ _ _ _ _ _ _ _ cloned)).
    unfold cloned_dashboardTiles in Hd. apply filter_In in Hd as [_ Hd].
    rewrite <- Hd. symmetry.
    apply (sql_in_lastIds_selected
             (fun v : Row dashboard_versions =>
                dashboard_version_dashboard_id (data v))
             dashboard_version_id (db dashboard_versions)).
  - intros table.
    apply (Forall_copies (t := (dashboard_tile_content table)) _ _ _
             (fun d : TileContentData => is_Some (tile_content_dashboard_version_id d)
                       /\ is_Some (tile_content_dashboard_tile_uuid d))
             (cloned_newTileContent _ _ _ _ _ _ _ _ cloned table)).
    intros d Hd.
    cbn [tile_content_dashboard_version_id
         tile_content_dashboard_tile_uuid].
    unfold cloned_tileContent in Hd. apply filter_In in Hd as [_ Hd].
    apply andb_true_iff in Hd as [Huuid Hversion]. split.
    + apply find_newId_resolves.
      rewrite (zip_mapping_oldId _ _ _ _ _
                 (cloned_dashboardVersionsMapping _ _ _ _ _ _ _ _ cloned)).
      rewrite <- Hversion. symmetry.
      apply (sql_in_lastIds_selected
               (fun v : Row dashboard_versions =>
                  dashboard_version_dashboard_id (data v))
               dashboard_version_id (db dashboard_versions)).
    + destruct (tile_content_dashboard_tile_uuid (data d)) as [u|];
        [|discriminate Huuid].
      apply find_newUuid_resolves.
      rewrite (zip_mapping_oldId _ _ _ _ _
                 (cloned_dashboardTilesMapping _ _ _ _ _ _ _ _ cloned)).
      exact Huuid.
Qed.

End LookupsResolve.

(** C2, as stated, fails: the clone of the sample project resolves, and
    the chart tile that refers to chart 22, a chart outside the cloned
    scope, is copied with no [saved_chart_id]: the lookup in [chartMapping]
    does not resolve and [NULL] is written without any error. *)
Lemma duplicateContent_writes_null_saved_chart_id :
  fst sample_clone = Ok tt
  /\ sample_database dashboard_tile_charts
     = [ (tt, {| tile_content_dashboard_version_id := Some 51;
                 tile_content_dashboard_tile_uuid := Some "tile-b";
                 saved_chart_id := Some 20;
                 tile_content_columns := [] |});
         (tt, {| tile_content_dashboard_version_id := Some 51;
                 tile_content_dashboard_tile_uuid := Some "tile-c";
                 saved_chart_id := Some 22;
                 tile_content_columns := [] |}) ]
  /\ snd sample_clone dashboard_tile_charts
     = (sample_database dashboard_tile_charts
        ++ [ (tt, {| tile_content_dashboard_version_id := Some 1002;
                     tile_content_dashboard_tile_uuid := Some "tile-b";
                     saved_chart_id := Some 1003;
                     tile_content_columns := [] |});
             (tt, {| tile_content_dashboard_version_id := Some 1002;
                     tile_content_dashboard_tile_uuid := Some "tile-c";
                     saved_chart_id := None;
                     tile_content_columns := [] |}) ])%list.
Proof. repeat split; vm_compute; reflexivity. Qed.

(** C2, amended: when [duplicateContent] resolves, every lookup from an
    old id to a new id (the space of a space share, of a chart and of a
    dashboard, the chart of a chart version and of a chart tile, the chart
    version of version content, the dashboard of a dashboard version, the
    dashboard version of a tile and of tile content, the tile uuid of tile
    content) has resolved exactly for the rows whose key is the key of a
    row in the cloned scope: their copies hold a foreign key, and the copy
    of any other row was inserted with [NULL] in its place. No lookup is
    checked at run time: a chart tile whose chart is outside the cloned
    scope is copied with no [saved_chart_id], and the call resolves all the
    same. *)
Theorem duplicateContent_lookups_resolve_in_scope (engine : StorageEngine)
    (projectUuid previewProjectUuid : Uuid) (db db' : Database) :
  duplicateContent engine projectUuid previewProjectUuid db = (Ok tt, db') ->
  cloned_with db projectUuid previewProjectUuid db'
    (lookups_resolve_in_scope db).
Proof.
  intros Hcall.
  apply duplicateContent_ok in Hcall
    as (projectId & previewProjectId & inserted & mapping & tiles & Hcloned
        & Hdb & _).
  exists projectId, previewProjectId, inserted, mapping, tiles.
  split; [exact Hcloned|]. split; [exact Hdb|].
  pose proof (cloned_spaceMapping _ _ _ _ _ _ _ _ Hcloned) as Hspaces.
  pose proof (cloned_chartMapping _ _ _ _ _ _ _ _ Hcloned) as Hcharts.
  pose proof (cloned_chartVersionMapping _ _ _ _ _ _ _ _ Hcloned)
    as HchartVersions.
  pose proof (cloned_dashboardMapping _ _ _ _ _ _ _ _ Hcloned)
    as Hdashboards.
  pose proof (cloned_dashboardVersionsMapping _ _ _ _ _ _ _ _ Hcloned)
    as HdashboardVersions.
  pose proof (cloned_dashboardTilesMapping _ _ _ _ _ _ _ _ Hcloned)
    as Htiles.
  pose proof (cloned_newTileContent _ _ _ _ _ _ _ _ Hcloned) as HtileContent.
  unfold lookups_resolve_in_scope. cbv zeta.
  split; [|split; [|split; [|split; [|split; [|split; [|split; [|split;
    [|split]]]]]]]].
  - apply (resolves_in_scope_intro _ _ (@data space_share) _ _ _ _ space_share_space_id
             (cloned_newSpaceShare _ _ _ _ _ _ _ _ Hcloned));
      [reflexivity|].
    intros row. apply (find_newId_in_scope _ _ _ _ _ _ Hspaces).
  - apply (resolves_in_scope_intro _ _ (@data saved_queries) _ _ _ _ saved_query_space_id
             (cloned_newCharts _ _ _ _ _ _ _ _ Hcloned));
      [reflexivity|].
    intros row. apply (find_newId_in_scope _ _ _ _ _ _ Hspaces).
  - apply (resolves_in_scope_intro _ _ (@data saved_queries_versions) _ _ _ _ version_saved_query_id
             (cloned_newChartVersions _ _ _ _ _ _ _ _ Hcloned));
      [reflexivity|].
    intros row. apply (find_newId_in_scope _ _ _ _ _ _ Hcharts).
  - intros table.
    apply (resolves_in_scope_intro _ _ (@data (saved_queries_version_content table)) _ _ _ _
             content_saved_queries_version_id
             (cloned_newVersionContent _ _ _ _ _ _ _ _ Hcloned table));
      [reflexivity|].
    intros row. apply (find_newId_in_scope _ _ _ _ _ _ HchartVersions).
  - apply (resolves_in_scope_intro _ _ (@data dashboards) _ _ _ _ dashboard_space_id
             (cloned_newDashboards _ _ _ _ _ _ _ _ Hcloned));
      [reflexivity|].
    intros row. apply (find_newId_in_scope _ _ _ _ _ _ Hspaces).
  - apply (resolves_in_scope_intro _ _ (@data dashboard_versions) _ _ _ _
             dashboard_version_dashboard_id
             (cloned_newDashboardVersions _ _ _ _ _ _ _ _ Hcloned));
      [reflexivity|].
    intros row. apply (find_newId_in_scope _ _ _ _ _ _ Hdashboards).
  - apply (resolves_in_scope_intro _ _ (@data dashboard_tiles) _ _ _ _
             tile_dashboard_version_id
             (cloned_newDashboardTiles _ _ _ _ _ _ _ _ Hcloned));
      [reflexivity|].
    intros row. apply (find_newId_in_scope _ _ _ _ _ _ HdashboardVersions).
  - intros table.
    apply (resolves_in_scope_intro _ _ (@data (dashboard_tile_content table)) _ _ _ _
             tile_content_dashboard_version_id (HtileContent table));
      [reflexivity|].
    intros row. apply (find_newId_in_scope _ _ _ _ _ _ HdashboardVersions).
  - intros table.
    apply (resolves_in_scope_intro _ _ (@data (dashboard_tile_content table)) _ _ _ _
             tile_content_dashboard_tile_uuid (HtileContent table));
      [reflexivity|].
    intros row. apply (find_newUuid_in_scope _ _ _ _ _ _ Htiles).
  - intros table i row copy Hrow Hcopy.
    destruct (copies_lookup (@data (dashboard_tile_content table)) _ _ _
                (HtileContent table)) as [_ Hrows].
    rewrite (Hrows i row copy Hrow Hcopy). cbn [saved_chart_id].
    destruct (saved_chart_id (data row)) as [chartId|]; [|reflexivity].
    destruct (Z.eqb chartId 0); [reflexivity|].
    rewrite (find_newId_in_scope _ _ _ _ _ (Some chartId) Hcharts).
    split.
    + intros (chart & Hchart & Hid). injection Hid as ->.
      exists chart. split; [exact Hchart | reflexivity].
    + intros (chart & Hchart & ->).
      exists chart. split; [exact Hchart | reflexivity].
Qed.

(** X21: when [duplicateContent] resolves, for a preview project that is
    not the source project and version ids that are unique in their
    tables, every row in scope refers to rows in scope: every lookup of a
    space, of the chart of a version, of a chart version, of a dashboard,
    of a dashboard version and of a tile uuid resolves, so none of the
    foreign keys written through them is [NULL]. *)
Theorem duplicateContent_lookups_resolve (engine : StorageEngine)
    (projectUuid previewProjectUuid : Uuid) (db db' : Database) :
  List.NoDup (map saved_queries_version_id (db saved_queries_versions)) ->
  List.NoDup (map dashboard_version_id (db dashboard_versions)) ->
  distinct_projects db projectUuid previewProjectUuid ->
  duplicateContent engine projectUuid previewProjectUuid db = (Ok tt, db') ->
  cloned_with db projectUuid previewProjectUuid db'
    (foreign_keys_resolved db).
Proof.
  intros Hcharts Hdashboards Hdistinct Hcall.
  apply duplicateContent_ok in Hcall
    as (projectId & previewProjectId & inserted & mapping & tiles & Hcloned
        & Hdb & _).
  exists projectId, previewProjectId, inserted, mapping, tiles.
  split; [exact Hcloned|]. split; [exact Hdb|].
  exact (cloned_foreign_keys_resolved db projectUuid previewProjectUuid
           projectId previewProjectId inserted mapping tiles Hcloned
           Hdistinct Hcharts Hdashboards).
Qed.

(** *** The theorems on the sample clone *)

Lemma sample_unique_chart_versions :
  List.NoDup
    (map saved_queries_version_id (sample_database saved_queries_versions)).
Proof.
  vm_compute.
  repeat (apply List.NoDup_cons; [cbn; intuition discriminate|]).
  apply List.NoDup_nil.
Defined.

Lemma sample_unique_dashboard_versions :
  List.NoDup (map dashboard_version_id (sample_database dashboard_versions)).
Proof.
  vm_compute.
  repeat (apply List.NoDup_cons; [cbn; intuition discriminate|]).
  apply List.NoDup_nil.
Defined.

Lemma sample_distinct_projects :
  distinct_projects sample_database "project-1" "preview-2".
Proof.
  intros source preview Hsource Hpreview.
  vm_compute in Hsource, Hpreview.
  injection Hsource as <-. injection Hpreview as <-.
  vm_compute. discriminate.
Defined.

Lemma sample_clone_resolves :
  duplicateContent accepting_engine "project-1" "preview-2" sample_database
  = (Ok tt, snd sample_clone).
Proof. apply pair_eta_fst. vm_compute. reflexivity. Defined.

Lemma duplicateContent_lookups_resolve_witness :
  cloned_with sample_database "project-1" "preview-2" (snd sample_clone)
    (foreign_keys_resolved sample_database).
Proof.
  exact (duplicateContent_lookups_resolve accepting_engine
           "project-1" "preview-2" sample_database (snd sample_clone)
           sample_unique_chart_versions sample_unique_dashboard_versions
           sample_distinct_projects sample_clone_resolves).
Defined.

Lemma duplicateContent_lookups_resolve_in_scope_witness :
  cloned_with sample_database "project-1" "preview-2" (snd sample_clone)
    (lookups_resolve_in_scope sample_database).
Proof.
  exact (duplicateContent_lookups_resolve_in_scope accepting_engine
           "project-1" "preview-2" sample_database (snd sample_clone)
           sample_clone_resolves).
Defined.

Lemma duplicateContent_copies_latest_versions_witness :
  cloned_with sample_database "project-1" "preview-2" (snd sample_clone)
    (latest_versions_copied sample_database).
Proof.
  exact (duplicateContent_copies_latest_versions accepting_engine
           "project-1" "preview-2" sample_database (snd sample_clone)
           sample_unique_chart_versions sample_unique_dashboard_versions
           sample_clone_resolves).
Defined.


(** On the sample: chart 20 has versions 30 and 31 and version 31 is
    copied, chart 21 has no version, and the uuids of the two tiles of
    dashboard version 51 are kept. *)
Example sample_clone_rows :
  map data (skipn 3 (snd sample_clone saved_queries_versions))
  = [ {| version_saved_query_id := Some 1003; version_columns := [] |} ]
  /\ cloned_chartVersions sample_database 1
       (skipn 3 (snd sample_clone spaces))
     = [ ((31, "version-31"),
          {| version_saved_query_id := Some 20; version_columns := [] |}) ]
  /\ map (fun n : Row dashboard_tiles => dashboard_tile_uuid (data n))
         (skipn 3 (snd sample_clone dashboard_tiles))
     = ["tile-b"; "tile-c"].
Proof. repeat split; vm_compute; reflexivity. Qed.

(** * Further properties *)

(** ** Credential secret merge *)

(** Values that are strictly equal have the same truthiness. *)
Lemma strict_equal_truthy (a b : JsValue) :
  strict_equal a b = true -> truthy a = truthy b.
Proof.
  destruct a, b; cbn; try discriminate; try reflexivity.
  - intros H. apply Bool.eqb_prop in H. congruence.
  - intros H. apply Z.eqb_eq in H. congruence.
  - intros H. apply String.eqb_eq in H. congruence.
Qed.

Lemma prop_lookup (obj : gmap string JsValue) (key : string) (v : JsValue) :
  obj !! key = Some v -> prop obj key = v.
Proof. unfold prop. intros ->. reflexivity. Qed.

(** The two helpers are one function of the list of secret names. *)
Lemma mergeMissingWarehouseSecrets_dbt names incompleteConfig completeConfig :
  mergeMissingWarehouseSecrets names incompleteConfig completeConfig
  = mergeMissingDbtConfigSecrets names incompleteConfig completeConfig.
Proof. reflexivity. Qed.

Lemma merge_changes_only_refilled names
    (incompleteConfig completeConfig : gmap string JsValue) key :
  mergeMissingDbtConfigSecrets names incompleteConfig completeConfig !! key
  <> incompleteConfig !! key ->
  key ∈ names
  /\ strict_equal (prop incompleteConfig "type") (prop completeConfig "type")
     = true
  /\ refilled incompleteConfig completeConfig key = true
  /\ mergeMissingDbtConfigSecrets names incompleteConfig completeConfig
       !! key
     = Some (prop completeConfig key).
Proof.
  intros Hchanged.
  destruct (strict_equal (prop incompleteConfig "type")
                         (prop completeConfig "type")) eqn:Etype.
  - rewrite mergeMissingDbtConfigSecrets_lookup in Hchanged |- * by exact Etype.
    destruct (bool_decide (key ∈ names)) eqn:Ein.
    + apply bool_decide_eq_true_1 in Ein.
      destruct (refilled incompleteConfig completeConfig key).
      * split; [exact Ein|]. split; [reflexivity|]. split; reflexivity.
      * contradiction.
    + contradiction.
  - exfalso. apply Hchanged.
    unfold mergeMissingDbtConfigSecrets. rewrite Etype. reflexivity.
Qed.

(** X1: the merge helpers change nothing but missing secrets. A field of
    the result differs from the field of the incomplete configuration only
    when the two connection types are equal, the field is a secret field
    that is falsy (absent or empty) in the incomplete configuration and
    truthy in the complete one; the result then holds the complete
    configuration's value. *)
Theorem merge_changes_only_missing_secrets
    (dbtNames warehouseNames : list string)
    (incompleteConfig completeConfig : gmap string JsValue) (key : string) :
  (mergeMissingDbtConfigSecrets dbtNames incompleteConfig completeConfig
     !! key <> incompleteConfig !! key ->
   key ∈ dbtNames
   /\ strict_equal (prop incompleteConfig "type")
                   (prop completeConfig "type") = true
   /\ refilled incompleteConfig completeConfig key = true
   /\ mergeMissingDbtConfigSecrets dbtNames incompleteConfig completeConfig
        !! key = Some (prop completeConfig key))
  /\ (mergeMissingWarehouseSecrets warehouseNames incompleteConfig
        completeConfig !! key <> incompleteConfig !! key ->
      key ∈ warehouseNames
      /\ strict_equal (prop incompleteConfig "type")
                      (prop completeConfig "type") = true
      /\ refilled incompleteConfig completeConfig key = true
      /\ mergeMissingWarehouseSecrets warehouseNames incompleteConfig
           completeConfig !! key = Some (prop completeConfig key)).
Proof.
  split.
  - apply merge_changes_only_refilled.
  - rewrite mergeMissingWarehouseSecrets_dbt.
    apply merge_changes_only_refilled.
Qed.

Lemma merge_changes_only_missing_secrets_witness :
  "password" ∈ ["user"; "password"]
  /\ strict_equal (prop sample_incomplete "type")
                  (prop sample_complete "type") = true
  /\ refilled sample_incomplete sample_complete "password" = true
  /\ mergeMissingWarehouseSecrets ["user"; "password"] sample_incomplete
       sample_complete !! "password"
     = Some (prop sample_complete "password").
Proof.
  apply (proj2 (merge_changes_only_missing_secrets [] ["user"; "password"]
                  sample_incomplete sample_complete "password")).
  vm_compute. discriminate.
Defined.

Lemma merge_idempotent names
    (incompleteConfig completeConfig : gmap string JsValue) :
  mergeMissingDbtConfigSecrets names
    (mergeMissingDbtConfigSecrets names incompleteConfig completeConfig)
    completeConfig
  = mergeMissingDbtConfigSecrets names incompleteConfig completeConfig.
Proof.
  destruct (strict_equal (prop incompleteConfig "type")
                         (prop completeConfig "type")) eqn:Etype.
  - set (merged := mergeMissingDbtConfigSecrets names incompleteConfig
                     completeConfig).
    assert (forall key,
               merged !! key
               = if bool_decide (key ∈ names)
                    && refilled incompleteConfig completeConfig key
                 then Some (prop completeConfig key)
                 else incompleteConfig !! key) as Hmerged.
    { intros key. apply mergeMissingDbtConfigSecrets_lookup. exact Etype. }
    assert (prop merged "type" = prop incompleteConfig "type") as Htype.
    { unfold prop at 1 2. rewrite Hmerged.
      destruct (bool_decide ("type" ∈ names)); [|reflexivity].
      cbn [andb]. destruct (refilled incompleteConfig completeConfig "type")
        eqn:Erefilled; [|reflexivity].
      exfalso. unfold refilled in Erefilled.
      apply strict_equal_truthy in Etype. rewrite Etype in Erefilled.
      destruct (truthy (prop completeConfig "type")); discriminate. }
    apply map_eq. intros key.
    rewrite mergeMissingDbtConfigSecrets_lookup
      by (rewrite Htype; exact Etype).
    destruct (bool_decide (key ∈ names)) eqn:Ein; [|reflexivity].
    cbn [andb].
    destruct (refilled merged completeConfig key) eqn:Eagain; [|reflexivity].
    exfalso. unfold refilled in Eagain.
    apply andb_true_iff in Eagain as [Hfalsy Htruthy].
    unfold prop at 1 in Hfalsy. rewrite Hmerged, Ein in Hfalsy.
    cbn [andb] in Hfalsy.
    destruct (refilled incompleteConfig completeConfig key) eqn:Efirst.
    + cbn [default from_option id] in Hfalsy. rewrite Htruthy in Hfalsy.
      discriminate Hfalsy.
    + unfold refilled in Efirst. fold (prop incompleteConfig key) in Hfalsy.
      rewrite Hfalsy, Htruthy in Efirst. discriminate Efirst.
  - unfold mergeMissingDbtConfigSecrets at 2. rewrite Etype. cbn [negb].
    unfold mergeMissingDbtConfigSecrets. rewrite Etype. reflexivity.
Qed.

(** X2: merging is idempotent. Merging the result of a merge with the same
    complete configuration again changes nothing, for both helpers. *)
Theorem merge_missing_secrets_idempotent
    (dbtNames warehouseNames : list string)
    (incompleteConfig completeConfig : gmap string JsValue) :
  mergeMissingDbtConfigSecrets dbtNames
    (mergeMissingDbtConfigSecrets dbtNames incompleteConfig completeConfig)
    completeConfig
  = mergeMissingDbtConfigSecrets dbtNames incompleteConfig completeConfig
  /\ mergeMissingWarehouseSecrets warehouseNames
       (mergeMissingWarehouseSecrets warehouseNames incompleteConfig
          completeConfig)
       completeConfig
     = mergeMissingWarehouseSecrets warehouseNames incompleteConfig
         completeConfig.
Proof.
  split; [|rewrite !mergeMissingWarehouseSecrets_dbt]; apply merge_idempotent.
Qed.

Lemma merge_keeps_fields_and_fills names
    (incompleteConfig completeConfig : gmap string JsValue) key :
  (is_Some (incompleteConfig !! key) ->
   is_Some (mergeMissingDbtConfigSecrets names incompleteConfig
              completeConfig !! key))
  /\ (strict_equal (prop incompleteConfig "type")
                   (prop completeConfig "type") = true ->
      key ∈ names ->
      truthy (prop completeConfig key) = true ->
      truthy (prop (mergeMissingDbtConfigSecrets names incompleteConfig
                      completeConfig) key) = true).
Proof.
  split.
  - intros Hsome.
    destruct (strict_equal (prop incompleteConfig "type")
                           (prop completeConfig "type")) eqn:Etype.
    + rewrite mergeMissingDbtConfigSecrets_lookup by exact Etype.
      destruct (bool_decide (key ∈ names)
                && refilled incompleteConfig completeConfig key);
        [eexists; reflexivity | exact Hsome].
    + unfold mergeMissingDbtConfigSecrets. rewrite Etype. exact Hsome.
  - intros Etype Hin Htruthy. unfold prop at 1.
    rewrite mergeMissingDbtConfigSecrets_lookup by exact Etype.
    rewrite bool_decide_eq_true_2 by exact Hin. cbn [andb].
    unfold refilled. rewrite Htruthy, andb_true_r.
    destruct (truthy (prop incompleteConfig key)) eqn:Esupplied.
    + exact Esupplied.
    + exact Htruthy.
Qed.

(** X3: a merge loses nothing. No field of the incomplete configuration is
    removed, and with equal connection types every secret field for which
    the complete configuration holds a truthy value is truthy in the result
    (the supplied value, or else the stored one). *)
Theorem merge_keeps_fields_and_completes_secrets
    (dbtNames warehouseNames : list string)
    (incompleteConfig completeConfig : gmap string JsValue) (key : string) :
  ((is_Some (incompleteConfig !! key) ->
    is_Some (mergeMissingDbtConfigSecrets dbtNames incompleteConfig
               completeConfig !! key))
   /\ (strict_equal (prop incompleteConfig "type")
                    (prop completeConfig "type") = true ->
       key ∈ dbtNames ->
       truthy (prop completeConfig key) = true ->
       truthy (prop (mergeMissingDbtConfigSecrets dbtNames incompleteConfig
                       completeConfig) key) = true))
  /\ ((is_Some (incompleteConfig !! key) ->
       is_Some (mergeMissingWarehouseSecrets warehouseNames incompleteConfig
                  completeConfig !! key))
      /\ (strict_equal (prop incompleteConfig "type")
                       (prop completeConfig "type") = true ->
          key ∈ warehouseNames ->
          truthy (prop completeConfig key) = true ->
          truthy (prop (mergeMissingWarehouseSecrets warehouseNames
                          incompleteConfig completeConfig) key) = true)).
Proof.
  split; [|rewrite mergeMissingWarehouseSecrets_dbt];
    apply merge_keeps_fields_and_fills.
Qed.

Lemma merge_keeps_fields_and_completes_secrets_witness :
  truthy (prop (mergeMissingDbtConfigSecrets
                  ["personal_access_token"; "api_key"]
                  sample_incomplete_dbt sample_complete_dbt)
               "personal_access_token") = true.
Proof.
  refine (proj2 (proj1 (merge_keeps_fields_and_completes_secrets
                          ["personal_access_token"; "api_key"] []
                          sample_incomplete_dbt sample_complete_dbt
                          "personal_access_token")) _ _ _).
  - vm_compute. reflexivity.
  - apply list_elem_of_here.
  - vm_compute. reflexivity.
Defined.

(** X4: [mergeMissingProjectConfigSecrets] is idempotent, and passes the
    warehouse connection through when there is nothing to merge it with:
    merging the result with the same stored project again changes nothing,
    and for a project stored without warehouse credentials the warehouse
    connection of the update is returned as given. *)
Theorem mergeMissingProjectConfigSecrets_idempotent
    (dbtNames warehouseNames : list string)
    (incompleteProjectConfig : UpdateProject)
    (completeProjectConfig : Project) :
  let merged :=
    mergeMissingProjectConfigSecrets dbtNames warehouseNames
      incompleteProjectConfig completeProjectConfig in
  mergeMissingProjectConfigSecrets dbtNames warehouseNames merged
    completeProjectConfig = merged
  /\ (warehouseConnection completeProjectConfig = None ->
      update_warehouseConnection merged
      = update_warehouseConnection incompleteProjectConfig).
Proof.
  cbv zeta. unfold mergeMissingProjectConfigSecrets.
  cbn [update_name update_dbtConnection update_warehouseConnection].
  split.
  - f_equal.
    + apply merge_idempotent.
    + destruct (warehouseConnection completeProjectConfig); [|reflexivity].
      rewrite !mergeMissingWarehouseSecrets_dbt. apply merge_idempotent.
  - intros ->. reflexivity.
Qed.

Lemma mergeMissingProjectConfigSecrets_idempotent_witness :
  update_warehouseConnection
    (mergeMissingProjectConfigSecrets ["personal_access_token"] ["password"]
       {| update_name := "Jaffle shop";
          update_dbtConnection := sample_incomplete_dbt;
          update_warehouseConnection := sample_incomplete |}
       {| organizationUuid := "organization-1";
          projectUuid_ := "project-1";
          project_name := JString "Jaffle shop";
          project_type := JString "DEFAULT";
          dbtConnection := sample_complete_dbt;
          warehouseConnection := None;
          pinnedListUuid := None |})
  = sample_incomplete.
Proof.
  exact (proj2 (mergeMissingProjectConfigSecrets_idempotent
                  ["personal_access_token"] ["password"]
                  {| update_name := "Jaffle shop";
                     update_dbtConnection := sample_incomplete_dbt;
                     update_warehouseConnection := sample_incomplete |}
                  {| organizationUuid := "organization-1";
                     projectUuid_ := "project-1";
                     project_name := JString "Jaffle shop";
                     project_type := JString "DEFAULT";
                     dbtConnection := sample_complete_dbt;
                     warehouseConnection := None;
                     pinnedListUuid := None |})
               eq_refl).
Defined.

(** ** Project members *)

Lemma filter_all_true {A} (g : A -> bool) (l : list A) :
  (forall x, In x l -> g x = true) -> List.filter g l = l.
Proof.
  induction l as [|x l IH]; intros Hall; [reflexivity|].
  cbn [List.filter]. rewrite (Hall x (or_introl eq_refl)). f_equal.
  apply IH. intros y Hy. apply Hall. right. exact Hy.
Qed.

Lemma filter_all_false {A} (g : A -> bool) (l : list A) :
  (forall x, In x l -> g x = false) -> List.filter g l = [].
Proof.
  induction l as [|x l IH]; intros Hall; [reflexivity|].
  cbn [List.filter]. rewrite (Hall x (or_introl eq_refl)).
  apply IH. intros y Hy. apply Hall. right. exact Hy.
Qed.

Lemma map_flat_map_filter {A B C} (J : A -> list B) (tp : B -> C)
    (keep : A -> bool) (g : C -> bool) (l : list A) :
  (forall m x, In m l -> In x (J m) -> g (tp x) = keep m) ->
  map tp (flat_map J (List.filter keep l))
  = List.filter g (map tp (flat_map J l)).
Proof.
  induction l as [|m l IH]; intros Hall; [reflexivity|].
  cbn [List.filter flat_map]. rewrite map_app, List.filter_app.
  rewrite <- IH by (intros m' x Hm'; apply Hall; right; exact Hm').
  destruct (keep m) eqn:Ekeep.
  - cbn [flat_map]. rewrite map_app.
    rewrite (filter_all_true g (map tp (J m))); [reflexivity|].
    intros c Hc. apply in_map_iff in Hc as (x & <- & Hx).
    rewrite (Hall m x (or_introl eq_refl) Hx). exact Ekeep.
  - rewrite (filter_all_false g (map tp (J m))); [reflexivity|].
    intros c Hc. apply in_map_iff in Hc as (x & <- & Hx).
    rewrite (Hall m x (or_introl eq_refl) Hx). exact Ekeep.
Qed.

Lemma map_flat_map_map {A B C} (J J' : A -> list B) (tp : B -> C)
    (f : A -> A) (h : C -> C) (l : list A) :
  (forall m, In m l -> map tp (J' (f m)) = map h (map tp (J m))) ->
  map tp (flat_map J' (map f l)) = map h (map tp (flat_map J l)).
Proof.
  induction l as [|m l IH]; intros Hall; [reflexivity|].
  cbn [map flat_map]. rewrite !map_app.
  rewrite (Hall m (or_introl eq_refl)).
  rewrite IH by (intros m' Hm'; apply Hall; right; exact Hm').
  reflexivity.
Qed.

Lemma in_joined_memberships (db : Database) (projectUuid : Uuid)
    (m : Row project_memberships) x :
  In x (joined_memberships db projectUuid m) ->
  exists (u : Row users) (e : Row emails) (p : Row projects),
    x = (m, u, e)
    /\ In u (db users) /\ membership_user_id (data m) = user_id u
    /\ In e (db emails) /\ email_user_id (data e) = user_id u
    /\ sql_is_true (column (email_columns (data e)) "is_primary") = true
    /\ In p (db projects) /\ membership_project_id (data m) = project_id p
    /\ project_uuid p = projectUuid.
Proof.
  unfold joined_memberships. intros H.
  apply in_flat_map in H as (u & Hu & H).
  apply filter_In in Hu as [Hu Huid]. apply Z.eqb_eq in Huid.
  apply in_flat_map in H as (e & He & H).
  apply filter_In in He as [He Hcond].
  apply andb_true_iff in Hcond as [Heid Hprimary]. apply Z.eqb_eq in Heid.
  apply in_map_iff in H as (p & <- & Hp).
  apply filter_In in Hp as [Hp Hcond].
  apply andb_true_iff in Hcond as [Hpid Hpuuid].
  apply Z.eqb_eq in Hpid. apply String.eqb_eq in Hpuuid.
  exists u, e, p. repeat split; assumption.
Qed.

Lemma joined_memberships_intro (db : Database) (projectUuid : Uuid)
    (m : Row project_memberships) (u : Row users) (e : Row emails)
    (p : Row projects) :
  In u (db users) -> membership_user_id (data m) = user_id u ->
  In e (db emails) -> email_user_id (data e) = user_id u ->
  sql_is_true (column (email_columns (data e)) "is_primary") = true ->
  In p (db projects) -> membership_project_id (data m) = project_id p ->
  project_uuid p = projectUuid ->
  In (m, u, e) (joined_memberships db projectUuid m).
Proof.
  intros Hu Huid He Heid Hprimary Hp Hpid Hpuuid.
  unfold joined_memberships. apply in_flat_map. exists u. split.
  { apply filter_In. split; [exact Hu|]. apply Z.eqb_eq. exact Huid. }
  apply in_flat_map. exists e. split.
  { apply filter_In. split; [exact He|]. apply andb_true_iff.
    split; [apply Z.eqb_eq; exact Heid | exact Hprimary]. }
  apply in_map_iff. exists p. split; [reflexivity|].
  apply filter_In. split; [exact Hp|]. apply andb_true_iff.
  split; [apply Z.eqb_eq; exact Hpid | apply String.eqb_eq; exact Hpuuid].
Qed.

(** The joined rows depend on the users, emails and projects only. *)
Lemma joined_memberships_ext (db db' : Database) (projectUuid : Uuid)
    (m : Row project_memberships) :
  db' users = db users -> db' emails = db emails ->
  db' projects = db projects ->
  joined_memberships db' projectUuid m = joined_memberships db projectUuid m.
Proof.
  intros Hu He Hp. unfold joined_memberships. rewrite Hu, He, Hp.
  reflexivity.
Qed.

Lemma selected_membership_true (db : Database)
    (projectUuid userUuid_ : Uuid) (m : Row project_memberships) :
  selected_membership db projectUuid userUuid_ m = true <->
  (exists p : Row projects, In p (db projects)
             /\ project_id p = membership_project_id (data m)
             /\ project_uuid p = projectUuid)
  /\ (exists u : Row users, In u (db users)
                /\ user_id u = membership_user_id (data m)
                /\ user_uuid u = userUuid_).
Proof.
  unfold selected_membership. rewrite andb_true_iff, !existsb_exists.
  split.
  - intros [(p & Hp & Hcp) (u & Hu & Hcu)].
    apply andb_true_iff in Hcp as [Hpid Hpuuid].
    apply andb_true_iff in Hcu as [Huid Huuuid].
    apply Z.eqb_eq in Hpid, Huid. apply String.eqb_eq in Hpuuid, Huuuid.
    split; [exists p | exists u]; repeat split; assumption.
  - intros [(p & Hp & Hpid & Hpuuid) (u & Hu & Huid & Huuuid)]. split.
    + exists p. split; [exact Hp|]. apply andb_true_iff.
      split; [apply Z.eqb_eq | apply String.eqb_eq]; assumption.
    + exists u. split; [exact Hu|]. apply andb_true_iff.
      split; [apply Z.eqb_eq | apply String.eqb_eq]; assumption.
Qed.

Section MemberUpdates.

Variables (db : Database) (projectUuid userUuid_ queried : Uuid).

Hypothesis unique_projects : List.NoDup (map project_id (db projects)).
Hypothesis unique_users : List.NoDup (map user_id (db users)).

(** Whether a joined row is a row of the member [userUuid_] of
    [projectUuid]. *)
Lemma joined_row_selected (m : Row project_memberships) x :
  In x (joined_memberships db queried m) ->
  (String.eqb queried projectUuid
   && String.eqb (user_uuid (snd (fst x))) userUuid_)
  = selected_membership db projectUuid userUuid_ m.
Proof.
  intros Hx. apply in_joined_memberships in Hx
    as (u & e & p & -> & Hu & Huid & _ & _ & _ & Hp & Hpid & Hpuuid).
  cbn [fst snd]. apply eq_true_iff_eq.
  rewrite selected_membership_true, andb_true_iff, !String.eqb_eq.
  split.
  - intros [Hq Huuid]. split; [exists p | exists u];
      repeat split; congruence.
  - intros [(p0 & Hp0 & Hp0id & Hp0uuid) (u0 & Hu0 & Hu0id & Hu0uuid)].
    assert (p0 = p) as ->
        by (apply (NoDup_map_eq project_id (db projects)); congruence).
    assert (u0 = u) as ->
        by (apply (NoDup_map_eq user_id (db users)); congruence).
    split; congruence.
Qed.

End MemberUpdates.

Lemma map_flat_map_comm {A B C} (phi : B -> C) (f : A -> list B)
    (l : list A) :
  map phi (flat_map f l) = flat_map (fun x => map phi (f x)) l.
Proof.
  induction l as [|x l IH]; [reflexivity|].
  cbn [flat_map]. rewrite map_app, IH. reflexivity.
Qed.

(** The joined rows of two memberships with the same project and user
    differ in the membership only. *)
Lemma joined_memberships_same_keys (db : Database) (projectUuid : Uuid)
    (m m' : Row project_memberships) :
  membership_project_id (data m') = membership_project_id (data m) ->
  membership_user_id (data m') = membership_user_id (data m) ->
  joined_memberships db projectUuid m'
  = map (fun x => (m', snd (fst x), snd x))
        (joined_memberships db projectUuid m).
Proof.
  intros Hp Hu. unfold joined_memberships. rewrite Hp, Hu.
  rewrite map_flat_map_comm. apply flat_map_ext. intros u.
  rewrite map_flat_map_comm. apply flat_map_ext. intros e.
  rewrite map_map. reflexivity.
Qed.

(** X5: [deleteProjectAccess] removes one member and nothing else. With
    project ids and user ids unique in their tables, the members that
    [getProjectAccess] lists for any project after a resolved call are the
    members listed before, without the profiles of the given user in the
    given project; a call for an unknown project or user changes no
    listing. *)
Theorem deleteProjectAccess_removes_only_member (db db' : Database)
    (projectUuid userUuid_ queried : Uuid) :
  List.NoDup (map project_id (db projects)) ->
  List.NoDup (map user_id (db users)) ->
  deleteProjectAccess projectUuid userUuid_ db = (Ok tt, db') ->
  exists profiles,
    fst (getProjectAccess queried db) = Ok profiles
    /\ fst (getProjectAccess queried db')
       = Ok (List.filter
               (fun profile =>
                  negb (String.eqb queried projectUuid
                        && String.eqb (userUuid profile) userUuid_))
               profiles).
Proof.
  intros Hprojects Husers Hcall. eexists. split; [reflexivity|].
  unfold deleteProjectAccess in Hcall. injection Hcall as <-.
  unfold getProjectAccess. cbn [fst snd]. f_equal.
  rewrite upd_same. unfold js_map.
  rewrite (flat_map_ext _ (joined_memberships db queried))
    by (intros m; apply joined_memberships_ext; apply upd_other;
        discriminate).
  apply map_flat_map_filter. intros m x _ Hx.
  pose proof (joined_row_selected db projectUuid userUuid_ queried
                Hprojects Husers m x Hx) as Hselected.
  destruct x as [[m0 u] e]. cbn [userUuid fst snd] in *.
  rewrite Hselected. reflexivity.
Qed.

Lemma sample_members_unique_projects :
  List.NoDup (map project_id (sample_members_database projects)).
Proof.
  vm_compute.
  repeat (apply List.NoDup_cons; [cbn; intuition discriminate|]).
  apply List.NoDup_nil.
Defined.

Lemma sample_members_unique_users :
  List.NoDup (map user_id (sample_members_database users)).
Proof.
  vm_compute.
  repeat (apply List.NoDup_cons; [cbn; intuition discriminate|]).
  apply List.NoDup_nil.
Defined.

Lemma deleteProjectAccess_removes_only_member_witness :
  exists profiles,
    fst (getProjectAccess "project-1" sample_members_database) = Ok profiles
    /\ fst (getProjectAccess "project-1"
              (snd (deleteProjectAccess "project-1" "user-7"
                      sample_members_database)))
       = Ok (List.filter
               (fun profile =>
                  negb (String.eqb "project-1" "project-1"
                        && String.eqb (userUuid profile) "user-7"))
               profiles).
Proof.
  exact (deleteProjectAccess_removes_only_member sample_members_database
           (snd (deleteProjectAccess "project-1" "user-7"
                   sample_members_database))
           "project-1" "user-7" "project-1"
           sample_members_unique_projects sample_members_unique_users
           eq_refl).
Defined.

(** X6: [updateProjectAccess] changes one role and nothing else. With
    project ids and user ids unique in their tables, the members that
    [getProjectAccess] lists for any project after a resolved call are the
    members listed before, the profiles of the given user in the given
    project carrying the new role. *)
Theorem updateProjectAccess_changes_only_role (db db' : Database)
    (projectUuid userUuid_ queried : Uuid) (role : string) :
  List.NoDup (map project_id (db projects)) ->
  List.NoDup (map user_id (db users)) ->
  updateProjectAccess projectUuid userUuid_ role db = (Ok tt, db') ->
  exists profiles,
    fst (getProjectAccess queried db) = Ok profiles
    /\ fst (getProjectAccess queried db')
       = Ok (map (with_role projectUuid userUuid_ role queried) profiles).
Proof.
  intros Hprojects Husers Hcall. eexists. split; [reflexivity|].
  unfold updateProjectAccess in Hcall. injection Hcall as <-.
  unfold getProjectAccess. cbn [fst snd]. f_equal.
  rewrite upd_same. unfold js_map.
  rewrite (flat_map_ext _ (joined_memberships db queried))
    by (intros m; apply joined_memberships_ext; apply upd_other;
        discriminate).
  apply map_flat_map_map. intros m _.
  destruct (selected_membership db projectUuid userUuid_ m) eqn:Eselected.
  - rewrite (joined_memberships_same_keys db queried m) by reflexivity.
    rewrite !map_map. apply map_ext_in. intros x Hx.
    pose proof (joined_row_selected db projectUuid userUuid_ queried
                  Hprojects Husers m x Hx) as Hselected.
    rewrite Eselected in Hselected.
    pose proof Hx as Hx'.
    apply in_joined_memberships in Hx' as (u & e & p & -> & _).
    cbn [fst snd] in *. unfold with_role. cbn [userUuid].
    rewrite Hselected. reflexivity.
  - rewrite map_map. apply map_ext_in. intros x Hx.
    pose proof (joined_row_selected db projectUuid userUuid_ queried
                  Hprojects Husers m x Hx) as Hselected.
    rewrite Eselected in Hselected.
    destruct x as [[m0 u] e]. cbn [fst snd] in *.
    unfold with_role. cbn [userUuid]. rewrite Hselected. reflexivity.
Qed.

Lemma updateProjectAccess_changes_only_role_witness :
  exists profiles,
    fst (getProjectAccess "project-1" sample_members_database) = Ok profiles
    /\ fst (getProjectAccess "project-1"
              (snd (updateProjectAccess "project-1" "user-7" "editor"
                      sample_members_database)))
       = Ok (map (with_role "project-1" "user-7" "editor" "project-1")
                 profiles).
Proof.
  exact (updateProjectAccess_changes_only_role sample_members_database
           (snd (updateProjectAccess "project-1" "user-7" "editor"
                   sample_members_database))
           "project-1" "user-7" "project-1" "editor"
           sample_members_unique_projects sample_members_unique_users
           eq_refl).
Defined.

(** The listing of the sample project before and after the two calls. *)
Example project_access_samples :
  fst (getProjectAccess "project-1" sample_members_database)
  = Ok [ {| userUuid := "user-7"; profile_email := "ada@example.com";
            profile_role := "viewer"; firstName := JString "Ada";
            profile_projectUuid := "project-1";
            lastName := JString "Lovelace" |} ]
  /\ fst (getProjectAccess "project-1"
            (snd (updateProjectAccess "project-1" "user-7" "editor"
                    sample_members_database)))
     = Ok [ {| userUuid := "user-7"; profile_email := "ada@example.com";
               profile_role := "editor"; firstName := JString "Ada";
               profile_projectUuid := "project-1";
               lastName := JString "Lovelace" |} ]
  /\ fst (getProjectAccess "project-1"
            (snd (deleteProjectAccess "project-1" "user-7"
                    sample_members_database)))
     = Ok []
  /\ length (snd (deleteProjectAccess "project-1" "user-7"
                    sample_members_database) project_memberships)
     = 1%nat.
Proof. repeat split; vm_compute; reflexivity. Qed.

Lemma first_In {A} (l : list A) (x : A) : first l = Some x -> In x l.
Proof.
  destruct l as [|y l]; intros H; [discriminate H|].
  injection H as <-. left. reflexivity.
Qed.

Lemma in_matching_users (email_ : string) (db : Database) (user_id_ : Z) :
  In user_id_ (matching_users email_ db) ->
  exists (u : Row users) (e : Row emails),
    In u (db users) /\ user_id u = user_id_
    /\ In e (db emails) /\ email_user_id (data e) = user_id u
    /\ email (data e) = email_.
Proof.
  unfold matching_users. intros H.
  apply in_flat_map in H as (u & Hu & H).
  apply in_map_iff in H as (e & <- & He).
  apply filter_In in He as [He Hcond].
  apply andb_true_iff in Hcond as [Heid Haddress].
  apply Z.eqb_eq in Heid. apply String.eqb_eq in Haddress.
  exists u, e. repeat split; assumption.
Qed.

Lemma in_matching_projects (projectUuid : Uuid) (db : Database)
    (p : Row projects) :
  In p (matching_projects projectUuid db) ->
  In p (db projects) /\ project_uuid p = projectUuid.
Proof.
  unfold matching_projects. intros H.
  apply filter_In in H as [Hp Huuid]. apply String.eqb_eq in Huuid.
  split; assumption.
Qed.

(** What a resolved [createProjectAccess] has done. *)
Lemma createProjectAccess_ok_inv (engine : StorageEngine)
    (projectUuid : Uuid) (email_ role : string) (db db' : Database) :
  createProjectAccess engine projectUuid email_ role db = (Ok tt, db') ->
  exists (p : Row projects) (u : Row users) (e : Row emails)
         (m : Row project_memberships),
    In p (db projects) /\ project_uuid p = projectUuid
    /\ In u (db users)
    /\ In e (db emails) /\ email_user_id (data e) = user_id u
    /\ email (data e) = email_
    /\ data m = {| membership_project_id := project_id p;
                   membership_role := role;
                   membership_user_id := user_id u |}
    /\ db' = upd project_memberships (db project_memberships ++ [m]) db.
Proof.
  intros Hcall. rewrite createProjectAccess_cases in Hcall.
  destruct (first (matching_users email_ db)) as [user_id_|] eqn:Euser;
    [|discriminate Hcall].
  destruct (first (matching_projects projectUuid db)) as [p|] eqn:Eproject;
    [|discriminate Hcall].
  apply first_In, in_matching_users in Euser
    as (u & e & Hu & <- & He & Heid & Haddress).
  apply first_In, in_matching_projects in Eproject as [Hp Huuid].
  unfold insert_membership_outcome in Hcall. revert Hcall.
  destruct (violates engine project_memberships _ db) as [err|].
  { destruct (bool_decide _); intros Hcall; discriminate Hcall. }
  intros Hcall. injection Hcall as <-.
  eexists p, u, e, (_, _). repeat split; try eassumption; reflexivity.
Qed.

(** X7: a member added by [createProjectAccess] is listed by
    [getProjectAccess]. When every email row with the given address is the
    primary one of its user and the call resolves, the members of the
    project contain a profile with that address, the given role and the
    project's uuid. *)
Theorem createProjectAccess_member_is_listed (engine : StorageEngine)
    (projectUuid : Uuid) (email_ role : string) (db db' : Database) :
  (forall e : Row emails,
      In e (db emails) -> email (data e) = email_ ->
      sql_is_true (column (email_columns (data e)) "is_primary") = true) ->
  createProjectAccess engine projectUuid email_ role db = (Ok tt, db') ->
  exists profiles profile,
    fst (getProjectAccess projectUuid db') = Ok profiles
    /\ In profile profiles
    /\ profile_email profile = email_
    /\ profile_role profile = role
    /\ profile_projectUuid profile = projectUuid.
Proof.
  intros Hprimary Hcall.
  apply createProjectAccess_ok_inv in Hcall
    as (p & u & e & m & Hp & Huuid & Hu & He & Heid & Haddress & Hm & ->).
  eexists.
  exists {| userUuid := user_uuid u;
            profile_email := email (data e);
            profile_role := membership_role (data m);
            firstName := column (user_columns (data u)) "first_name";
            profile_projectUuid := projectUuid;
            lastName := column (user_columns (data u)) "last_name" |}.
  split; [reflexivity|]. split.
  - unfold js_map. apply in_map_iff. exists (m, u, e).
    split; [reflexivity|]. apply in_flat_map. exists m. split.
    + rewrite upd_same. apply in_or_app. right. left. reflexivity.
    + apply joined_memberships_intro with (p := p);
        rewrite ?upd_other by discriminate;
        try assumption; try (rewrite Hm; reflexivity).
      apply Hprimary; assumption.
  - cbn [profile_email profile_role profile_projectUuid].
    rewrite Hm. repeat split. exact Haddress.
Qed.

Lemma createProjectAccess_member_is_listed_witness :
  exists profiles profile,
    fst (getProjectAccess "preview-2"
           (snd (createProjectAccess accepting_engine "preview-2"
                   "ada@example.com" "editor" sample_members_database)))
    = Ok profiles
    /\ In profile profiles
    /\ profile_email profile = "ada@example.com"
    /\ profile_role profile = "editor"
    /\ profile_projectUuid profile = "preview-2".
Proof.
  apply (createProjectAccess_member_is_listed accepting_engine "preview-2"
           "ada@example.com" "editor" sample_members_database).
  - intros e [<-|[]] _. reflexivity.
  - rewrite createProjectAccess_cases. reflexivity.
Defined.

(** X8: a resolved [createProjectAccess] has appended one row to
    [project_memberships] and changed nothing else: the row carries the
    given role, the id of a project with the given uuid and the id of a
    user who owns an email row with the given address. *)
Theorem createProjectAccess_appends_one_membership (engine : StorageEngine)
    (projectUuid : Uuid) (email_ role : string) (db db' : Database) :
  createProjectAccess engine projectUuid email_ role db = (Ok tt, db') ->
  exists (m : Row project_memberships),
    db' project_memberships = (db project_memberships ++ [m])%list
    /\ (forall t, t <> project_memberships -> db' t = db t)
    /\ membership_role (data m) = role
    /\ (exists p : Row projects,
           In p (db projects) /\ project_uuid p = projectUuid
           /\ membership_project_id (data m) = project_id p)
    /\ (exists (u : Row users) (e : Row emails),
           In u (db users) /\ In e (db emails)
           /\ email_user_id (data e) = user_id u
           /\ email (data e) = email_
           /\ membership_user_id (data m) = user_id u).
Proof.
  intros Hcall.
  apply createProjectAccess_ok_inv in Hcall
    as (p & u & e & m & Hp & Huuid & Hu & He & Heid & Haddress & Hm & ->).
  exists m. split; [apply upd_same|].
  split; [intros t Ht; apply upd_other; congruence|].
  rewrite Hm. split; [reflexivity|]. split.
  - exists p. repeat split; assumption.
  - exists u, e. repeat split; assumption.
Qed.

Lemma createProjectAccess_appends_one_membership_witness :
  exists (m : Row project_memberships),
    snd (createProjectAccess accepting_engine "preview-2"
           "ada@example.com" "editor" sample_members_database)
      project_memberships
    = (sample_members_database project_memberships ++ [m])%list
    /\ membership_role (data m) = "editor".
Proof.
  destruct (createProjectAccess_appends_one_membership accepting_engine
              "preview-2" "ada@example.com" "editor"
              sample_members_database
              (snd (createProjectAccess accepting_engine "preview-2"
                      "ada@example.com" "editor" sample_members_database)))
    as (m & Hrows & _ & Hrole & _).
  - rewrite createProjectAccess_cases. reflexivity.
  - exists m. split; assumption.
Defined.

(** X9: [createProjectAccess] for a project that does not exist. When a
    user owns the address but no project has the given uuid, the call
    rejects with the [TypeError] of reading [project_id] of [undefined]
    (not with [NotExistsError]), whatever the storage layer would answer,
    and the database is left as it was. *)
Theorem createProjectAccess_unknown_project (engine : StorageEngine)
    (projectUuid : Uuid) (email_ role : string) (db : Database) :
  matching_users email_ db <> [] ->
  matching_projects projectUuid db = [] ->
  exists message,
    createProjectAccess engine projectUuid email_ role db
    = (Err (TypeError message), db).
Proof.
  intros Huser Hproject. rewrite createProjectAccess_cases, Hproject.
  destruct (matching_users email_ db) as [|user_id_ others];
    [contradiction|].
  eexists. reflexivity.
Qed.

Lemma createProjectAccess_unknown_project_witness :
  exists message,
    createProjectAccess (rejecting_engine project_memberships)
      "no-such-project"
      "ada@example.com" "viewer" sample_members_database
    = (Err (TypeError message), sample_members_database).
Proof.
  apply (createProjectAccess_unknown_project
           (rejecting_engine project_memberships) "no-such-project" "ada@example.com" "viewer"
           sample_members_database).
  - vm_compute. discriminate.
  - reflexivity.
Defined.

(** ** The preview content cloner *)

Lemma zip_mapping_newId {A B K} (olds : list A) (news : list B)
    (key_old : A -> K) (key_new : B -> K) (mapping : list (IdMapping K)) :
  zip_mapping olds news key_old key_new = Ok mapping ->
  length news = length olds ->
  map newId mapping = map key_new news.
Proof.
  revert news mapping.
  induction olds as [|c olds IH]; intros news mapping H Hlength.
  - injection H as <-. destruct news; [reflexivity | discriminate Hlength].
  - cbn [zip_mapping] in H. destruct news as [|n news]; [discriminate H|].
    destruct (zip_mapping olds news key_old key_new) as [rest|e] eqn:E;
      [|discriminate H].
    injection H as <-. cbn [map newId]. f_equal. apply (IH news).
    + exact E.
    + injection Hlength as Hlength. exact Hlength.
Qed.

Lemma references_preserved_intro {P R D} (parents parentCopies : list P)
    (parentId : P -> Z) (mapping : list (IdMapping Z))
    (project : R -> D) (rows copies : list R) (f : R -> D)
    (foreignKey : R -> option Z) (foreignKey' : D -> option Z) :
  zip_mapping parents parentCopies parentId parentId = Ok mapping ->
  map project copies = js_map rows f ->
  (forall copy, foreignKey copy = foreignKey' (project copy)) ->
  (forall row, foreignKey' (f row) = find_newId mapping (foreignKey row)) ->
  references_preserved parents parentCopies parentId rows copies foreignKey.
Proof.
  intros Hmapping Hcopies Hproject Hkey.
  apply copies_lookup in Hcopies as [Hlength Hrows].
  split; [exact Hlength|].
  intros i row copy newKey Hrow Hcopy Hnew.
  rewrite Hproject, (Hrows i row copy Hrow Hcopy), Hkey in Hnew.
  apply find_newId_Some in Hnew as (entry & Hin & Hold & <-).
  destruct (zip_mapping_entry _ _ _ _ _ _ Hmapping Hin)
    as (j & parent & parentCopy & Hparent & HparentCopy & Hold' & Hnew').
  exists j, parent, parentCopy.
  split; [exact Hparent|]. split; [exact HparentCopy|].
  split; [rewrite Hold, Hold'; reflexivity | exact Hnew'].
Qed.

(** X10: the rewritten foreign keys of a clone lead from copies to copies.
    When [duplicateContent] resolves, every copy stands at the position of
    its source row, and whenever it holds a foreign key written through a
    lookup by id (the space of a share, a chart or a dashboard; the chart
    of a chart version; the chart version of its content; the dashboard of
    a dashboard version; the dashboard version of a tile or of tile
    content; the chart of a chart tile with a truthy chart id), the key is
    the id of the copy of a row in scope whose id the source row holds. *)
Theorem duplicateContent_references_lead_to_copies (engine : StorageEngine)
    (projectUuid previewProjectUuid : Uuid) (db db' : Database) :
  duplicateContent engine projectUuid previewProjectUuid db = (Ok tt, db') ->
  cloned_with db projectUuid previewProjectUuid db'
    (clone_preserves_references db).
Proof.
  intros Hcall.
  apply duplicateContent_ok in Hcall
    as (projectId & previewProjectId & inserted & mapping & tiles & Hcloned
        & Hdb & _).
  exists projectId, previewProjectId, inserted, mapping, tiles.
  split; [exact Hcloned|]. split; [exact Hdb|].
  pose proof (cloned_chartMapping _ _ _ _ _ _ _ _ Hcloned) as HchartMapping.
  pose proof (cloned_newTileContent _ _ _ _ _ _ _ _ Hcloned) as HtileContent.
  destruct Hcloned.
  unfold clone_preserves_references. cbv zeta.
  split; [|split; [|split; [|split; [|split; [|split; [|split;
    [|split]]]]]]];
    try (intros table);
    try (eapply (references_preserved_intro _ _ _ _ data);
         [eassumption | eauto | reflexivity | reflexivity]).
  intros i row copy chartId newKey Hrow Hcopy Hchart Hnonzero Hnew.
  destruct (copies_lookup data _ _ _ (HtileContent table))
    as [_ Hrows].
  rewrite (Hrows i row copy Hrow Hcopy) in Hnew.
  cbn [saved_chart_id] in Hnew. rewrite Hchart in Hnew.
  apply Z.eqb_neq in Hnonzero. rewrite Hnonzero in Hnew.
  apply find_newId_Some in Hnew as (entry & Hin & Hold & <-).
  destruct (zip_mapping_entry _ _ _ _ _ _ HchartMapping Hin)
    as (j & chart & chartCopy & Hparent & HparentCopy & Hold' & Hnew').
  exists j, chart, chartCopy.
  split; [exact Hparent|]. split; [exact HparentCopy|].
  split; [|exact Hnew']. injection Hold as ->. exact Hold'.
Qed.

Lemma duplicateContent_references_lead_to_copies_witness :
  cloned_with sample_database "project-1" "preview-2" (snd sample_clone)
    (clone_preserves_references sample_database).
Proof.
  exact (duplicateContent_references_lead_to_copies accepting_engine
           "project-1" "preview-2" sample_database (snd sample_clone)
           sample_clone_resolves).
Defined.

Lemma mapping_pairs_intro {P D} (mapping : list (IdMapping Z))
    (sources copies : list P) (id : P -> Z) (project : P -> D)
    (f : P -> D) :
  zip_mapping sources copies id id = Ok mapping ->
  map project copies = js_map sources f ->
  mapping_pairs mapping sources copies id.
Proof.
  intros Hmapping Hcopies. split.
  - apply (zip_mapping_oldId _ _ _ _ _ Hmapping).
  - apply (zip_mapping_newId _ _ _ _ _ Hmapping).
    apply (copies_lookup _ _ _ _ Hcopies).
Qed.

(** X11: the mapping record of a clone lists the copies. When
    [duplicateContent] resolves, one row is appended to [preview_content];
    each of its five mappings (spaces, charts, chart versions, dashboards,
    dashboard versions) holds, position by position, the ids of the source
    rows in scope as old ids and the ids of the inserted copies as new
    ids. *)
Theorem duplicateContent_mapping_lists_copies (engine : StorageEngine)
    (projectUuid previewProjectUuid : Uuid) (db db' : Database) :
  duplicateContent engine projectUuid previewProjectUuid db = (Ok tt, db') ->
  cloned_with db projectUuid previewProjectUuid db'
    (mapping_record_lists_copies db).
Proof.
  intros Hcall.
  apply duplicateContent_ok in Hcall
    as (projectId & previewProjectId & inserted & mapping & tiles & Hcloned
        & Hdb & _).
  exists projectId, previewProjectId, inserted, mapping, tiles.
  split; [exact Hcloned|]. split; [exact Hdb|].
  destruct Hcloned.
  unfold mapping_record_lists_copies. cbv zeta.
  split; [|split; [|split; [|split; [|split]]]];
    try (eapply (mapping_pairs_intro _ _ _ _ data); eassumption).
  rewrite <- (map_map (@data preview_content) content_mapping).
  match goal with
  | H : map data (inserted preview_content) = _ |- _ => rewrite H
  end.
  reflexivity.
Qed.

Lemma duplicateContent_mapping_lists_copies_witness :
  cloned_with sample_database "project-1" "preview-2" (snd sample_clone)
    (mapping_record_lists_copies sample_database).
Proof.
  exact (duplicateContent_mapping_lists_copies accepting_engine
           "project-1" "preview-2" sample_database (snd sample_clone)
           sample_clone_resolves).
Defined.

(** X12: [duplicateContent] resolves when nothing stops it. When both
    projects exist and the storage layer rejects none of the inserts, the
    call resolves: no lookup of the copy at the position of a source row
    fails, because every insert returns as many rows as it was given. *)
Theorem duplicateContent_resolves_when_inserts_accepted
    (engine : StorageEngine) (projectUuid previewProjectUuid : Uuid)
    (db : Database) :
  (forall t rows db0, violates engine t rows db0 = None) ->
  matching_projects projectUuid db <> [] ->
  matching_projects previewProjectUuid db <> [] ->
  exists db',
    duplicateContent engine projectUuid previewProjectUuid db = (Ok tt, db').
Proof.
  intros Haccepts Hsource Hpreview.
  apply duplicateContent_resolves; assumption.
Qed.

Lemma duplicateContent_resolves_when_inserts_accepted_witness :
  exists db',
    duplicateContent accepting_engine "project-1" "preview-2" sample_database
    = (Ok tt, db').
Proof.
  apply (duplicateContent_resolves_when_inserts_accepted accepting_engine
           "project-1" "preview-2" sample_database).
  - intros t rows db0. reflexivity.
  - vm_compute. discriminate.
  - vm_compute. discriminate.
Defined.

(** X13: [duplicateContent] into a preview project that does not exist.
    When the source project has a space and no project row has the preview
    uuid, the call rejects with the [TypeError] of reading [project_id] of
    [undefined], before anything is written and whatever the storage layer
    would answer; the database is left as it was. *)
Theorem duplicateContent_missing_preview_project (engine : StorageEngine)
    (projectUuid previewProjectUuid : Uuid) (db : Database)
    (project : Row projects) :
  first (matching_projects projectUuid db) = Some project ->
  cloned_spaces db (project_id project) <> [] ->
  matching_projects previewProjectUuid db = [] ->
  duplicateContent engine projectUuid previewProjectUuid db
  = (Err (TypeError "Cannot read properties of undefined"), db).
Proof.
  intros Hsource Hspaces Hpreview.
  unfold duplicateContent, transaction, duplicateContent_body.
  cbv zeta. rewrite !bind_where_.
  fold (matching_projects previewProjectUuid db).
  fold (matching_projects projectUuid db). rewrite Hsource, Hpreview.
  cbn [first head deref]. rewrite bind_ret, bind_where_.
  fold (cloned_spaces db (project_id project)).
  destruct (cloned_spaces db (project_id project)) as [|space0 others];
    [contradiction|].
  reflexivity.
Qed.

Lemma duplicateContent_missing_preview_project_witness :
  duplicateContent accepting_engine "project-1" "preview-9" sample_database
  = (Err (TypeError "Cannot read properties of undefined"), sample_database).
Proof.
  apply (duplicateContent_missing_preview_project accepting_engine
           "project-1" "preview-9" sample_database
           ((1, "project-1"), {| project_columns := [] |})).
  - reflexivity.
  - vm_compute. discriminate.
  - reflexivity.
Defined.

Lemma sql_in_nil (column : option Z) : sql_in column [] = false.
Proof. destruct column; reflexivity. Qed.

Lemma leftJoin_spaces_where_project_nil {R} (from : list R)
    (joined : list (Row spaces)) (space_of : R -> option Z)
    (projectId : Z) :
  List.filter (fun s : Row spaces =>
                 Z.eqb (space_project_id (data s)) projectId) joined = [] ->
  leftJoin_spaces_where_project from joined space_of projectId = [].
Proof.
  intros Hnone.
  destruct (leftJoin_spaces_where_project from joined space_of projectId)
    as [|r rest] eqn:E; [reflexivity|].
  assert (In r (leftJoin_spaces_where_project from joined space_of
                  projectId)) as Hin by (rewrite E; left; reflexivity).
  apply in_leftJoin_spaces_where_project in Hin
    as (_ & s & Hs & _ & Hproject).
  assert (In s (List.filter
                  (fun s : Row spaces =>
                     Z.eqb (space_project_id (data s)) projectId) joined))
    as Hfiltered.
  { apply filter_In. split; [exact Hs|]. apply Z.eqb_eq. exact Hproject. }
  rewrite Hnone in Hfiltered. contradiction.
Qed.

Lemma copyChartVersionContent_nil (engine : StorageEngine)
    (mapping : list (IdMapping Z)) (table : ChartVersionContentTable)
    (db : Database) :
  copyChartVersionContent engine [] mapping table db = (Ok None, db).
Proof.
  unfold copyChartVersionContent. rewrite bind_where_.
  rewrite filter_all_false by (intros d _; apply sql_in_nil).
  reflexivity.
Qed.

Lemma copyDashboardTileContent_nil (engine : StorageEngine)
    (uuids : list Uuid) (charts versions : list (IdMapping Z))
    (tiles : list (IdMapping Uuid)) (table : TileContentTable)
    (db : Database) :
  copyDashboardTileContent engine uuids [] charts versions tiles table db
  = (Ok None, db).
Proof.
  unfold copyDashboardTileContent. rewrite bind_where_.
  rewrite filter_all_false
    by (intros d _; rewrite sql_in_nil; apply andb_false_r).
  reflexivity.
Qed.

(** X14: the clone of a project without spaces. When the source project
    has no space, nothing is in scope: [duplicateContent] issues one
    insert, of a mapping record with empty mappings, and resolves or
    rejects as that insert does. The preview project is not read, so the
    call resolves even when no project has the preview uuid. *)
Theorem duplicateContent_of_project_without_spaces (engine : StorageEngine)
    (projectUuid previewProjectUuid : Uuid) (db : Database)
    (project : Row projects) :
  first (matching_projects projectUuid db) = Some project ->
  cloned_spaces db (project_id project) = [] ->
  duplicateContent engine projectUuid previewProjectUuid db
  = match violates engine preview_content
            [empty_mapping_record projectUuid previewProjectUuid] db with
    | Some e => (Err (PgDatabaseError e), db)
    | None =>
        (Ok tt,
         upd preview_content
           (db preview_content
            ++ [(generated engine preview_content db 0%nat,
                 empty_mapping_record projectUuid previewProjectUuid)])%list
           db)
    end.
Proof.
  intros Hsource Hspaces.
  unfold duplicateContent, transaction, duplicateContent_body.
  cbv zeta. rewrite !bind_where_.
  fold (matching_projects previewProjectUuid db).
  fold (matching_projects projectUuid db). rewrite Hsource.
  cbn [deref]. rewrite bind_ret, bind_where_.
  fold (cloned_spaces db (project_id project)). rewrite Hspaces.
  rewrite bind_ret. cbn [zip_mapping map].
  change (lift_result (Ok (@nil (IdMapping Z))))
    with (@ret Database _ (@nil (IdMapping Z))).
  rewrite bind_ret.
  (* space shares *)
  rewrite bind_where_.
  rewrite (filter_all_false _ (db space_share))
    by (intros d _; apply sql_in_nil).
  rewrite bind_ret.
  (* charts *)
  rewrite !bind_select.
  rewrite (leftJoin_spaces_where_project_nil (db saved_queries))
    by exact Hspaces.
  rewrite bind_ret. cbn [zip_mapping map].
  change (lift_result (Ok (@nil (IdMapping Z))))
    with (@ret Database _ (@nil (IdMapping Z))).
  rewrite bind_ret.
  (* chart versions *)
  rewrite bind_where_.
  rewrite (filter_all_false _ (db saved_queries_versions))
    by (intros d _; apply sql_in_nil).
  rewrite bind_where_.
  rewrite (filter_all_false _ (db saved_queries_versions))
    by (intros d _; reflexivity).
  rewrite bind_ret. cbn [zip_mapping map].
  change (lift_result (Ok (@nil (IdMapping Z))))
    with (@ret Database _ (@nil (IdMapping Z))).
  rewrite bind_ret.
  rewrite !(bind_ok _ _ _ _ _ (copyChartVersionContent_nil engine _ _ db)).
  (* dashboards *)
  rewrite !bind_select.
  rewrite (leftJoin_spaces_where_project_nil (db dashboards))
    by exact Hspaces.
  rewrite bind_ret. cbn [zip_mapping map].
  change (lift_result (Ok (@nil (IdMapping Z))))
    with (@ret Database _ (@nil (IdMapping Z))).
  rewrite bind_ret.
  (* dashboard versions *)
  rewrite bind_where_.
  rewrite (filter_all_false _ (db dashboard_versions))
    by (intros d _; apply sql_in_nil).
  rewrite bind_where_.
  rewrite (filter_all_false _ (db dashboard_versions))
    by (intros d _; reflexivity).
  rewrite bind_ret. cbn [zip_mapping map].
  change (lift_result (Ok (@nil (IdMapping Z))))
    with (@ret Database _ (@nil (IdMapping Z))).
  rewrite bind_ret.
  (* dashboard tiles *)
  change (groupBy_max (@nil (Row dashboard_versions))
            (fun v => dashboard_version_dashboard_id (data v))
            dashboard_version_id)
    with (@nil (option Z)).
  rewrite bind_where_.
  rewrite (filter_all_false _ (db dashboard_tiles))
    by (intros d _; apply sql_in_nil).
  rewrite bind_ret. cbn [zip_mapping js_map map].
  change (lift_result (Ok (@nil (IdMapping Uuid))))
    with (@ret Database _ (@nil (IdMapping Uuid))).
  rewrite bind_ret.
  rewrite !(bind_ok _ _ _ _ _
              (copyDashboardTileContent_nil engine _ _ _ _ _ db)).
  (* the mapping record *)
  fold (empty_mapping_record projectUuid previewProjectUuid).
  unfold bind, insert.
  destruct (violates engine preview_content _ db) as [e|]; reflexivity.
Qed.

Lemma duplicateContent_of_project_without_spaces_witness :
  duplicateContent accepting_engine "preview-2" "preview-9" sample_database
  = (Ok tt,
     upd preview_content
       (sample_database preview_content
        ++ [(generated accepting_engine preview_content sample_database
               0%nat,
             empty_mapping_record "preview-2" "preview-9")])%list
       sample_database).
Proof.
  apply (duplicateContent_of_project_without_spaces accepting_engine
           "preview-2" "preview-9" sample_database
           ((2, "preview-2"), {| project_columns := [] |})).
  - reflexivity.
  - reflexivity.
Defined.

(** ** The explore cache *)

(** A merge for one project leaves the rows of another project. *)
Lemma cached_rows_merged_other (projectUuid other : Uuid)
    (row : CachedExploresData) (rows : list (Row cached_explores)) :
  cached_explores_project_uuid row = projectUuid ->
  other <> projectUuid ->
  List.filter (conflicts other)
    (map (fun r => if conflicts projectUuid r then (fst r, row) else r) rows)
  = List.filter (conflicts other) rows.
Proof.
  intros Hrow Hother. induction rows as [|r rows IH]; [reflexivity|].
  cbn [map List.filter].
  destruct (conflicts projectUuid r) eqn:E.
  - assert (conflicts other (fst r, row) = false) as ->.
    { unfold conflicts, data. cbn [snd]. rewrite Hrow.
      apply String.eqb_neq. congruence. }
    assert (conflicts other r = false) as ->.
    { unfold conflicts in *. apply String.eqb_eq in E. rewrite E.
      apply String.eqb_neq. congruence. }
    exact IH.
  - destruct (conflicts other r); rewrite IH; reflexivity.
Qed.

(** The database after a resolved [saveExploresToCache]. *)
Lemma saveExploresToCache_ok_inv (engine : StorageEngine)
    (projectUuid : Uuid) (explores_ : list Json) (db db' : Database)
    (returned : option (Row cached_explores)) :
  saveExploresToCache engine projectUuid explores_ db = (Ok returned, db') ->
  let row := {| cached_explores_project_uuid := projectUuid;
                explores := explores_ |} in
  (existsb (conflicts projectUuid) (db cached_explores) = true
   /\ db' = upd cached_explores
              (map (fun r => if conflicts projectUuid r
                             then (fst r, row) else r)
                   (db cached_explores)) db
   /\ returned
      = first (List.filter (conflicts projectUuid)
                 (map (fun r => if conflicts projectUuid r
                                then (fst r, row) else r)
                      (db cached_explores))))
  \/ (existsb (conflicts projectUuid) (db cached_explores) = false
      /\ db' = upd cached_explores
                 (db cached_explores
                  ++ [(generated engine cached_explores db 0%nat, row)])%list
                 db
      /\ returned = Some (generated engine cached_explores db 0%nat, row)).
Proof.
  intros Hsave. cbv zeta. unfold saveExploresToCache in Hsave.
  apply bind_ok_inv in Hsave as (returning & db1 & Hinsert & Hret).
  unfold ret in Hret. injection Hret as <- <-.
  unfold insert_onConflict_merge in Hinsert. revert Hinsert.
  destruct (violates engine cached_explores _ db);
    [intros H; discriminate H|].
  change (fun r : Row cached_explores =>
            String.eqb (cached_explores_project_uuid (data r))
              (cached_explores_project_uuid
                 {| cached_explores_project_uuid := projectUuid;
                    explores := explores_ |}))
    with (conflicts projectUuid).
  destruct (existsb (conflicts projectUuid) (db cached_explores)) eqn:E;
    intros H; injection H as <- <-.
  - left. repeat split; reflexivity.
  - right. repeat split; reflexivity.
Qed.

(** X15: a save is confined to its project. When [saveExploresToCache]
    for one project resolves, [getExploresFromCache] for any other project
    returns what it returned before, and no table other than
    [cached_explores] has changed. *)
Theorem saveExploresToCache_leaves_other_projects (engine : StorageEngine)
    (projectUuid other : Uuid) (explores_ : list Json) (db db' : Database)
    (returned : option (Row cached_explores)) :
  other <> projectUuid ->
  saveExploresToCache engine projectUuid explores_ db = (Ok returned, db') ->
  fst (getExploresFromCache other db') = fst (getExploresFromCache other db)
  /\ forall t, t <> cached_explores -> db' t = db t.
Proof.
  intros Hother Hsave.
  apply saveExploresToCache_ok_inv in Hsave
    as [(_ & -> & _)|(_ & -> & _)].
  - split.
    + rewrite !getExploresFromCache_rows. cbn [fst]. unfold cached_rows.
      rewrite upd_same.
      change (fun r : Row cached_explores =>
                String.eqb (cached_explores_project_uuid (data r)) other)
        with (conflicts other).
      rewrite cached_rows_merged_other by (reflexivity || exact Hother).
      reflexivity.
    + intros t Ht. apply upd_other. congruence.
  - split.
    + rewrite !getExploresFromCache_rows. cbn [fst]. unfold cached_rows.
      rewrite upd_same, List.filter_app. cbn [List.filter].
      unfold data at 2. cbn [snd cached_explores_project_uuid].
      assert (String.eqb projectUuid other = false) as ->
        by (apply String.eqb_neq; congruence).
      rewrite app_nil_r. reflexivity.
    + intros t Ht. apply upd_other. congruence.
Qed.

Lemma saveExploresToCache_leaves_other_projects_witness :
  fst (getExploresFromCache "project-3"
         (snd (saveExploresToCache accepting_engine "project-1"
                 [JString "second"]
                 (snd (saveExploresToCache accepting_engine "project-3"
                         [JString "first"] sample_database)))))
  = fst (getExploresFromCache "project-3"
           (snd (saveExploresToCache accepting_engine "project-3"
                   [JString "first"] sample_database))).
Proof.
  refine (proj1 (saveExploresToCache_leaves_other_projects accepting_engine
                   "project-1" "project-3" [JString "second"]
                   (snd (saveExploresToCache accepting_engine "project-3"
                           [JString "first"] sample_database))
                   _ _ _ _)).
  - discriminate.
  - apply pair_eta_fst. reflexivity.
Defined.

(** X16: a save returns the row it stored. When [saveExploresToCache]
    resolves it returns a row of [cached_explores] that carries the project
    uuid and the snapshot, and [getExploresFromCache] for the project then
    returns the snapshot. *)
Theorem saveExploresToCache_returns_stored_row (engine : StorageEngine)
    (projectUuid : Uuid) (explores_ : list Json) (db db' : Database)
    (returned : option (Row cached_explores)) :
  saveExploresToCache engine projectUuid explores_ db = (Ok returned, db') ->
  (exists row,
      returned = Some row
      /\ In row (db' cached_explores)
      /\ data row = {| cached_explores_project_uuid := projectUuid;
                       explores := explores_ |})
  /\ getExploresFromCache projectUuid db' = (Ok (Some explores_), db').
Proof.
  intros Hsave. split.
  - apply saveExploresToCache_ok_inv in Hsave
      as [(Hexists & -> & ->)|(_ & -> & ->)].
    + rewrite upd_same.
      set (saved := {| cached_explores_project_uuid := projectUuid;
                       explores := explores_ |}).
      destruct (List.filter (conflicts projectUuid)
                  (map (fun r => if conflicts projectUuid r
                                 then (fst r, saved) else r)
                       (db cached_explores))) as [|row rest] eqn:Efilter.
      * exfalso. apply existsb_exists in Hexists as (r & Hin & Hr).
        assert (In (fst r, saved) (@nil (Row cached_explores))) as Hnil;
          [|contradiction].
        rewrite <- Efilter. apply filter_In. split.
        -- apply in_map_iff. exists r. rewrite Hr. split; [reflexivity|].
           exact Hin.
        -- unfold conflicts, data. cbn [snd cached_explores_project_uuid].
           apply String.eqb_refl.
      * exists row. split; [reflexivity|].
        assert (In row (row :: rest)) as Hin by (left; reflexivity).
        rewrite <- Efilter in Hin. apply filter_In in Hin as [Hin _].
        split; [exact Hin|].
        apply in_map_iff in Hin as (r & Hr & _).
        destruct (conflicts projectUuid r) eqn:E.
        -- rewrite <- Hr. reflexivity.
        -- exfalso. subst row.
           assert (In r (r :: rest)) as Hin by (left; reflexivity).
           rewrite <- Efilter in Hin. apply filter_In in Hin as [_ Hin].
           congruence.
    + rewrite upd_same. eexists. split; [reflexivity|].
      split; [|reflexivity]. apply in_or_app. right. left. reflexivity.
  - apply saveExploresToCache_ok in Hsave
      as [(row & rest & Hrows & Hexplores) _].
    rewrite getExploresFromCache_rows, Hrows, Hexplores. reflexivity.
Qed.

Lemma saveExploresToCache_returns_stored_row_witness :
  getExploresFromCache "project-1"
    (snd (saveExploresToCache accepting_engine "project-1"
            [JString "first"] sample_database))
  = (Ok (Some [JString "first"]),
     snd (saveExploresToCache accepting_engine "project-1"
            [JString "first"] sample_database)).
Proof.
  refine (proj2 (saveExploresToCache_returns_stored_row accepting_engine
                   "project-1" [JString "first"] sample_database
                   _ _ _)).
  apply pair_eta_fst. reflexivity.
Defined.

(** ** Reading a project without its secrets *)

Lemma filter_without_secrets (names : list string)
    (stored : gmap string JsValue) :
  without_secrets names stored
    (filter (fun entry : string * JsValue => fst entry ∉ names) stored).
Proof.
  intros key. destruct (bool_decide (key ∈ names)) eqn:E.
  - apply bool_decide_eq_true_1 in E. apply map_lookup_filter_None.
    right. intros v _ Hnot. apply Hnot. exact E.
  - apply bool_decide_eq_false_1 in E.
    destruct (stored !! key) as [v|] eqn:Estored.
    + apply map_lookup_filter_Some. split; [exact Estored | exact E].
    + apply map_lookup_filter_None. left. exact Estored.
Qed.

(** Merging a connection shown without its secrets with the stored
    connection gives the stored connection back. *)
Lemma merge_restores_stored (names : list string)
    (stored shown : gmap string JsValue) :
  without_secrets names stored shown ->
  restorable names stored ->
  mergeMissingDbtConfigSecrets names shown stored = stored.
Proof.
  intros Hshown (Htype & Hequal & Htruthy).
  assert (prop shown "type" = prop stored "type") as Hsame.
  { unfold prop. rewrite (Hshown "type").
    rewrite bool_decide_eq_false_2 by exact Htype. reflexivity. }
  apply map_eq. intros key.
  rewrite mergeMissingDbtConfigSecrets_lookup
    by (rewrite Hsame; exact Hequal).
  unfold refilled. unfold prop at 1. rewrite (Hshown key).
  destruct (bool_decide (key ∈ names)) eqn:E; [|reflexivity].
  apply bool_decide_eq_true_1 in E. cbn [default truthy negb andb].
  destruct (stored !! key) as [v|] eqn:Estored.
  - rewrite (Htruthy key E) by (rewrite Estored; eexists; reflexivity).
    unfold prop. rewrite Estored. reflexivity.
  - unfold prop. rewrite Estored. reflexivity.
Qed.

(** X17: [get] never returns a secret. When [getWithSensitiveFields]
    resolves, [get] resolves with the same project whose two connections
    hold every field of the stored connections except the ones named as
    secrets, which they do not hold at all; a project without warehouse
    credentials stays without; when [getWithSensitiveFields] rejects, [get]
    rejects with the same error. *)
Theorem get_never_returns_secrets (S : Type)
    (dbtNames warehouseNames : list string)
    (getWithSensitiveFields : Uuid -> M S Project) (projectUuid : Uuid)
    (s : S) :
  match getWithSensitiveFields projectUuid s with
  | (Ok stored, s') =>
      exists project,
        get dbtNames warehouseNames getWithSensitiveFields projectUuid s
        = (Ok project, s')
        /\ without_secrets dbtNames (dbtConnection stored)
             (dbtConnection project)
        /\ match warehouseConnection stored with
           | Some credentials =>
               exists shown,
                 warehouseConnection project = Some shown
                 /\ without_secrets warehouseNames credentials shown
           | None => warehouseConnection project = None
           end
        /\ organizationUuid project = organizationUuid stored
        /\ projectUuid_ project = projectUuid
        /\ project_name project = project_name stored
        /\ project_type project = project_type stored
        /\ pinnedListUuid project = pinnedListUuid stored
  | (Err e, s') =>
      get dbtNames warehouseNames getWithSensitiveFields projectUuid s
      = (Err e, s')
  end.
Proof.
  unfold get, bind.
  destruct (getWithSensitiveFields projectUuid s) as [[stored|e] s'];
    [|reflexivity].
  eexists. split; [reflexivity|].
  cbn [dbtConnection warehouseConnection organizationUuid projectUuid_
       project_name project_type pinnedListUuid].
  split; [apply filter_without_secrets|]. split.
  - destruct (warehouseConnection stored) as [credentials|];
      [|reflexivity].
    eexists. split; [reflexivity | apply filter_without_secrets].
  - repeat split; reflexivity.
Qed.

(** X18: what [get] hides, the merge restores. Let [get] resolve with a
    project read from a stored one, and let an update carry the
    connections of that project, unchanged. When the stored dbt connection
    is restorable (its type is not a secret, and its secrets are truthy),
    [mergeMissingProjectConfigSecrets] gives the update the stored dbt
    connection, secrets included; and the same holds for the warehouse
    connection when the project has one. *)
Theorem merge_restores_what_get_hides (S : Type)
    (dbtNames warehouseNames : list string)
    (getWithSensitiveFields : Uuid -> M S Project) (projectUuid : Uuid)
    (s s' : S) (stored project : Project) (update : UpdateProject) :
  getWithSensitiveFields projectUuid s = (Ok stored, s') ->
  get dbtNames warehouseNames getWithSensitiveFields projectUuid s
  = (Ok project, s') ->
  restorable dbtNames (dbtConnection stored) ->
  update_dbtConnection update = dbtConnection project ->
  let merged :=
    mergeMissingProjectConfigSecrets dbtNames warehouseNames update stored in
  update_dbtConnection merged = dbtConnection stored
  /\ forall credentials,
       warehouseConnection stored = Some credentials ->
       restorable warehouseNames credentials ->
       warehouseConnection project
       = Some (update_warehouseConnection update) ->
       update_warehouseConnection merged = credentials.
Proof.
  intros Hstored Hget Hrestorable Hdbt. cbv zeta.
  unfold get, bind in Hget. rewrite Hstored in Hget.
  unfold ret in Hget. injection Hget as <-.
  cbn [dbtConnection warehouseConnection] in *.
  unfold mergeMissingProjectConfigSecrets.
  cbn [update_dbtConnection update_warehouseConnection]. split.
  - rewrite Hdbt. apply merge_restores_stored; [|exact Hrestorable].
    apply filter_without_secrets.
  - intros credentials Hcredentials Hwarehouse Hshown.
    rewrite Hcredentials in Hshown |- *. injection Hshown as <-.
    rewrite mergeMissingWarehouseSecrets_dbt.
    apply merge_restores_stored; [|exact Hwarehouse].
    apply filter_without_secrets.
Qed.

Lemma sample_dbt_restorable :
  restorable ["personal_access_token"] sample_complete_dbt.
Proof.
  split; [|split].
  - intros H. apply list_elem_of_singleton in H. discriminate H.
  - vm_compute. reflexivity.
  - intros key Hin _. apply list_elem_of_singleton in Hin. subst key.
    vm_compute. reflexivity.
Defined.

Lemma merge_restores_what_get_hides_witness :
  update_dbtConnection
    (mergeMissingProjectConfigSecrets ["personal_access_token"] ["password"]
       sample_shown_update sample_stored_project)
  = sample_complete_dbt.
Proof.
  refine (proj1 (merge_restores_what_get_hides Database
                   ["personal_access_token"] ["password"] sample_reader
                   "project-1" sample_database sample_database
                   sample_stored_project _ sample_shown_update
                   eq_refl eq_refl sample_dbt_restorable _)).
  vm_compute. reflexivity.
Defined.

(** On the sample: [get] shows the project without the token and the
    password, and rejects as the reader does. *)
Example get_samples :
  (exists project,
      fst (get ["personal_access_token"] ["password"] sample_reader
             "project-1" sample_database) = Ok project
      /\ dbtConnection project
         = {[ "type" := JsString "github";
              "repository" := JsString "org/repo" ]}
      /\ warehouseConnection project
         = Some {[ "type" := JsString "postgres";
                   "host" := JsString "old" ]})
  /\ fst (get ["personal_access_token"] ["password"] sample_reader
            "project-9" sample_database)
     = Err (NotExistsError "Cannot find project with id: project-9").
Proof.
  split.
  - eexists. split; [reflexivity|]. split; vm_compute; reflexivity.
  - reflexivity.
Qed.

(** ** The tables configuration *)

Lemma column_set_column_same (name : string) (value : Json)
    (columns : Columns) :
  column (set_column name value columns) name = value.
Proof.
  unfold column, set_column. cbn [List.find fst snd].
  rewrite String.eqb_refl. reflexivity.
Qed.

Lemma column_set_column_other (name other : string) (value : Json)
    (columns : Columns) :
  other <> name ->
  column (set_column name value columns) other = column columns other.
Proof.
  intros Hother. unfold column, set_column. cbn [List.find fst snd].
  assert (String.eqb name other = false) as ->
    by (apply String.eqb_neq; congruence).
  induction columns as [|[k v] columns IH]; [reflexivity|].
  cbn [List.filter List.find fst snd].
  destruct (String.eqb k name) eqn:Ek; cbn [negb].
  - apply String.eqb_eq in Ek. subst k.
    assert (String.eqb name other = false) as ->
      by (apply String.eqb_neq; congruence).
    exact IH.
  - cbn [List.find fst snd]. destruct (String.eqb k other); [reflexivity|].
    exact IH.
Qed.

Lemma filter_map_commute {A} (f : A -> A) (g : A -> bool) (l : list A) :
  (forall x, g (f x) = g x) ->
  List.filter g (map f l) = map f (List.filter g l).
Proof.
  intros Hg. induction l as [|x l IH]; [reflexivity|].
  cbn [map List.filter]. rewrite Hg.
  destruct (g x); cbn [map]; rewrite IH; reflexivity.
Qed.

(** The projects with a given uuid after [updateTablesConfiguration]. *)
Lemma updateTablesConfiguration_projects (projectUuid queried : Uuid)
    (data_ : TablesConfiguration) (db db' : Database) :
  updateTablesConfiguration projectUuid data_ db = (Ok tt, db') ->
  (forall t, t <> projects -> db' t = db t)
  /\ matching_projects queried db'
     = map (fun p : Row projects =>
              if String.eqb (project_uuid p) projectUuid
              then (fst p,
                    {| project_columns :=
                         set_column "table_selection_value"
                           (tableSelection_value data_)
                           (set_column "table_selection_type"
                              (tableSelection_type data_)
                              (project_columns (data p))) |})
              else p)
           (matching_projects queried db).
Proof.
  intros Hcall. unfold updateTablesConfiguration in Hcall.
  injection Hcall as <-. split.
  - intros t Ht. apply upd_other. congruence.
  - unfold matching_projects. rewrite upd_same.
    apply filter_map_commute. intros p.
    destruct (String.eqb (project_uuid p) projectUuid); reflexivity.
Qed.

Lemma getTablesConfiguration_rows (projectUuid : Uuid) (db : Database) :
  getTablesConfiguration projectUuid db
  = match matching_projects projectUuid db with
    | [] =>
        (Err (NotExistsError
                ("Cannot find project with id: " ++ projectUuid)), db)
    | project :: _ =>
        (Ok {| tableSelection_type :=
                 column (project_columns (data project))
                   "table_selection_type";
               tableSelection_value :=
                 column (project_columns (data project))
                   "table_selection_value" |}, db)
    end.
Proof.
  unfold getTablesConfiguration. rewrite bind_where_.
  fold (matching_projects projectUuid db).
  destruct (matching_projects projectUuid db); reflexivity.
Qed.

(** X19: the tables configuration is read back as written. After a
    resolved [updateTablesConfiguration] for a project that exists,
    [getTablesConfiguration] returns the configuration written, and for
    every other project what it returned before; for a project that does
    not exist the update resolves all the same and changes no project,
    whereas [getTablesConfiguration] rejects with [NotExistsError]. No
    other table changes. *)
Theorem updateTablesConfiguration_read_back (projectUuid : Uuid)
    (data_ : TablesConfiguration) (db db' : Database) :
  updateTablesConfiguration projectUuid data_ db = (Ok tt, db') ->
  (matching_projects projectUuid db <> [] ->
   getTablesConfiguration projectUuid db' = (Ok data_, db'))
  /\ (forall other,
        other <> projectUuid ->
        fst (getTablesConfiguration other db')
        = fst (getTablesConfiguration other db))
  /\ (matching_projects projectUuid db = [] ->
      db' projects = db projects
      /\ getTablesConfiguration projectUuid db'
         = (Err (NotExistsError
                   ("Cannot find project with id: " ++ projectUuid)), db'))
  /\ (forall t, t <> projects -> db' t = db t).
Proof.
  intros Hcall.
  pose proof (updateTablesConfiguration_projects projectUuid projectUuid
                data_ db db' Hcall) as [Hframe Hsame].
  split; [|split; [|split]].
  - intros Hexists. rewrite getTablesConfiguration_rows, Hsame.
    destruct (matching_projects projectUuid db) as [|p rest] eqn:Ematching;
      [contradiction|].
    assert (In p (matching_projects projectUuid db)) as Hin
      by (rewrite Ematching; left; reflexivity).
    apply in_matching_projects in Hin as [_ Huuid].
    cbn [map]. rewrite Huuid, String.eqb_refl.
    unfold data at 1 2. cbn [snd project_columns].
    rewrite column_set_column_other by discriminate.
    rewrite !column_set_column_same. destruct data_. reflexivity.
  - intros other Hother.
    pose proof (updateTablesConfiguration_projects projectUuid other
                  data_ db db' Hcall) as [_ Hrows].
    rewrite !getTablesConfiguration_rows, Hrows.
    rewrite (map_ext_in _ id), map_id.
    + destruct (matching_projects other db); reflexivity.
    + intros p Hp. apply in_matching_projects in Hp as [_ Huuid].
      rewrite Huuid.
      assert (String.eqb other projectUuid = false) as ->
        by (apply String.eqb_neq; exact Hother).
      reflexivity.
  - intros Hmissing. split.
    + unfold updateTablesConfiguration in Hcall. injection Hcall as <-.
      rewrite upd_same. rewrite (map_ext_in _ id), map_id; [reflexivity|].
      intros p Hp.
      destruct (String.eqb (project_uuid p) projectUuid) eqn:E;
        [|reflexivity].
      exfalso.
      assert (In p (matching_projects projectUuid db)) as Hin
        by (apply filter_In; split; assumption).
      rewrite Hmissing in Hin. contradiction.
    + rewrite getTablesConfiguration_rows, Hsame, Hmissing. reflexivity.
  - exact Hframe.
Qed.

Lemma updateTablesConfiguration_read_back_witness :
  getTablesConfiguration "project-1"
    (snd (updateTablesConfiguration "project-1"
            {| tableSelection_type := JString "WITH_NAMES";
               tableSelection_value := JArray [JString "orders"] |}
            sample_database))
  = (Ok {| tableSelection_type := JString "WITH_NAMES";
           tableSelection_value := JArray [JString "orders"] |},
     snd (updateTablesConfiguration "project-1"
            {| tableSelection_type := JString "WITH_NAMES";
               tableSelection_value := JArray [JString "orders"] |}
            sample_database)).
Proof.
  refine (proj1 (updateTablesConfiguration_read_back "project-1"
                   {| tableSelection_type := JString "WITH_NAMES";
                      tableSelection_value := JArray [JString "orders"] |}
                   sample_database _ eq_refl) _).
  vm_compute. discriminate.
Defined.
